(** * CHMS health-metrics engine: a shallow embedding and its properties

    The development follows the Python sources
      - [chms/utils/health_calculations.py]
      - [chms/chms/doctype/visit/visit.py]
      - [chms/chms/doctype/corporate_screening/corporate_screening.py]
      - [chms/api/dashboard_api.py]

    Conventions of the embedding.
      - A Python value that can sit in a visit record or a SQL row is a
        [pyval]: [None], a number, or a string.  Numbers (Python [int] and
        finite [float]) are exact rationals [Q]; comparisons of Python
        numbers are exact, so thresholds behave as in the source.
        [round(x, 1)] is modelled on the exact rational (round half to even).
      - A [dict] read with [.get] is a [gmap string pyval]; an absent key and
        a key bound to [None] are different things, as in Python.
      - A Python exception is a [Raise] in the [result] monad.
      - A dict built by successive assignments and then summed
        ([scores] in the wellness wheel) is an insertion-ordered
        association list. *)

From Stdlib Require Import ZArith QArith Qround Lqa Lia List Bool.
From stdpp Require Import base option strings list gmap fin_maps.

Local Open Scope Q_scope.

(** ** Python values, exceptions, and the primitive operations used *)

Inductive pyval : Type :=
  | PNone
  | PNum (q : Q)
  | PStr (s : string).

Inductive exn : Type :=
  | TypeError
  | KeyError
  | UnboundLocalError
  | ZeroDivisionError.

Inductive result (A : Type) : Type :=
  | Ok (a : A)
  | Raise (e : exn).
Arguments Ok {A} a.
Arguments Raise {A} e.

Definition bind {A B : Type} (m : result A) (f : A -> result B) : result B :=
  match m with Ok a => f a | Raise e => Raise e end.

Notation "'let*' x ':=' m 'in' k" := (bind m (fun x => k))
  (at level 10, x name, m at level 100, k at level 200).

(** The value a call returned, if it returned. *)
Definition returned {A : Type} (r : result A) : option A :=
  match r with Ok a => Some a | Raise _ => None end.

(** [bool(v)] *)
Definition truthy (v : pyval) : bool :=
  match v with
  | PNone => false
  | PNum q => negb (Qeq_bool q 0)
  | PStr s => negb (String.eqb s "")
  end.

(** Comparison of a value with a numeric literal; [None] or a string on the
    left raises [TypeError]. *)
Definition py_lt (v : pyval) (c : Q) : result bool :=
  match v with PNum q => Ok (negb (Qle_bool c q)) | _ => Raise TypeError end.
Definition py_le (v : pyval) (c : Q) : result bool :=
  match v with PNum q => Ok (Qle_bool q c) | _ => Raise TypeError end.
Definition py_ge (v : pyval) (c : Q) : result bool :=
  match v with PNum q => Ok (Qle_bool c q) | _ => Raise TypeError end.
Definition py_gt (v : pyval) (c : Q) : result bool :=
  match v with PNum q => Ok (negb (Qle_bool q c)) | _ => Raise TypeError end.

(** [a and b], [a or b] on conditions: the right operand is evaluated only
    when the left one does not decide. *)
Definition and_then (a b : result bool) : result bool :=
  let* x := a in if x then b else Ok false.
Definition or_else (a b : result bool) : result bool :=
  let* x := a in if x then Ok true else b.

(** [v and <cond>] where the left operand is a bare value. *)
Definition guard (v : pyval) (b : result bool) : result bool :=
  if truthy v then b else Ok false.

(** [v == 'literal'] and [v in ['a', 'b']]: never raise. *)
Definition py_eq_str (v : pyval) (s : string) : bool :=
  match v with PStr t => String.eqb t s | _ => false end.
Definition py_in (v : pyval) (l : list string) : bool :=
  existsb (py_eq_str v) l.

(** [d.get(k)] and [d.get(k, dflt)] *)
Definition dict_get (d : gmap string pyval) (k : string) : pyval :=
  default PNone (d !! k).
Definition dict_get_or (d : gmap string pyval) (k : string) (dflt : pyval) : pyval :=
  default dflt (d !! k).

(** [d[k]] *)
Definition dict_item (d : gmap string pyval) (k : string) : result pyval :=
  match d !! k with Some v => Ok v | None => Raise KeyError end.

(** [len([v for v in visits if p(v)])]: the condition is evaluated on the
    rows from left to right, and the first exception ends the comprehension. *)
Fixpoint count_where {A : Type} (p : A -> result bool) (visits : list A)
  : result Z :=
  match visits with
  | [] => Ok 0%Z
  | v :: vs =>
      let* b := p v in
      let* n := count_where p vs in
      Ok (if b then (1 + n)%Z else n)
  end.

(** The same when the condition cannot raise. *)
Definition count_if {A : Type} (p : A -> bool) (visits : list A) : Z :=
  Z.of_nat (length (List.filter p visits)).

(** [mapping.get(v, dflt)] for a literal table with string keys. *)
Definition mapping_get (m : gmap string Z) (v : pyval) (dflt : Z) : Z :=
  match v with PStr s => default dflt (m !! s) | _ => dflt end.

(** [a / b] on numbers. *)
Definition py_div (a b : Q) : result Q :=
  if Qeq_bool b 0 then Raise ZeroDivisionError else Ok (a / b).

(** [round(x)] to the nearest integer, ties to even, and [round(x, 1)]. *)
Definition round_half_even (q : Q) : Z :=
  let f := Qfloor q in
  match Qcompare (q - inject_Z f) (1 # 2) with
  | Lt => f
  | Gt => (f + 1)%Z
  | Eq => if Z.even f then f else (f + 1)%Z
  end.
Definition round1 (q : Q) : Q := round_half_even (q * 10) # 10.

(** Insertion-ordered dict built by assignments [d[k] = v]. *)
Fixpoint dict_set {A : Type} (d : list (string * A)) (k : string) (v : A)
  : list (string * A) :=
  match d with
  | [] => [(k, v)]
  | (k', v') :: d' =>
      if String.eqb k' k then (k, v) :: d' else (k', v') :: dict_set d' k v
  end.
Definition dict_values {A : Type} (d : list (string * A)) : list A := map snd d.
Definition sumQ (l : list Q) : Q := fold_left Qplus l 0.

(** ** chms/utils/health_calculations.py *)

Definition get_blood_pressure_category (systolic diastolic : pyval)
  : result (option string) :=
  if negb (truthy systolic) || negb (truthy diastolic) then Ok None else
  let* c1 := and_then (py_lt systolic 120) (py_lt diastolic 80) in
  if c1 then Ok (Some "Normal"%string) else
  let* c2 := and_then (py_lt systolic 130) (py_lt diastolic 80) in
  if c2 then Ok (Some "Elevated"%string) else
  let* c3 := or_else (py_lt systolic 140) (py_lt diastolic 90) in
  if c3 then Ok (Some "High Blood Pressure Stage 1"%string) else
  let* c4 := or_else (py_lt systolic 180) (py_lt diastolic 120) in
  if c4 then Ok (Some "High Blood Pressure Stage 2"%string) else
  Ok (Some "Hypertensive Crisis"%string).

Definition get_glucose_category (glucose_mg_dl : pyval) : result (option string) :=
  if negb (truthy glucose_mg_dl) then Ok None else
  let* c1 := py_lt glucose_mg_dl 70 in
  if c1 then Ok (Some "Low"%string) else
  let* c2 := py_lt glucose_mg_dl 100 in
  if c2 then Ok (Some "Normal (Fasting)"%string) else
  let* c3 := py_lt glucose_mg_dl 126 in
  if c3 then Ok (Some "Prediabetic (Fasting)"%string) else
  let* c4 := py_lt glucose_mg_dl 200 in
  if c4 then Ok (Some "Diabetic (Fasting)"%string) else
  Ok (Some "Severely Elevated"%string).

(** *** calculate_cardiovascular_risk_score *)

Record risk_assessment : Type := {
  risk_score : Z;
  risk_level : string;
  risk_factors : list string
}.

(** The two locals [risk_score] and [risk_factors], threaded through the
    six blocks of the function body. *)
Definition risk_state : Type := (Z * list string)%type.

(** [risk_score += pts; risk_factors.append(name)] *)
Definition add_risk (st : risk_state) (pts : Z) (name : string) : risk_state :=
  ((st.1 + pts)%Z, st.2 ++ [name]).

(** # Age risk *)
Definition age_risk (visit_data : gmap string pyval) (st : risk_state)
  : result risk_state :=
  let age := dict_get_or visit_data "age" (PNum 0) in
  let* c := py_ge age 45 in
  Ok (if c then add_risk st 1 "Age ≥45" else st).

(** # BMI risk *)
Definition bmi_risk (visit_data : gmap string pyval) (st : risk_state)
  : result risk_state :=
  let bmi := dict_get visit_data "bmi" in
  let* c := guard bmi (py_ge bmi 30) in
  if c then Ok (add_risk st 2 "Obesity") else
  let* c := guard bmi (py_ge bmi 25) in
  if c then Ok (add_risk st 1 "Overweight") else Ok st.

(** # Blood pressure risk *)
Definition blood_pressure_risk (visit_data : gmap string pyval) (st : risk_state)
  : result risk_state :=
  let systolic := dict_get visit_data "blood_pressure_systolic" in
  let diastolic := dict_get visit_data "blood_pressure_diastolic" in
  if truthy systolic && truthy diastolic then
    let* c := or_else (py_ge systolic 140) (py_ge diastolic 90) in
    if c then Ok (add_risk st 2 "Hypertension") else
    let* c := or_else (py_ge systolic 130) (py_ge diastolic 80) in
    if c then Ok (add_risk st 1 "Elevated BP") else Ok st
  else Ok st.

(** # Glucose risk *)
Definition glucose_risk (visit_data : gmap string pyval) (st : risk_state)
  : result risk_state :=
  let glucose := dict_get visit_data "blood_glucose" in
  if truthy glucose then
    let* c := py_ge glucose 126 in
    if c then Ok (add_risk st 2 "Diabetes") else
    let* c := py_ge glucose 100 in
    if c then Ok (add_risk st 1 "Prediabetes") else Ok st
  else Ok st.

(** # Smoking risk *)
Definition smoking_risk (visit_data : gmap string pyval) (st : risk_state)
  : result risk_state :=
  let smoking := dict_get visit_data "smoking_habits" in
  Ok (if py_in smoking ["Daily"; "Occasionally"]%string
      then add_risk st 2 "Smoking" else st).

(** # Physical activity risk *)
Definition exercise_risk (visit_data : gmap string pyval) (st : risk_state)
  : result risk_state :=
  let exercise := dict_get visit_data "exercise_frequency" in
  Ok (if py_in exercise ["None"; "Rarely"]%string
      then add_risk st 1 "Physical Inactivity" else st).

(** # Determine risk level *)
Definition determine_risk_level (risk_score : Z) : string :=
  if (risk_score <=? 2)%Z then "Low Risk"
  else if (risk_score <=? 4)%Z then "Moderate Risk"
  else if (risk_score <=? 6)%Z then "High Risk"
  else "Very High Risk".

Definition calculate_cardiovascular_risk_score (visit_data : gmap string pyval)
  : result risk_assessment :=
  let st : risk_state := (0%Z, []) in
  let* st := age_risk visit_data st in
  let* st := bmi_risk visit_data st in
  let* st := blood_pressure_risk visit_data st in
  let* st := glucose_risk visit_data st in
  let* st := smoking_risk visit_data st in
  let* st := exercise_risk visit_data st in
  Ok {| risk_score := st.1;
        risk_level := determine_risk_level st.1;
        risk_factors := st.2 |}.

(** *** calculate_metabolic_syndrome_criteria *)

Record metabolic_result : Type := {
  criteria_met : Z;
  has_metabolic_syndrome : bool;
  criteria_details : list string
}.

(** [threshold = 40 if gender == 'Male' else 35], with its rendering in the
    f-string of the detail line. *)
Definition waist_threshold (gender : pyval) : Q * string :=
  if py_eq_str gender "Male" then (40, "40"%string) else (35, "35"%string).

Definition calculate_metabolic_syndrome_criteria (visit_data : gmap string pyval)
  : result metabolic_result :=
  let st : Z * list string := (0%Z, []) in
  (* Waist circumference *)
  let waist := dict_get visit_data "waist_circumference" in
  let gender := dict_get visit_data "gender" in
  let* st :=
    if truthy waist && truthy gender then
      let threshold := waist_threshold gender in
      let* c := py_ge waist threshold.1 in
      Ok (if c
          then add_risk st 1 ("Waist circumference ≥" +:+ threshold.2 +:+ " inches")
          else st)
    else Ok st in
  (* Blood pressure *)
  let systolic := dict_get visit_data "blood_pressure_systolic" in
  let diastolic := dict_get visit_data "blood_pressure_diastolic" in
  let* c := guard systolic (guard diastolic
              (or_else (py_ge systolic 130) (py_ge diastolic 85))) in
  let st := if c then add_risk st 1 "Elevated blood pressure" else st in
  (* Fasting glucose *)
  let glucose := dict_get visit_data "blood_glucose" in
  let* c := guard glucose (py_ge glucose 100) in
  let st := if c then add_risk st 1 "Elevated fasting glucose" else st in
  let has_metabolic_syndrome := (3 <=? st.1)%Z in
  Ok {| criteria_met := st.1;
        has_metabolic_syndrome := has_metabolic_syndrome;
        criteria_details := st.2 |}.

(** *** calculate_wellness_wheel_scores *)

Definition exercise_mapping : gmap string Z :=
  <["None"%string := 1%Z]> (<["Rarely"%string := 3%Z]>
  (<["1-2 times/week"%string := 5%Z]> (<["3-4 times/week"%string := 8%Z]>
  (<["5+ times/week"%string := 10%Z]> ∅)))).

Definition stress_mapping : gmap string Z :=
  <["Low (1-3)"%string := 9%Z]> (<["Moderate (4-6)"%string := 5%Z]>
  (<["High (7-10)"%string := 2%Z]> ∅)).

Definition smoking_mapping : gmap string Z :=
  <["Never"%string := 10%Z]> (<["Former Smoker"%string := 7%Z]>
  (<["Occasionally"%string := 3%Z]> (<["Daily"%string := 1%Z]> ∅))).

Definition alcohol_mapping : gmap string Z :=
  <["None"%string := 8%Z]> (<["Occasionally"%string := 9%Z]>
  (<["Social Drinking"%string := 7%Z]> (<["Binge Drinking"%string := 3%Z]>
  (<["Heavy Drinking"%string := 1%Z]> ∅)))).

(** # Sleep score (based on hours) *)
Definition sleep_score (sleep_hours : pyval) : result Z :=
  let* c := and_then (py_ge sleep_hours 7) (py_le sleep_hours 9) in
  if c then Ok 8%Z else
  let* c := and_then (py_ge sleep_hours 6) (py_le sleep_hours 10) in
  if c then Ok 6%Z else Ok 3%Z.

Definition calculate_wellness_wheel_scores (visit_data : gmap string pyval)
  : result (list (string * Q)) :=
  let scores : list (string * Q) := [] in
  let exercise := dict_get visit_data "exercise_frequency" in
  let scores := dict_set scores "exercise"
                  (inject_Z (mapping_get exercise_mapping exercise 5)) in
  let sleep_hours := dict_get_or visit_data "sleep_hours" (PNum 7) in
  let* s := sleep_score sleep_hours in
  let scores := dict_set scores "sleep" (inject_Z s) in
  let stress := dict_get visit_data "stress_level" in
  let scores := dict_set scores "stress"
                  (inject_Z (mapping_get stress_mapping stress 5)) in
  let smoking := dict_get visit_data "smoking_habits" in
  let scores := dict_set scores "smoking"
                  (inject_Z (mapping_get smoking_mapping smoking 10)) in
  let alcohol := dict_get visit_data "alcohol_consumption" in
  let scores := dict_set scores "alcohol"
                  (inject_Z (mapping_get alcohol_mapping alcohol 7)) in
  (* Overall wellness score (average) *)
  let* mean := py_div (sumQ (dict_values scores))
                      (inject_Z (Z.of_nat (length scores))) in
  Ok (dict_set scores "overall" (round1 mean)).

(** ** chms/chms/doctype/visit/visit.py *)

Module Visit.

(** The fields of a Visit document read by its classification methods. *)
Record t : Type := {
  bmi : pyval;
  blood_pressure_systolic : pyval;
  blood_pressure_diastolic : pyval;
  blood_glucose : pyval
}.

Definition get_glucose_category (self : t) : result (option string) :=
  if negb (truthy (blood_glucose self)) then Ok None else
  let glucose := blood_glucose self in
  let* c1 := py_lt glucose 70 in
  if c1 then Ok (Some "Low"%string) else
  let* c2 := py_lt glucose 100 in
  if c2 then Ok (Some "Normal"%string) else
  let* c3 := py_lt glucose 140 in
  if c3 then Ok (Some "Prediabetic"%string) else
  Ok (Some "Diabetic"%string).

End Visit.

(** ** chms/chms/doctype/corporate_screening/corporate_screening.py *)

Module CorporateScreening.

(** One instantiated template of the narrative.  The f-strings of the
    source are kept as the template chosen and the values put in it; the
    summary is the list of these, in the order they are appended. *)
Inductive sentence : Type :=
  | NoScreeningData
  | Participation (total : option Z) (company : string)
  | GenderDistribution (male_pct female_pct : Q)
  | ObesityPrevalence (pct : Q)
  | HypertensionPrevalence (pct : Q)
  | DiabetesPrevalence (pct : Q)
  | SmokingPrevalence (pct : Q)
  | HighRiskEmployees (pct : Q)
  | RecommendedInterventions (recs : list string).

(** The statistics fields of a Corporate Screening document.  [None] is a
    field that holds no value. *)
Record t : Type := {
  company_name : string;
  cost_per_participant : option Q;
  total_participants : option Z;
  male_participants : option Z;
  female_participants : option Z;
  age_group_18_30 : option Z;
  age_group_31_50 : option Z;
  age_group_51_plus : option Z;
  obesity_prevalence : option Q;
  hypertension_prevalence : option Q;
  diabetes_prevalence : option Q;
  smoking_prevalence : option Q;
  high_risk_participants : option Z;
  total_cost : option Q;
  executive_summary : option (list sentence)
}.

(** A document on which no statistic has been computed yet. *)
Definition new_doc (company : string) (cost : option Q) : t :=
  {| company_name := company; cost_per_participant := cost;
     total_participants := None; male_participants := None;
     female_participants := None; age_group_18_30 := None;
     age_group_31_50 := None; age_group_51_plus := None;
     obesity_prevalence := None; hypertension_prevalence := None;
     diabetes_prevalence := None; smoking_prevalence := None;
     high_risk_participants := None; total_cost := None;
     executive_summary := None |}.

(** Attribute assignments [self.f = v]. *)
Definition set_total_participants (v : option Z) (d : t) : t :=
  {| company_name := company_name d; cost_per_participant := cost_per_participant d;
     total_participants := v; male_participants := male_participants d;
     female_participants := female_participants d; age_group_18_30 := age_group_18_30 d;
     age_group_31_50 := age_group_31_50 d; age_group_51_plus := age_group_51_plus d;
     obesity_prevalence := obesity_prevalence d;
     hypertension_prevalence := hypertension_prevalence d;
     diabetes_prevalence := diabetes_prevalence d;
     smoking_prevalence := smoking_prevalence d;
     high_risk_participants := high_risk_participants d; total_cost := total_cost d;
     executive_summary := executive_summary d |}.
Definition set_demographics (male female g1 g2 g3 : option Z) (d : t) : t :=
  {| company_name := company_name d; cost_per_participant := cost_per_participant d;
     total_participants := total_participants d; male_participants := male;
     female_participants := female; age_group_18_30 := g1;
     age_group_31_50 := g2; age_group_51_plus := g3;
     obesity_prevalence := obesity_prevalence d;
     hypertension_prevalence := hypertension_prevalence d;
     diabetes_prevalence := diabetes_prevalence d;
     smoking_prevalence := smoking_prevalence d;
     high_risk_participants := high_risk_participants d; total_cost := total_cost d;
     executive_summary := executive_summary d |}.
Definition set_obesity_prevalence (v : option Q) (d : t) : t :=
  {| company_name := company_name d; cost_per_participant := cost_per_participant d;
     total_participants := total_participants d; male_participants := male_participants d;
     female_participants := female_participants d; age_group_18_30 := age_group_18_30 d;
     age_group_31_50 := age_group_31_50 d; age_group_51_plus := age_group_51_plus d;
     obesity_prevalence := v;
     hypertension_prevalence := hypertension_prevalence d;
     diabetes_prevalence := diabetes_prevalence d;
     smoking_prevalence := smoking_prevalence d;
     high_risk_participants := high_risk_participants d; total_cost := total_cost d;
     executive_summary := executive_summary d |}.
Definition set_hypertension_prevalence (v : option Q) (d : t) : t :=
  {| company_name := company_name d; cost_per_participant := cost_per_participant d;
     total_participants := total_participants d; male_participants := male_participants d;
     female_participants := female_participants d; age_group_18_30 := age_group_18_30 d;
     age_group_31_50 := age_group_31_50 d; age_group_51_plus := age_group_51_plus d;
     obesity_prevalence := obesity_prevalence d;
     hypertension_prevalence := v;
     diabetes_prevalence := diabetes_prevalence d;
     smoking_prevalence := smoking_prevalence d;
     high_risk_participants := high_risk_participants d; total_cost := total_cost d;
     executive_summary := executive_summary d |}.
Definition set_diabetes_prevalence (v : option Q) (d : t) : t :=
  {| company_name := company_name d; cost_per_participant := cost_per_participant d;
     total_participants := total_participants d; male_participants := male_participants d;
     female_participants := female_participants d; age_group_18_30 := age_group_18_30 d;
     age_group_31_50 := age_group_31_50 d; age_group_51_plus := age_group_51_plus d;
     obesity_prevalence := obesity_prevalence d;
     hypertension_prevalence := hypertension_prevalence d;
     diabetes_prevalence := v;
     smoking_prevalence := smoking_prevalence d;
     high_risk_participants := high_risk_participants d; total_cost := total_cost d;
     executive_summary := executive_summary d |}.
Definition set_smoking_prevalence (v : option Q) (d : t) : t :=
  {| company_name := company_name d; cost_per_participant := cost_per_participant d;
     total_participants := total_participants d; male_participants := male_participants d;
     female_participants := female_participants d; age_group_18_30 := age_group_18_30 d;
     age_group_31_50 := age_group_31_50 d; age_group_51_plus := age_group_51_plus d;
     obesity_prevalence := obesity_prevalence d;
     hypertension_prevalence := hypertension_prevalence d;
     diabetes_prevalence := diabetes_prevalence d;
     smoking_prevalence := v;
     high_risk_participants := high_risk_participants d; total_cost := total_cost d;
     executive_summary := executive_summary d |}.
Definition set_high_risk_participants (v : option Z) (d : t) : t :=
  {| company_name := company_name d; cost_per_participant := cost_per_participant d;
     total_participants := total_participants d; male_participants := male_participants d;
     female_participants := female_participants d; age_group_18_30 := age_group_18_30 d;
     age_group_31_50 := age_group_31_50 d; age_group_51_plus := age_group_51_plus d;
     obesity_prevalence := obesity_prevalence d;
     hypertension_prevalence := hypertension_prevalence d;
     diabetes_prevalence := diabetes_prevalence d;
     smoking_prevalence := smoking_prevalence d;
     high_risk_participants := v; total_cost := total_cost d;
     executive_summary := executive_summary d |}.
Definition set_total_cost (v : option Q) (d : t) : t :=
  {| company_name := company_name d; cost_per_participant := cost_per_participant d;
     total_participants := total_participants d; male_participants := male_participants d;
     female_participants := female_participants d; age_group_18_30 := age_group_18_30 d;
     age_group_31_50 := age_group_31_50 d; age_group_51_plus := age_group_51_plus d;
     obesity_prevalence := obesity_prevalence d;
     hypertension_prevalence := hypertension_prevalence d;
     diabetes_prevalence := diabetes_prevalence d;
     smoking_prevalence := smoking_prevalence d;
     high_risk_participants := high_risk_participants d; total_cost := v;
     executive_summary := executive_summary d |}.
Definition set_executive_summary (v : option (list sentence)) (d : t) : t :=
  {| company_name := company_name d; cost_per_participant := cost_per_participant d;
     total_participants := total_participants d; male_participants := male_participants d;
     female_participants := female_participants d; age_group_18_30 := age_group_18_30 d;
     age_group_31_50 := age_group_31_50 d; age_group_51_plus := age_group_51_plus d;
     obesity_prevalence := obesity_prevalence d;
     hypertension_prevalence := hypertension_prevalence d;
     diabetes_prevalence := diabetes_prevalence d;
     smoking_prevalence := smoking_prevalence d;
     high_risk_participants := high_risk_participants d; total_cost := total_cost d;
     executive_summary := v |}.

(** The conditions of the list comprehensions, one per metric. *)

(** [v.get('bmi') and v['bmi'] >= 30] *)
Definition is_obese (v : gmap string pyval) : result bool :=
  guard (dict_get v "bmi")
    (let* x := dict_item v "bmi" in py_ge x 30).

(** [v.get('blood_pressure_systolic') and v.get('blood_pressure_diastolic')
     and (v['blood_pressure_systolic'] >= 140 or v['blood_pressure_diastolic'] >= 90)] *)
Definition is_hypertensive (v : gmap string pyval) : result bool :=
  guard (dict_get v "blood_pressure_systolic")
    (guard (dict_get v "blood_pressure_diastolic")
       (or_else (let* s := dict_item v "blood_pressure_systolic" in py_ge s 140)
                (let* d := dict_item v "blood_pressure_diastolic" in py_ge d 90))).

(** [v.get('blood_glucose') and v['blood_glucose'] >= 140] *)
Definition is_diabetic (v : gmap string pyval) : result bool :=
  guard (dict_get v "blood_glucose")
    (let* x := dict_item v "blood_glucose" in py_ge x 140).

(** [v.get('smoking_habits') and v['smoking_habits'] in ['Occasionally', 'Daily']] *)
Definition is_smoker (v : gmap string pyval) : result bool :=
  guard (dict_get v "smoking_habits")
    (let* x := dict_item v "smoking_habits" in
     Ok (py_in x ["Occasionally"; "Daily"]%string)).

(** [round((count / total) * 100, 1)] *)
Definition percentage (count total : Z) : result Q :=
  let* r := py_div (inject_Z count) (inject_Z total) in
  Ok (round1 (r * 100)).

(** The body of the loop [for visit in visits] that counts the high-risk
    participants. *)
Definition high_risk_step (high_risk_count : Z) (visit : gmap string pyval)
  : result Z :=
  let risk_factors := 0%Z in
  let* c := is_obese visit in
  let risk_factors := if c then (risk_factors + 1)%Z else risk_factors in
  let* c := is_hypertensive visit in
  let risk_factors := if c then (risk_factors + 1)%Z else risk_factors in
  let* c := is_diabetic visit in
  let risk_factors := if c then (risk_factors + 1)%Z else risk_factors in
  let* c := is_smoker visit in
  let risk_factors := if c then (risk_factors + 1)%Z else risk_factors in
  Ok (if (2 <=? risk_factors)%Z then (high_risk_count + 1)%Z else high_risk_count).

Fixpoint high_risk_loop (high_risk_count : Z) (visits : list (gmap string pyval))
  : result Z :=
  match visits with
  | [] => Ok high_risk_count
  | visit :: rest =>
      let* high_risk_count := high_risk_step high_risk_count visit in
      high_risk_loop high_risk_count rest
  end.

Definition calculate_health_prevalence (visits : list (gmap string pyval)) (self : t)
  : result t :=
  let total_with_bmi := count_if (fun v => truthy (dict_get v "bmi")) visits in
  let total_with_bp :=
    count_if (fun v => truthy (dict_get v "blood_pressure_systolic")) visits in
  let total_with_glucose :=
    count_if (fun v => truthy (dict_get v "blood_glucose")) visits in
  (* Obesity prevalence (BMI >= 30) *)
  let* self :=
    if (0 <? total_with_bmi)%Z then
      let* obese_count := count_where is_obese visits in
      let* p := percentage obese_count total_with_bmi in
      Ok (set_obesity_prevalence (Some p) self)
    else Ok self in
  (* Hypertension prevalence (BP >= 140/90) *)
  let* self :=
    if (0 <? total_with_bp)%Z then
      let* hypertensive_count := count_where is_hypertensive visits in
      let* p := percentage hypertensive_count total_with_bp in
      Ok (set_hypertension_prevalence (Some p) self)
    else Ok self in
  (* Diabetes prevalence (glucose >= 140 mg/dL) *)
  let* self :=
    if (0 <? total_with_glucose)%Z then
      let* diabetic_count := count_where is_diabetic visits in
      let* p := percentage diabetic_count total_with_glucose in
      Ok (set_diabetes_prevalence (Some p) self)
    else Ok self in
  (* Smoking prevalence *)
  let total_with_smoking_data :=
    count_if (fun v => truthy (dict_get v "smoking_habits")) visits in
  let* self :=
    if (0 <? total_with_smoking_data)%Z then
      let* smoker_count := count_where is_smoker visits in
      let* p := percentage smoker_count total_with_smoking_data in
      Ok (set_smoking_prevalence (Some p) self)
    else Ok self in
  (* High risk participants (multiple risk factors) *)
  let* high_risk_count := high_risk_loop 0%Z visits in
  Ok (set_high_risk_participants (Some high_risk_count) self).

(** [v.get('age') and lo <= v['age'] <= hi] *)
Definition age_between (lo hi : Q) (v : gmap string pyval) : result bool :=
  guard (dict_get v "age")
    (let* a := dict_item v "age" in and_then (py_ge a lo) (py_le a hi)).
(** [v.get('age') and v['age'] >= 51] *)
Definition age_from (lo : Q) (v : gmap string pyval) : result bool :=
  guard (dict_get v "age")
    (let* a := dict_item v "age" in py_ge a lo).

(** [bool(x)] for a numeric document field. *)
Definition truthyZ (x : option Z) : bool :=
  match x with Some n => negb (n =? 0)%Z | None => false end.
Definition truthyQ (x : option Q) : bool :=
  match x with Some q => negb (Qeq_bool q 0) | None => false end.

(** [visits] is what [self.get_screening_visits()] returned. *)
Definition calculate_statistics (visits : list (gmap string pyval)) (self : t)
  : result t :=
  match visits with
  | [] => Ok (set_total_participants (Some 0%Z) self)
  | _ :: _ =>
      (* Calculate demographics *)
      let self := set_total_participants (Some (Z.of_nat (length visits))) self in
      let male := count_if (fun v => py_eq_str (dict_get v "gender") "Male") visits in
      let female := count_if (fun v => py_eq_str (dict_get v "gender") "Female") visits in
      (* Calculate age groups *)
      let* g1 := count_where (age_between 18 30) visits in
      let* g2 := count_where (age_between 31 50) visits in
      let* g3 := count_where (age_from 51) visits in
      let self := set_demographics (Some male) (Some female)
                    (Some g1) (Some g2) (Some g3) self in
      (* Calculate health prevalence *)
      let* self := calculate_health_prevalence visits self in
      (* Calculate total cost *)
      if truthyQ (cost_per_participant self) && truthyZ (total_participants self) then
        match cost_per_participant self, total_participants self with
        | Some c, Some n => Ok (set_total_cost (Some (c * inject_Z n)) self)
        | _, _ => Ok self
        end
      else Ok self
  end.

(** [round((part / self.total_participants) * 100, 1)]; a
    [total_participants] that holds no value makes the division a
    [TypeError]. *)
Definition share_of_total (part : Z) (self : t) : result Q :=
  match total_participants self with
  | Some total => percentage part total
  | None => Raise TypeError
  end.

Definition generate_executive_summary (visits : list (gmap string pyval)) (self : t)
  : result t :=
  match visits with
  | [] => Ok (set_executive_summary (Some [NoScreeningData]) self)
  | _ :: _ =>
      let summary_points : list sentence := [] in
      (* Participation summary *)
      let summary_points :=
        summary_points ++ [Participation (total_participants self) (company_name self)] in
      (* Gender distribution *)
      let* summary_points :=
        if truthyZ (male_participants self) && truthyZ (female_participants self) then
          let* male_pct := share_of_total (default 0%Z (male_participants self)) self in
          let* female_pct := share_of_total (default 0%Z (female_participants self)) self in
          Ok (summary_points ++ [GenderDistribution male_pct female_pct])
        else Ok summary_points in
      (* Key health findings *)
      let summary_points :=
        if truthyQ (obesity_prevalence self)
        then summary_points ++ [ObesityPrevalence (default 0 (obesity_prevalence self))]
        else summary_points in
      let summary_points :=
        if truthyQ (hypertension_prevalence self)
        then summary_points ++ [HypertensionPrevalence (default 0 (hypertension_prevalence self))]
        else summary_points in
      let summary_points :=
        if truthyQ (diabetes_prevalence self)
        then summary_points ++ [DiabetesPrevalence (default 0 (diabetes_prevalence self))]
        else summary_points in
      let summary_points :=
        if truthyQ (smoking_prevalence self)
        then summary_points ++ [SmokingPrevalence (default 0 (smoking_prevalence self))]
        else summary_points in
      let* summary_points :=
        if truthyZ (high_risk_participants self) then
          let* high_risk_pct :=
            share_of_total (default 0%Z (high_risk_participants self)) self in
          Ok (summary_points ++ [HighRiskEmployees high_risk_pct])
        else Ok summary_points in
      (* Recommendations *)
      let recommendations : list string := [] in
      let over (x : option Q) (limit : Q) : bool :=
        truthyQ x && negb (Qle_bool (default 0 x) limit) in
      let recommendations :=
        if over (obesity_prevalence self) 25
        then recommendations ++
             ["Implement weight management programs and nutritional counseling."%string]
        else recommendations in
      let recommendations :=
        if over (hypertension_prevalence self) 20
        then recommendations ++
             ["Regular blood pressure monitoring and cardiovascular health initiatives."%string]
        else recommendations in
      let recommendations :=
        if over (smoking_prevalence self) 10
        then recommendations ++
             ["Smoking cessation programs and stress management alternatives."%string]
        else recommendations in
      let summary_points :=
        match recommendations with
        | [] => summary_points
        | _ :: _ => summary_points ++ [RecommendedInterventions recommendations]
        end in
      Ok (set_executive_summary (Some summary_points) self)
  end.

End CorporateScreening.

(** ** chms/api/dashboard_api.py *)

Module DashboardApi.

(** *** get_corporate_wellness_summary

    [screenings] is the list of rows the SQL query returned. *)

Record summary_stats : Type := {
  total_screenings : Z;
  total_participants : Q;
  companies_served : Z
}.

Record avg_metrics : Type := {
  avg_obesity_prevalence : Q;
  avg_hypertension_prevalence : Q;
  avg_diabetes_prevalence : Q;
  avg_smoking_prevalence : Q
}.

(** The returned dict: either the message, or the summary whose
    [health_metrics] is the empty dict ([None]) or the four averages. *)
Inductive wellness_summary : Type :=
  | NoCompletedScreenings
  | WellnessSummary (stats : summary_stats) (health_metrics : option avg_metrics)
                    (recent_screenings : list (gmap string pyval)).

(** [sum(s.get("total_participants", 0) for s in screenings)] *)
Fixpoint sum_participants (acc : Q) (screenings : list (gmap string pyval))
  : result Q :=
  match screenings with
  | [] => Ok acc
  | s :: rest =>
      match dict_get_or s "total_participants" (PNum 0) with
      | PNum p => sum_participants (acc + p) rest
      | _ => Raise TypeError
      end
  end.

(** [acc += (screening.get(key, 0) * participants)]: a metric that is
    [None] or a string ends in a [TypeError], at the product or at the sum. *)
Definition add_weighted (acc : Q) (screening : gmap string pyval) (key : string)
    (participants : Q) : result Q :=
  match dict_get_or screening key (PNum 0) with
  | PNum m => Ok (acc + m * participants)
  | _ => Raise TypeError
  end.

(** The five accumulators of the loop. *)
Record weights : Type := {
  total_weight : Q;
  weighted_obesity : Q;
  weighted_hypertension : Q;
  weighted_diabetes : Q;
  weighted_smoking : Q
}.

Definition weighted_step (w : weights) (screening : gmap string pyval)
  : result weights :=
  let participants := dict_get_or screening "total_participants" (PNum 0) in
  let* c := py_gt participants 0 in
  if c then
    match participants with
    | PNum p =>
        let total_weight := total_weight w + p in
        let* wo := add_weighted (weighted_obesity w) screening "obesity_prevalence" p in
        let* wh := add_weighted (weighted_hypertension w) screening "hypertension_prevalence" p in
        let* wd := add_weighted (weighted_diabetes w) screening "diabetes_prevalence" p in
        let* ws := add_weighted (weighted_smoking w) screening "smoking_prevalence" p in
        Ok {| total_weight := total_weight; weighted_obesity := wo;
              weighted_hypertension := wh; weighted_diabetes := wd;
              weighted_smoking := ws |}
    | _ => Raise TypeError
    end
  else Ok w.

Fixpoint weighted_loop (w : weights) (screenings : list (gmap string pyval))
  : result weights :=
  match screenings with
  | [] => Ok w
  | screening :: rest =>
      let* w := weighted_step w screening in
      weighted_loop w rest
  end.

(** Equality of two values as [set] sees it, and [len(set(l))]. *)
Definition py_eqb (a b : pyval) : bool :=
  match a, b with
  | PNone, PNone => true
  | PNum x, PNum y => Qeq_bool x y
  | PStr x, PStr y => String.eqb x y
  | _, _ => false
  end.
Fixpoint count_distinct (l : list pyval) : Z :=
  match l with
  | [] => 0%Z
  | x :: rest =>
      if existsb (py_eqb x) rest then count_distinct rest
      else (1 + count_distinct rest)%Z
  end.
Fixpoint company_names (screenings : list (gmap string pyval))
  : result (list pyval) :=
  match screenings with
  | [] => Ok []
  | s :: rest =>
      let* c := dict_item s "company_name" in
      let* cs := company_names rest in
      Ok (c :: cs)
  end.

Definition get_corporate_wellness_summary (screenings : list (gmap string pyval))
  : result wellness_summary :=
  match screenings with
  | [] => Ok NoCompletedScreenings
  | _ :: _ =>
      (* Calculate aggregate statistics *)
      let* total_participants := sum_participants 0 screenings in
      (* Calculate weighted averages for health metrics *)
      let* w := weighted_loop
                  {| total_weight := 0; weighted_obesity := 0;
                     weighted_hypertension := 0; weighted_diabetes := 0;
                     weighted_smoking := 0 |} screenings in
      let avg_metrics :=
        if negb (Qle_bool (total_weight w) 0) then
          Some {| avg_obesity_prevalence := round1 (weighted_obesity w / total_weight w);
                  avg_hypertension_prevalence :=
                    round1 (weighted_hypertension w / total_weight w);
                  avg_diabetes_prevalence := round1 (weighted_diabetes w / total_weight w);
                  avg_smoking_prevalence := round1 (weighted_smoking w / total_weight w) |}
        else None in
      let* names := company_names screenings in
      Ok (WellnessSummary
            {| total_screenings := Z.of_nat (length screenings);
               total_participants := total_participants;
               companies_served := count_distinct names |}
            avg_metrics
            (take 5 screenings))
  end.

(** *** generate_executive_summary *)

(** What [get_main_dashboard_data] hands over: the counters of the visit
    query and the two grouped distributions (category, count). *)
Record visit_stats : Type := {
  total_visits : Z;
  unique_patients : Z;
  screening_visits : Z
}.
Record dashboard_data : Type := {
  dd_visit_stats : visit_stats;
  bmi_distribution : list (string * Z);
  hypertension_data : list (string * Z)
}.

Inductive sentence : Type :=
  | VisitsCompleted (visits patients screening : Z)
  | ObesityStands (obesity_rate overweight_rate : Q)
  | HypertensionAffects (hypertension_rate : Q)
  | CorporateReach (participants : Q) (companies screenings : Z)
  | PriorityRecommendations (recs : list string).

Record key_metrics : Type := {
  total_visits_3m : Z;
  km_obesity_rate : Q;
  km_hypertension_rate : Q;
  corporate_participants : Q
}.
Record executive_summary : Type := {
  summary : list sentence;
  metrics : key_metrics
}.

(** [{item["category"]: item["count"] for item in rows}]: a later row
    with the same category replaces an earlier one. *)
Definition by_category (rows : list (string * Z)) : gmap string Z :=
  fold_left (fun m item => <[item.1 := item.2]> m) rows ∅.
(** [sum(d.values())] *)
Definition sum_values (d : gmap string Z) : Z :=
  map_fold (fun _ v acc => (v + acc)%Z) 0%Z d.
(** [d.get(k, 0)] *)
Definition count_of (d : gmap string Z) (k : string) : Z := default 0%Z (d !! k).

(** Reading a local variable that an untaken branch was to assign. *)
Definition read_local (x : option Q) : result Q :=
  match x with Some v => Ok v | None => Raise UnboundLocalError end.

(** [round((part / total) * 100, 1)] *)
Definition rate (part total : Z) : result Q :=
  let* r := py_div (inject_Z part) (inject_Z total) in
  Ok (round1 (r * 100)).

(** [dashboard] is the result of [get_main_dashboard_data] and
    [screenings] the rows read by [get_corporate_wellness_summary]. *)
Definition generate_executive_summary (dashboard : dashboard_data)
    (screenings : list (gmap string pyval)) : result executive_summary :=
  let* wellness_data := get_corporate_wellness_summary screenings in
  let summary_points : list sentence := [] in
  (* Visit statistics *)
  let visit_stats := dd_visit_stats dashboard in
  let summary_points :=
    if (0 <? total_visits visit_stats)%Z
    then summary_points ++
         [VisitsCompleted (total_visits visit_stats) (unique_patients visit_stats)
                          (screening_visits visit_stats)]
    else summary_points in
  (* Health trends *)
  let bmi_data := by_category (bmi_distribution dashboard) in
  let total_bmi_records := sum_values bmi_data in
  let* bmi_block :=
    if (0 <? total_bmi_records)%Z then
      let* obesity_rate := rate (count_of bmi_data "Obese") total_bmi_records in
      let* overweight_rate := rate (count_of bmi_data "Overweight") total_bmi_records in
      Ok (Some obesity_rate,
          summary_points ++ [ObesityStands obesity_rate overweight_rate])
    else Ok (None, summary_points) in
  let obesity_rate : option Q := bmi_block.1 in
  let summary_points := bmi_block.2 in
  (* Hypertension data *)
  let bp_data := by_category (hypertension_data dashboard) in
  let total_bp_records := sum_values bp_data in
  let* bp_block :=
    if (0 <? total_bp_records)%Z then
      let* hypertension_rate := rate (count_of bp_data "Hypertensive") total_bp_records in
      Ok (Some hypertension_rate,
          summary_points ++ [HypertensionAffects hypertension_rate])
    else Ok (None, summary_points) in
  let hypertension_rate : option Q := bp_block.1 in
  let summary_points := bp_block.2 in
  (* Corporate wellness insights *)
  let summary_points :=
    match wellness_data with
    | WellnessSummary corp_stats _ _ =>
        summary_points ++
        [CorporateReach (total_participants corp_stats) (companies_served corp_stats)
                        (total_screenings corp_stats)]
    | NoCompletedScreenings => summary_points
    end in
  (* Recommendations *)
  let recommendations : list string := [] in
  let* r := read_local obesity_rate in
  let recommendations :=
    if negb (Qle_bool r 30)
    then recommendations ++ ["Implement comprehensive weight management programs"%string]
    else recommendations in
  let* r := read_local hypertension_rate in
  let recommendations :=
    if negb (Qle_bool r 25)
    then recommendations ++
         ["Expand cardiovascular health monitoring and interventions"%string]
    else recommendations in
  let summary_points :=
    match recommendations with
    | [] => summary_points
    | _ :: _ => summary_points ++ [PriorityRecommendations recommendations]
    end in
  Ok {| summary := summary_points;
        metrics :=
          {| total_visits_3m := total_visits visit_stats;
             km_obesity_rate := default 0 obesity_rate;
             km_hypertension_rate := default 0 hypertension_rate;
             corporate_participants :=
               match wellness_data with
               | WellnessSummary corp_stats _ _ => total_participants corp_stats
               | NoCompletedScreenings => 0
               end |} |}.

End DashboardApi.

(** ** Reference data used in the statements below *)

(** The five blood-pressure categories, by increasing severity. *)
Definition bp_categories : list string :=
  ["Normal"; "Elevated"; "High Blood Pressure Stage 1";
   "High Blood Pressure Stage 2"; "Hypertensive Crisis"]%string.

Fixpoint index_of (c : string) (l : list string) : option nat :=
  match l with
  | [] => None
  | x :: rest => if String.eqb x c then Some O else S <$> index_of c rest
  end.

(** The rank of a category in [bp_categories]. *)
Definition bp_severity (c : string) : option nat := index_of c bp_categories.

(** A dict literal [{k1: v1, ...}]. *)
Definition dict_of (l : list (string * pyval)) : gmap string pyval :=
  fold_left (fun m kv => <[kv.1 := kv.2]> m) l ∅.

Definition risk_example : gmap string pyval :=
  dict_of [("age", PNum 50); ("bmi", PNum 32);
           ("blood_pressure_systolic", PNum 145);
           ("blood_pressure_diastolic", PNum 95);
           ("blood_glucose", PNum 130);
           ("smoking_habits", PStr "Daily");
           ("exercise_frequency", PStr "None")]%string.

Definition wellness_example : gmap string pyval :=
  dict_of [("exercise_frequency", PStr "5+ times/week");
           ("sleep_hours", PNum 8);
           ("stress_level", PStr "Low (1-3)");
           ("smoking_habits", PStr "Never");
           ("alcohol_consumption", PStr "None")]%string.

(** A screening row of the wellness summary query. *)
Definition screening_row (company : string) (participants : pyval)
    (obesity hypertension diabetes smoking : pyval) : gmap string pyval :=
  dict_of [("company_name", PStr company); ("total_participants", participants);
           ("obesity_prevalence", obesity);
           ("hypertension_prevalence", hypertension);
           ("diabetes_prevalence", diabetes);
           ("smoking_prevalence", smoking)]%string.

(** The three computable criteria of the metabolic syndrome, read off a
    record.  A reading of zero counts as not taken, as everywhere in the
    source ([if systolic and diastolic and ...]). *)
Definition waist_criterion (visit_data : gmap string pyval) : Prop :=
  exists w, dict_get visit_data "waist_circumference" = PNum w /\
            truthy (dict_get visit_data "gender") = true /\
            (if py_eq_str (dict_get visit_data "gender") "Male" then 40 else 35) <= w.
Definition pressure_criterion (visit_data : gmap string pyval) : Prop :=
  exists s d, dict_get visit_data "blood_pressure_systolic" = PNum s /\
              dict_get visit_data "blood_pressure_diastolic" = PNum d /\
              ~ s == 0 /\ ~ d == 0 /\ (130 <= s \/ 85 <= d).
Definition glucose_criterion (visit_data : gmap string pyval) : Prop :=
  exists g, dict_get visit_data "blood_glucose" = PNum g /\ 100 <= g.

(** A measurement that is a number or [None] (not a string). *)
Definition measurement (v : pyval) : bool :=
  match v with PStr _ => false | _ => true end.

(** *** The weighted average as the specification words it

    [participants_of] and [metric_of] read a row the way [.get(key, 0)]
    does; [counted] keeps the sub-cohorts with participants > 0; the
    weighted average of a metric is
    round(sum(metric_i * participants_i) / sum(participants_i), 1)
    over the counted sub-cohorts only. *)

Definition number_of (v : pyval) : Q :=
  match v with PNum q => q | _ => 0 end.
Definition is_number (v : pyval) : bool :=
  match v with PNum _ => true | _ => false end.
Definition participants_of (s : gmap string pyval) : Q :=
  number_of (dict_get_or s "total_participants" (PNum 0)).
Definition metric_of (key : string) (s : gmap string pyval) : Q :=
  number_of (dict_get_or s key (PNum 0)).
Definition counted (screenings : list (gmap string pyval))
  : list (gmap string pyval) :=
  List.filter (fun s => negb (Qle_bool (participants_of s) 0)) screenings.

(** A row as the query returns it for a completed screening: a company
    name, a numeric participant count (or none, read as 0) and, when the
    count is positive, numeric prevalences (or none, read as 0). *)
Definition metric_keys : list string :=
  ["obesity_prevalence"; "hypertension_prevalence"; "diabetes_prevalence";
   "smoking_prevalence"]%string.
Definition screening_ok (s : gmap string pyval) : bool :=
  is_number (dict_get_or s "total_participants" (PNum 0)) &&
  bool_decide (is_Some (s !! "company_name"%string)) &&
  (Qle_bool (participants_of s) 0 ||
   forallb (fun key => is_number (dict_get_or s key (PNum 0))) metric_keys).

(** Sub-cohorts of the worked example: 20% on 100 participants, 40% on 50,
    and a screening without participants whose prevalences hold no value. *)
Definition cohort_a : gmap string pyval :=
  screening_row "A" (PNum 100) (PNum 20) (PNum 20) (PNum 20) (PNum 20).
Definition cohort_b : gmap string pyval :=
  screening_row "B" (PNum 50) (PNum 40) (PNum 40) (PNum 40) (PNum 40).
Definition cohort_empty : gmap string pyval :=
  screening_row "C" (PNum 0) PNone PNone PNone PNone.


(** *** Hypertension prevalence as the specification words it

    The denominator counts the records whose systolic and diastolic readings
    are both non-null, the numerator those of them with systolic >= 140 or
    diastolic >= 90; the rate is round(100 * numerator / denominator, 1) and
    is absent when the denominator is 0. *)

Definition non_null (v : pyval) : bool :=
  match v with PNone => false | _ => true end.
Definition both_readings (v : gmap string pyval) : bool :=
  non_null (dict_get v "blood_pressure_systolic") &&
  non_null (dict_get v "blood_pressure_diastolic").
Definition reads_hypertensive (v : gmap string pyval) : bool :=
  Qle_bool 140 (number_of (dict_get v "blood_pressure_systolic")) ||
  Qle_bool 90 (number_of (dict_get v "blood_pressure_diastolic")).
Definition stated_hypertension_prevalence (visits : list (gmap string pyval))
  : option Q :=
  let measured := List.filter both_readings visits in
  let denominator := Z.of_nat (length measured) in
  let numerator := Z.of_nat (length (List.filter reads_hypertensive measured)) in
  if (denominator =? 0)%Z then None
  else Some (round1 (100 * inject_Z numerator / inject_Z denominator)).

(** Two visits: one with both readings, hypertensive; one with a systolic
    reading only. *)
Definition visit_both : gmap string pyval :=
  dict_of [("blood_pressure_systolic", PNum 150);
           ("blood_pressure_diastolic", PNum 95)]%string.
Definition visit_systolic_only : gmap string pyval :=
  dict_of [("blood_pressure_systolic", PNum 150)]%string.

(** A participant of a screening: an obese man of 40 who smokes. *)
Definition visit_participant : gmap string pyval :=
  dict_of [("gender", PStr "Male"); ("age", PNum 40); ("bmi", PNum 32);
           ("smoking_habits", PStr "Daily")]%string.

(** A dashboard whose window holds visits but no BMI measurement. *)
Definition dashboard_without_bmi : DashboardApi.dashboard_data :=
  {| DashboardApi.dd_visit_stats :=
       {| DashboardApi.total_visits := 3; DashboardApi.unique_patients := 2;
          DashboardApi.screening_visits := 1 |};
     DashboardApi.bmi_distribution := [];
     DashboardApi.hypertension_data :=
       [("Hypertensive", 1%Z); ("Normal", 2%Z)]%string |}.
(** The same with BMI measurements and no blood-pressure measurement. *)
Definition dashboard_without_bp : DashboardApi.dashboard_data :=
  {| DashboardApi.dd_visit_stats :=
       {| DashboardApi.total_visits := 3; DashboardApi.unique_patients := 2;
          DashboardApi.screening_visits := 1 |};
     DashboardApi.bmi_distribution := [("Obese", 1%Z); ("Overweight", 2%Z)]%string;
     DashboardApi.hypertension_data := [] |}.

(** The factor names in the order the blocks of
    [calculate_cardiovascular_risk_score] can append them. *)
Definition risk_factor_names : list string :=
  ["Age ≥45"; "Obesity"; "Overweight"; "Hypertension"; "Elevated BP";
   "Diabetes"; "Prediabetes"; "Smoking"; "Physical Inactivity"]%string.

(** The best and the worst answers to the five questions. *)
Definition wellness_best : gmap string pyval :=
  dict_of [("exercise_frequency", PStr "5+ times/week"); ("sleep_hours", PNum 8);
           ("stress_level", PStr "Low (1-3)"); ("smoking_habits", PStr "Never");
           ("alcohol_consumption", PStr "Occasionally")]%string.
Definition wellness_worst : gmap string pyval :=
  dict_of [("exercise_frequency", PStr "None"); ("sleep_hours", PNum 4);
           ("stress_level", PStr "High (7-10)"); ("smoking_habits", PStr "Daily");
           ("alcohol_consumption", PStr "Heavy Drinking")]%string.

(** * The rest of the sources

    The functions below are the ones the statements above do not reach:
    the remaining utilities of [health_calculations.py], the other methods
    of the Visit and Corporate Screening documents, and the computations of
    [patient.py] and [clinic.py].  Calls into the framework (database
    reads, [today()], [re.match]) are inputs of the embedded function. *)

(** ** chms/utils/health_calculations.py, continued *)

(** [round(x, 2)] *)
Definition round2 (q : Q) : Q := round_half_even (q * 100) # 100.

(** A value used as an operand of [/]: [None] and strings raise. *)
Definition as_number (v : pyval) : result Q :=
  match v with PNum q => Ok q | _ => Raise TypeError end.

(** [v == 0] *)
Definition py_eq_zero (v : pyval) : bool :=
  match v with PNum q => Qeq_bool q 0 | _ => false end.

Definition calculate_bmi (weight_kg height_cm : pyval) : result (option Q) :=
  if negb (truthy weight_kg) || negb (truthy height_cm) || py_eq_zero height_cm
  then Ok None else
  let* h := as_number height_cm in
  let height_m := h / 100 in
  let* w := as_number weight_kg in
  let* bmi := py_div w (height_m ^ 2) in
  Ok (Some (round2 bmi)).

Definition get_bmi_category (bmi : pyval) : result (option string) :=
  if negb (truthy bmi) then Ok None else
  let* c := py_lt bmi 18.5 in
  if c then Ok (Some "Underweight"%string) else
  let* c := py_lt bmi 25 in
  if c then Ok (Some "Healthy Weight"%string) else
  let* c := py_lt bmi 30 in
  if c then Ok (Some "Overweight"%string) else
  let* c := py_lt bmi 35 in
  if c then Ok (Some "Obesity Stage 1"%string) else
  let* c := py_lt bmi 40 in
  if c then Ok (Some "Obesity Stage 2"%string) else
  Ok (Some "Morbidly Obese"%string).

(** *** generate_health_recommendations *)

Record recommendation : Type := {
  category : string;
  advice : string;
  priority : string
}.

Definition recommend (c a p : string) : recommendation :=
  {| category := c; advice := a; priority := p |}.

(** The eleven recommendation records of the source. *)
Definition weight_loss_program : recommendation :=
  recommend "Weight Management"
    "Consider a structured weight loss program with nutritional counseling and regular exercise"
    "High".
Definition weight_maintenance : recommendation :=
  recommend "Weight Management"
    "Maintain healthy weight through balanced diet and regular physical activity"
    "Medium".
Definition weight_gain : recommendation :=
  recommend "Weight Management"
    "Consider nutritional counseling to achieve healthy weight gain"
    "Medium".
Definition pressure_management : recommendation :=
  recommend "Cardiovascular Health"
    "Consult physician for blood pressure management and regular monitoring"
    "High".
Definition pressure_monitoring : recommendation :=
  recommend "Cardiovascular Health"
    "Monitor blood pressure regularly and consider lifestyle modifications"
    "Medium".
Definition diabetes_management : recommendation :=
  recommend "Diabetes Management"
    "Follow up with healthcare provider for diabetes management and HbA1c testing"
    "High".
Definition diabetes_prevention : recommendation :=
  recommend "Diabetes Prevention"
    "Consider diabetes prevention program with lifestyle modifications"
    "Medium".
Definition smoking_cessation : recommendation :=
  recommend "Smoking Cessation"
    "Join smoking cessation program and consider stress management alternatives"
    "High".
Definition physical_activity : recommendation :=
  recommend "Physical Activity"
    "Start with 30 minutes of moderate exercise 3-4 times per week"
    "Medium".
Definition stress_management : recommendation :=
  recommend "Stress Management"
    "Consider stress reduction techniques, counseling, or wellness programs"
    "Medium".
Definition sleep_health : recommendation :=
  recommend "Sleep Health"
    "Aim for 7-9 hours of quality sleep per night and practice good sleep hygiene"
    "Low".

(** # BMI recommendations *)
Definition bmi_recommendations (visit_data : gmap string pyval)
    (recommendations : list recommendation) : result (list recommendation) :=
  let bmi := dict_get visit_data "bmi" in
  if truthy bmi then
    let* c := py_ge bmi 30 in
    if c then
      Ok (recommendations ++
          [weight_loss_program])
    else
    let* c := py_ge bmi 25 in
    if c then
      Ok (recommendations ++
          [weight_maintenance])
    else
    let* c := py_lt bmi 18.5 in
    if c then
      Ok (recommendations ++
          [weight_gain])
    else Ok recommendations
  else Ok recommendations.

(** # Blood pressure recommendations *)
Definition blood_pressure_recommendations (visit_data : gmap string pyval)
    (recommendations : list recommendation) : result (list recommendation) :=
  let systolic := dict_get visit_data "blood_pressure_systolic" in
  let diastolic := dict_get visit_data "blood_pressure_diastolic" in
  if truthy systolic && truthy diastolic then
    let* c := or_else (py_ge systolic 140) (py_ge diastolic 90) in
    if c then
      Ok (recommendations ++
          [pressure_management])
    else
    let* c := or_else (py_ge systolic 130) (py_ge diastolic 80) in
    if c then
      Ok (recommendations ++
          [pressure_monitoring])
    else Ok recommendations
  else Ok recommendations.

(** # Glucose recommendations *)
Definition glucose_recommendations (visit_data : gmap string pyval)
    (recommendations : list recommendation) : result (list recommendation) :=
  let glucose := dict_get visit_data "blood_glucose" in
  if truthy glucose then
    let* c := py_ge glucose 126 in
    if c then
      Ok (recommendations ++
          [diabetes_management])
    else
    let* c := py_ge glucose 100 in
    if c then
      Ok (recommendations ++
          [diabetes_prevention])
    else Ok recommendations
  else Ok recommendations.

(** # Lifestyle recommendations, # Stress recommendations,
    # Sleep recommendations *)
Definition lifestyle_recommendations (visit_data : gmap string pyval)
    (recommendations : list recommendation) : result (list recommendation) :=
  let smoking := dict_get visit_data "smoking_habits" in
  let recommendations :=
    if py_in smoking ["Daily"; "Occasionally"]%string then
      recommendations ++
      [smoking_cessation]
    else recommendations in
  let exercise := dict_get visit_data "exercise_frequency" in
  let recommendations :=
    if py_in exercise ["None"; "Rarely"]%string then
      recommendations ++
      [physical_activity]
    else recommendations in
  let stress := dict_get visit_data "stress_level" in
  let recommendations :=
    if py_eq_str stress "High (7-10)" then
      recommendations ++
      [stress_management]
    else recommendations in
  let sleep_hours := dict_get visit_data "sleep_hours" in
  let* c := guard sleep_hours (py_lt sleep_hours 7) in
  Ok (if c then
        recommendations ++
        [sleep_health]
      else recommendations).

Definition generate_health_recommendations (visit_data : gmap string pyval)
  : result (list recommendation) :=
  let recommendations : list recommendation := [] in
  let* recommendations := bmi_recommendations visit_data recommendations in
  let* recommendations := blood_pressure_recommendations visit_data recommendations in
  let* recommendations := glucose_recommendations visit_data recommendations in
  lifestyle_recommendations visit_data recommendations.

(** ** Validation: [frappe.throw]

    A validation method either passes, or throws with a message, or fails
    on a Python exception before it could decide. *)

Inductive checked (A : Type) : Type :=
  | Passed (a : A)
  | Thrown (msg : string)
  | Crashed (e : exn).
Arguments Passed {A} a.
Arguments Thrown {A} msg.
Arguments Crashed {A} e.

(** [if cond: frappe.throw(msg)], then the rest of the method. *)
Definition throw_if {A : Type} (cond : result bool) (msg : string) (rest : checked A)
  : checked A :=
  match cond with
  | Ok true => Thrown msg
  | Ok false => rest
  | Raise e => Crashed e
  end.

(** A computation that cannot throw, inside a checked method. *)
Definition lift {A B : Type} (m : result A) (rest : A -> checked B) : checked B :=
  match m with Ok a => rest a | Raise e => Crashed e end.

(** ** chms/chms/doctype/visit/visit.py, continued *)

Module VisitDoc.

(** The Visit document as [before_save] sees it: the vitals read by the
    classifiers, the other measurements, and the visit date as a day
    number ([None] when the field is empty). *)
Record t : Type := {
  vitals : Visit.t;
  height : pyval;
  weight : pyval;
  heart_rate : pyval;
  temperature : pyval;
  visit_date : option Z
}.

(** [self.bmi = v] *)
Definition set_bmi (v : pyval) (self : t) : t :=
  {| vitals :=
       {| Visit.bmi := v;
          Visit.blood_pressure_systolic := Visit.blood_pressure_systolic (vitals self);
          Visit.blood_pressure_diastolic := Visit.blood_pressure_diastolic (vitals self);
          Visit.blood_glucose := Visit.blood_glucose (vitals self) |};
     height := height self; weight := weight self;
     heart_rate := heart_rate self; temperature := temperature self;
     visit_date := visit_date self |}.

Definition calculate_bmi (self : t) : result t :=
  let* c := guard (height self) (guard (weight self) (py_gt (height self) 0)) in
  if c then
    let* h := as_number (height self) in
    let height_m := h / 100 in
    let* w := as_number (weight self) in
    let* bmi := py_div w (height_m ^ 2) in
    Ok (set_bmi (PNum (round2 bmi)) self)
  else Ok self.

Definition get_bmi_category (self : Visit.t) : result (option string) :=
  if negb (truthy (Visit.bmi self)) then Ok None else
  let* c := py_lt (Visit.bmi self) 18.5 in
  if c then Ok (Some "Underweight"%string) else
  let* c := py_lt (Visit.bmi self) 25 in
  if c then Ok (Some "Healthy Weight"%string) else
  let* c := py_lt (Visit.bmi self) 30 in
  if c then Ok (Some "Overweight"%string) else
  let* c := py_lt (Visit.bmi self) 35 in
  if c then Ok (Some "Obesity Stage 1"%string) else
  let* c := py_lt (Visit.bmi self) 40 in
  if c then Ok (Some "Obesity Stage 2"%string) else
  Ok (Some "Morbidly Obese"%string).

Definition get_blood_pressure_category (self : Visit.t) : result (option string) :=
  if negb (truthy (Visit.blood_pressure_systolic self) &&
           truthy (Visit.blood_pressure_diastolic self)) then Ok None else
  let systolic := Visit.blood_pressure_systolic self in
  let diastolic := Visit.blood_pressure_diastolic self in
  let* c := and_then (py_lt systolic 120) (py_lt diastolic 80) in
  if c then Ok (Some "Normal"%string) else
  let* c := and_then (py_lt systolic 130) (py_lt diastolic 80) in
  if c then Ok (Some "Elevated"%string) else
  let* c := or_else (py_lt systolic 140) (py_lt diastolic 90) in
  if c then Ok (Some "High Blood Pressure Stage 1"%string) else
  let* c := or_else (py_lt systolic 180) (py_lt diastolic 120) in
  if c then Ok (Some "High Blood Pressure Stage 2"%string) else
  Ok (Some "Hypertensive Crisis"%string).

(** [today] is the day number of [today()]. *)
Definition validate_visit_data (today : Z) (self : t) : checked unit :=
  (* Validate visit date *)
  throw_if (Ok (match visit_date self with
                | Some d => (today <? d)%Z
                | None => false
                end))
    "Visit date cannot be in the future"
  (* Validate vital signs ranges *)
  (throw_if (guard (Visit.blood_pressure_systolic (vitals self))
               (py_gt (Visit.blood_pressure_systolic (vitals self)) 250))
     "Systolic blood pressure seems unusually high. Please verify."
  (throw_if (guard (Visit.blood_pressure_diastolic (vitals self))
               (py_gt (Visit.blood_pressure_diastolic (vitals self)) 150))
     "Diastolic blood pressure seems unusually high. Please verify."
  (throw_if (guard (heart_rate self)
               (or_else (py_lt (heart_rate self) 30) (py_gt (heart_rate self) 220)))
     "Heart rate seems unusual. Please verify."
  (throw_if (guard (temperature self)
               (or_else (py_lt (temperature self) 32) (py_gt (temperature self) 45)))
     "Temperature reading seems unusual. Please verify."
  (throw_if (guard (Visit.blood_glucose (vitals self))
               (py_gt (Visit.blood_glucose (vitals self)) 600))
     "Blood glucose reading seems extremely high. Please verify."
  (Passed tt)))))).

(** [before_save]: the BMI is computed, then the data is validated (the
    patient name and the creating user are copied from the framework and
    touch no field read here). *)
Definition before_save (today : Z) (self : t) : checked t :=
  lift (calculate_bmi self) (fun self =>
  match validate_visit_data today self with
  | Passed _ => Passed self
  | Thrown msg => Thrown msg
  | Crashed e => Crashed e
  end).

End VisitDoc.

(** ** chms/chms/doctype/corporate_screening/corporate_screening.py, continued *)

Module ScreeningLifecycle.

(** [validate_screening_data]; the two dates are day numbers, [None] when
    the field is empty. *)
Definition validate_screening_data (screening_date_from screening_date_to : option Z)
    (self : CorporateScreening.t) : checked unit :=
  (* Validate dates *)
  throw_if (Ok (match screening_date_from, screening_date_to with
                | Some f, Some t => (t <? f)%Z
                | _, _ => false
                end))
    "Screening start date cannot be after end date"
  (* Validate company name *)
  (throw_if (Ok (String.eqb (CorporateScreening.company_name self) ""))
     "Company name is required"
  (Passed tt)).

(** [before_save]: the data is validated, then the statistics are computed
    from [visits], the rows of [get_screening_visits()]. *)
Definition before_save (screening_date_from screening_date_to : option Z)
    (visits : list (gmap string pyval)) (self : CorporateScreening.t)
  : checked CorporateScreening.t :=
  match validate_screening_data screening_date_from screening_date_to self with
  | Passed _ => lift (CorporateScreening.calculate_statistics visits self) Passed
  | Thrown msg => Thrown msg
  | Crashed e => Crashed e
  end.

(** [calculate_final_statistics]; both reads of the visits return [visits]. *)
Definition calculate_final_statistics (visits : list (gmap string pyval))
    (self : CorporateScreening.t) : result CorporateScreening.t :=
  let* self := CorporateScreening.calculate_statistics visits self in
  CorporateScreening.generate_executive_summary visits self.

End ScreeningLifecycle.

(** ** chms/chms/doctype/clinic/clinic.py *)

(** [a + b]: numbers add, strings concatenate, anything else raises. *)
Definition py_add (a b : pyval) : result pyval :=
  match a, b with
  | PNum x, PNum y => Ok (PNum (x + y))
  | PStr x, PStr y => Ok (PStr (x +:+ y))
  | _, _ => Raise TypeError
  end.

(** [a > b] and [a >= b] between two values: numbers by value, strings in
    lexicographic order, anything else raises. *)
Definition py_gt_val (a b : pyval) : result bool :=
  match a, b with
  | PNum x, PNum y => Ok (negb (Qle_bool x y))
  | PStr x, PStr y => Ok (String.ltb y x)
  | _, _ => Raise TypeError
  end.
Definition py_ge_val (a b : pyval) : result bool :=
  match a, b with
  | PNum x, PNum y => Ok (Qle_bool y x)
  | PStr x, PStr y => Ok (negb (String.ltb x y))
  | _, _ => Raise TypeError
  end.

Module Clinic.

Record t : Type := {
  name : string;
  clinic_code : string;
  email : string;
  capacity : pyval;
  total_staff : pyval;
  practitioners_count : pyval;
  administrative_staff_count : pyval
}.

(** [existing] is what [frappe.db.exists] returned for the clinic code and
    [email_matches] whether [re.match(email_pattern, self.email)] matched. *)
Definition validate_clinic_data (existing : option string) (email_matches : bool)
    (self : t) : checked unit :=
  (* Check if clinic code already exists *)
  throw_if (Ok (negb (String.eqb (clinic_code self) "") &&
                match existing with
                | Some e => negb (String.eqb e "") && negb (String.eqb e (name self))
                | None => false
                end))
    ("Clinic with code " +:+ clinic_code self +:+ " already exists")
  (* Validate email format *)
  (throw_if (Ok (negb (String.eqb (email self) "") && negb email_matches))
     "Please enter a valid email address"
  (* Validate capacity *)
  (throw_if (guard (capacity self) (py_lt (capacity self) 0))
     "Patient capacity cannot be negative"
  (* Validate staff counts *)
  (throw_if (guard (total_staff self) (py_lt (total_staff self) 0))
     "Total staff count cannot be negative"
  (throw_if (guard (practitioners_count self)
              (guard (administrative_staff_count self)
                 (guard (total_staff self)
                    (let* sum := py_add (practitioners_count self)
                                        (administrative_staff_count self) in
                     py_gt_val sum (total_staff self)))))
     "Sum of practitioners and administrative staff cannot exceed total staff"
  (Passed tt))))).

(** [round((daily / capacity) * 100, 1)] with [daily = visits / 30]. *)
Definition utilization (visits capacity : pyval) : result Q :=
  let* v := as_number visits in
  let daily := v / 30 in
  let* c := as_number capacity in
  let* r := py_div daily c in
  Ok (round1 (r * 100)).

(** The utilization rate of [get_clinic_statistics]; [visit_stats] is the
    result of the first query. *)
Definition statistics_utilization_rate (self : t)
    (visit_stats : list (gmap string pyval)) : result Q :=
  match visit_stats with
  | row :: _ =>
      if truthy (capacity self) then
        utilization (dict_get_or row "visits_last_30_days" (PNum 0)) (capacity self)
      else Ok 0
  | [] => Ok 0
  end.

(** The utilization rate of one clinic in [get_all_clinics_summary];
    [clinic] is the row of the clinic and [visit_stats] the result of its
    query. *)
Definition summary_utilization_rate (clinic : gmap string pyval)
    (visit_stats : list (gmap string pyval)) : result Q :=
  let stats := match visit_stats with row :: _ => row | [] => ∅ end in
  if truthy (dict_get clinic "capacity") &&
     truthy (dict_get stats "visits_last_30_days") then
    let* visits := dict_item stats "visits_last_30_days" in
    utilization visits (dict_get clinic "capacity")
  else Ok 0.

(** The utilization rate of one row in [get_clinic_performance_metrics]. *)
Definition performance_utilization_rate (clinic_data : gmap string pyval)
  : result Q :=
  if truthy (dict_get clinic_data "capacity") &&
     truthy (dict_get clinic_data "visits_last_30_days") then
    utilization (dict_get clinic_data "visits_last_30_days")
                (dict_get clinic_data "capacity")
  else Ok 0.

(** The answers of [validate_clinic_capacity]. *)
Inductive availability : Type :=
  | NoCapacityLimit
  | CapacityExceeded (capacity : pyval) (bookings : Z)
  | CapacityAvailable (bookings : Z) (capacity : pyval).

Definition available (a : availability) : bool :=
  match a with CapacityExceeded _ _ => false | _ => true end.

(** [existing_visits] is the count of the bookings of the day. *)
Definition validate_clinic_capacity (existing_visits : Z) (clinic_doc : t)
  : result availability :=
  if negb (truthy (capacity clinic_doc)) then Ok NoCapacityLimit else
  let* full := py_ge_val (PNum (inject_Z existing_visits)) (capacity clinic_doc) in
  if full then Ok (CapacityExceeded (capacity clinic_doc) existing_visits)
  else Ok (CapacityAvailable existing_visits (capacity clinic_doc)).

End Clinic.

(** ** chms/chms/doctype/patient/patient.py *)

Module Patient.

Record t : Type := {
  name : string;
  patient_id : string;
  first_name : string;
  last_name : string;
  full_name : option string;
  email : string;
  date_of_birth : option Z;
  age : option Z
}.

Definition set_full_name (self : t) : t :=
  if negb (String.eqb (first_name self) "") && negb (String.eqb (last_name self) "")
  then {| name := name self; patient_id := patient_id self;
          first_name := first_name self; last_name := last_name self;
          full_name := Some (first_name self +:+ " " +:+ last_name self);
          email := email self; date_of_birth := date_of_birth self;
          age := age self |}
  else self.

(** [date_diff(current_date, birth_date) // 365] on day numbers. *)
Definition calculate_age (today : Z) (self : t) : t :=
  match date_of_birth self with
  | Some birth_date =>
      {| name := name self; patient_id := patient_id self;
         first_name := first_name self;
         last_name := last_name self; full_name := full_name self;
         email := email self; date_of_birth := date_of_birth self;
         age := Some ((today - birth_date) / 365)%Z |}
  | None => self
  end.

(** [is_new] is [self.is_new()], [existing] what [frappe.db.exists]
    returned for the patient id, [email_matches] whether the pattern
    matched. *)
Definition validate_patient_data (is_new : bool) (existing : option string)
    (email_matches : bool) (today : Z) (self : t) : checked unit :=
  if negb is_new then Passed tt else
  throw_if (Ok (match existing with
                | Some e => negb (String.eqb e "") && negb (String.eqb e (name self))
                | None => false
                end))
    ("Patient with ID " +:+ patient_id self +:+ " already exists")
  (throw_if (Ok (negb (String.eqb (email self) "") && negb email_matches))
     "Please enter a valid email address"
  (throw_if (Ok (match date_of_birth self with
                 | Some d => (today <? d)%Z
                 | None => false
                 end))
     "Date of birth cannot be in the future"
  (Passed tt))).

Definition before_save (is_new : bool) (existing : option string)
    (email_matches : bool) (today : Z) (self : t) : checked t :=
  let self := set_full_name self in
  let self := calculate_age today self in
  match validate_patient_data is_new existing email_matches today self with
  | Passed _ => Passed self
  | Thrown msg => Thrown msg
  | Crashed e => Crashed e
  end.

(** The BMI category of [get_patient_dashboard_data]; [latest_screening]
    is the result of the query for the latest visit. *)
Definition dashboard_bmi_category (latest_screening : list (gmap string pyval))
  : result (option string) :=
  match latest_screening with
  | row :: _ =>
      if truthy (dict_get row "bmi") then
        let* bmi := dict_item row "bmi" in
        let* c := py_lt bmi 18.5 in
        if c then Ok (Some "Underweight"%string) else
        let* c := py_lt bmi 25 in
        if c then Ok (Some "Healthy Weight"%string) else
        let* c := py_lt bmi 30 in
        if c then Ok (Some "Overweight"%string) else
        Ok (Some "Obese"%string)
      else Ok None
  | [] => Ok None
  end.

End Patient.

(** ** Reference data for the properties of the rest of the sources *)

(** The six BMI categories, by increasing BMI. *)
Definition bmi_categories : list string :=
  ["Underweight"; "Healthy Weight"; "Overweight"; "Obesity Stage 1";
   "Obesity Stage 2"; "Morbidly Obese"]%string.
Definition bmi_severity (c : string) : option nat := index_of c bmi_categories.

(** The four categories of the patient dashboard: the three obesity classes
    of the utility are one class there. *)
Definition coarsen_bmi_category (c : string) : string :=
  if existsb (String.eqb c)
       ["Obesity Stage 1"; "Obesity Stage 2"; "Morbidly Obese"]%string
  then "Obese"%string else c.

(** The result of a call, with a function applied to the value returned. *)
Definition result_map {A B : Type} (f : A -> B) (r : result A) : result B :=
  match r with Ok a => Ok (f a) | Raise e => Raise e end.


(** The categories in the order [generate_health_recommendations] can
    append them. *)
Definition recommendation_categories : list string :=
  ["Weight Management"; "Cardiovascular Health"; "Diabetes Management";
   "Diabetes Prevention"; "Smoking Cessation"; "Physical Activity";
   "Stress Management"; "Sleep Health"]%string.

(** Whether a list holds a recommendation of a category and priority, and
    whether an assessment names a factor. *)
Definition has_recommendation (c p : string) (recs : list recommendation) : bool :=
  existsb (fun r => String.eqb (category r) c && String.eqb (priority r) p) recs.
Definition has_factor (name : string) (factors : list string) : bool :=
  existsb (String.eqb name) factors.

(** ** Definitions for the properties of the rest of the sources, continued *)

(** The points each block of [calculate_cardiovascular_risk_score] adds
    with the factor it records. *)
Definition factor_points (name : string) : Z :=
  if existsb (String.eqb name) ["Obesity"; "Hypertension"; "Diabetes"; "Smoking"]%string
  then 2%Z
  else if existsb (String.eqb name)
            ["Age ≥45"; "Overweight"; "Elevated BP"; "Prediabetes";
             "Physical Inactivity"]%string
  then 1%Z else 0%Z.
Definition points_of (factors : list string) : Z :=
  fold_right (fun name acc => (factor_points name + acc)%Z) 0%Z factors.

(** The recommendation that goes with each risk factor other than age. *)
Definition factor_recommendation : list (string * recommendation) :=
  [("Obesity", weight_loss_program); ("Overweight", weight_maintenance);
   ("Hypertension", pressure_management); ("Elevated BP", pressure_monitoring);
   ("Diabetes", diabetes_management); ("Prediabetes", diabetes_prevention);
   ("Smoking", smoking_cessation); ("Physical Inactivity", physical_activity)]%string.

(** The two locals of the risk score and the recommendation list agree:
    the score is the sum of the points of the factors, and a factor is
    recorded exactly when its recommendation is. *)
Definition linked (st : risk_state) (recs : list recommendation) : Prop :=
  st.1 = points_of st.2 /\
  forall n x, In (n, x) factor_recommendation -> (In n st.2 <-> In x recs).

(** [set (Some v)] when there is a value to store, nothing otherwise. *)
Definition store {V : Type} (set : option V -> CorporateScreening.t -> CorporateScreening.t)
    (v : option V) (d : CorporateScreening.t) : CorporateScreening.t :=
  match v with Some _ => set v d | None => d end.

(** The last step of [calculate_statistics]: the total cost is stored when
    there is a cost per participant and a participant. *)
Definition store_total_cost (self : CorporateScreening.t) : CorporateScreening.t :=
  if CorporateScreening.truthyQ (CorporateScreening.cost_per_participant self) &&
     CorporateScreening.truthyZ (CorporateScreening.total_participants self) then
    match CorporateScreening.cost_per_participant self,
          CorporateScreening.total_participants self with
    | Some c, Some n => CorporateScreening.set_total_cost (Some (c * inject_Z n)) self
    | _, _ => self
    end
  else self.

(** A summary that opens with the given sentence. *)
Definition opens_with (p : CorporateScreening.sentence)
    (summary : list CorporateScreening.sentence) : Prop :=
  exists tail, summary = p :: tail.




(** A clinic with 20 places a day and a staff of 3 practitioners and
    2 administrative employees out of 6. *)
Definition clinic_example : Clinic.t :=
  {| Clinic.name := "CL-001"; Clinic.clinic_code := "MAIN";
     Clinic.email := "main@example.com";
     Clinic.capacity := PNum 20; Clinic.total_staff := PNum 6;
     Clinic.practitioners_count := PNum 3;
     Clinic.administrative_staff_count := PNum 2 |}.

(** A patient born on day 0 whose record was created with the names
    filled in. *)
Definition patient_example : Patient.t :=
  {| Patient.name := "PAT-001"; Patient.patient_id := "P1";
     Patient.first_name := "Ada"; Patient.last_name := "Lovelace";
     Patient.full_name := None; Patient.email := "";
     Patient.date_of_birth := Some 0%Z; Patient.age := None |}.

(** What a block of [calculate_cardiovascular_risk_score] may do to the
    two locals: the score does not decrease and the factors appended are
    among [names]. *)
Definition grows (names : list string) (st st' : risk_state) : Prop :=
  (st.1 <= st'.1)%Z /\
  exists added, st'.2 = st.2 ++ added /\ forall n, In n added -> In n names.

(** A man with a waist of 42 inches, a blood pressure of 135/88 and a
    fasting glucose of 110. *)
Definition metabolic_example : gmap string pyval :=
  dict_of [("waist_circumference"%string, PNum 42); ("gender"%string, PStr "Male");
           ("blood_pressure_systolic"%string, PNum 135);
           ("blood_pressure_diastolic"%string, PNum 88);
           ("blood_glucose"%string, PNum 110)].


(** * Properties *)

(** ** Boolean comparisons on [Q] *)

Lemma Qle_bool_reflect (a b : Q) : reflect (a <= b) (Qle_bool a b).
Proof.
  destruct (Qle_bool a b) eqn:E; constructor.
  - by apply Qle_bool_iff.
  - intros H. apply Qle_bool_iff in H. congruence.
Qed.

Lemma Qeq_bool_reflect (a b : Q) : reflect (a == b) (Qeq_bool a b).
Proof.
  destruct (Qeq_bool a b) eqn:E; constructor.
  - by apply Qeq_bool_iff.
  - intros H. apply Qeq_bool_iff in H. congruence.
Qed.

Ltac qcases :=
  repeat match goal with
    | |- context [Qle_bool ?a ?b] => destruct (Qle_bool_reflect a b)
    | |- context [Qeq_bool ?a ?b] => destruct (Qeq_bool_reflect a b)
    end;
  simpl.

Lemma truthy_num (q : Q) : ~ q == 0 -> truthy (PNum q) = true.
Proof. intros H. simpl. destruct (Qeq_bool_reflect q 0); [contradiction | reflexivity]. Qed.

Lemma truthy_pos (q : Q) : 0 < q -> truthy (PNum q) = true.
Proof. intros H. apply truthy_num. lra. Qed.

(** ** Glucose classifiers *)

(** C4.  The standalone classifier has the bands <70, <100, <126, <200, else
    (five categories); the classifier of the Visit document has the bands
    <70, <100, <140, else (four categories).  On every glucose value in
    [126, 140) the first answers a Diabetic category and the second
    Prediabetic, so the two are not the same operation. *)
Theorem glucose_classifiers_not_equivalent (g : Q) (self : Visit.t) :
  Visit.blood_glucose self = PNum g ->
  ~ g == 0 ->
  ((g < 70 -> get_glucose_category (PNum g) = Ok (Some "Low"%string)) /\
   (70 <= g < 100 ->
      get_glucose_category (PNum g) = Ok (Some "Normal (Fasting)"%string)) /\
   (100 <= g < 126 ->
      get_glucose_category (PNum g) = Ok (Some "Prediabetic (Fasting)"%string)) /\
   (126 <= g < 200 ->
      get_glucose_category (PNum g) = Ok (Some "Diabetic (Fasting)"%string)) /\
   (200 <= g ->
      get_glucose_category (PNum g) = Ok (Some "Severely Elevated"%string))) /\
  ((g < 70 -> Visit.get_glucose_category self = Ok (Some "Low"%string)) /\
   (70 <= g < 100 -> Visit.get_glucose_category self = Ok (Some "Normal"%string)) /\
   (100 <= g < 140 ->
      Visit.get_glucose_category self = Ok (Some "Prediabetic"%string)) /\
   (140 <= g -> Visit.get_glucose_category self = Ok (Some "Diabetic"%string))) /\
  (126 <= g < 140 ->
     get_glucose_category (PNum g) = Ok (Some "Diabetic (Fasting)"%string) /\
     Visit.get_glucose_category self = Ok (Some "Prediabetic"%string) /\
     get_glucose_category (PNum g) <> Visit.get_glucose_category self).
Proof.
  intros Hself Hnz.
  unfold get_glucose_category, Visit.get_glucose_category.
  rewrite Hself, (truthy_num g Hnz). simpl.
  repeat split; intros; qcases; try reflexivity; try discriminate; exfalso; lra.
Qed.

Lemma glucose_classifiers_not_equivalent_witness :
  get_glucose_category (PNum 130) = Ok (Some "Diabetic (Fasting)"%string) /\
  Visit.get_glucose_category
    {| Visit.bmi := PNone; Visit.blood_pressure_systolic := PNone;
       Visit.blood_pressure_diastolic := PNone; Visit.blood_glucose := PNum 130 |}
  = Ok (Some "Prediabetic"%string).
Proof.
  assert (Hnz : ~ 130 == 0) by lra.
  assert (Hin : 126 <= 130 < 140) by lra.
  pose proof (glucose_classifiers_not_equivalent 130
                {| Visit.bmi := PNone; Visit.blood_pressure_systolic := PNone;
                   Visit.blood_pressure_diastolic := PNone;
                   Visit.blood_glucose := PNum 130 |} eq_refl Hnz) as (_ & _ & H).
  destruct (H Hin) as (H1 & H2 & _).
  split; assumption.
Defined.

(** ** Blood-pressure categories *)

(** The branch taken by [get_blood_pressure_category] on two positive
    readings, with the rank of the category returned. *)
Lemma bp_category_cases (s d : Q) :
  0 < s -> 0 < d ->
  exists c i,
    get_blood_pressure_category (PNum s) (PNum d) = Ok (Some c) /\
    bp_severity c = Some i /\
    ((i = 0%nat /\ s < 120 /\ d < 80) \/
     (i = 1%nat /\ 120 <= s < 130 /\ d < 80) \/
     (i = 2%nat /\ (130 <= s \/ 80 <= d) /\ (s < 140 \/ d < 90)) \/
     (i = 3%nat /\ 140 <= s /\ 90 <= d /\ (s < 180 \/ d < 120)) \/
     (i = 4%nat /\ 180 <= s /\ 120 <= d)).
Proof.
  intros Hs Hd. unfold get_blood_pressure_category.
  rewrite (truthy_pos s Hs), (truthy_pos d Hd). simpl.
  destruct (Qle_bool_reflect 120 s), (Qle_bool_reflect 80 d),
    (Qle_bool_reflect 130 s), (Qle_bool_reflect 140 s), (Qle_bool_reflect 90 d),
    (Qle_bool_reflect 180 s), (Qle_bool_reflect 120 d); simpl;
    try (exfalso; lra);
    eexists; eexists; (split; [reflexivity | split; [reflexivity | ]]);
    first [ left; repeat split; lra
          | right; left; repeat split; lra
          | right; right; left; split; [reflexivity | split; [ | ]]; lra
          | right; right; right; left; split; [reflexivity | repeat split; lra]
          | right; right; right; right; repeat split; lra ].
Qed.

(** C7.  On present, positive readings [get_blood_pressure_category] returns
    one of the five categories, and the severity of the category does not
    decrease when the systolic value grows with the diastolic value fixed,
    nor when the diastolic value grows with the systolic value fixed. *)
Theorem blood_pressure_category_monotone (s d : Q) :
  0 < s -> 0 < d ->
  exists c i,
    get_blood_pressure_category (PNum s) (PNum d) = Ok (Some c) /\
    In c bp_categories /\
    bp_severity c = Some i /\
    (forall s', s <= s' ->
       exists c' j,
         get_blood_pressure_category (PNum s') (PNum d) = Ok (Some c') /\
         bp_severity c' = Some j /\ (i <= j)%nat) /\
    (forall d', d <= d' ->
       exists c' j,
         get_blood_pressure_category (PNum s) (PNum d') = Ok (Some c') /\
         bp_severity c' = Some j /\ (i <= j)%nat).
Proof.
  intros Hs Hd.
  destruct (bp_category_cases s d Hs Hd) as (c & i & Hc & Hi & Hcase).
  exists c, i. split; [exact Hc | ]. split.
  { clear Hcase. unfold get_blood_pressure_category in Hc.
    rewrite (truthy_pos s Hs), (truthy_pos d Hd) in Hc. simpl in Hc.
    repeat match type of Hc with
           | context [Qle_bool ?a ?b] => destruct (Qle_bool a b); simpl in Hc
           end;
      injection Hc as <-; simpl; tauto. }
  split; [exact Hi | ]. split.
  - intros s' Hle.
    assert (Hs' : 0 < s') by lra.
    destruct (bp_category_cases s' d Hs' Hd) as (c' & j & Hc' & Hj & Hcase').
    exists c', j. split; [exact Hc' | ]. split; [exact Hj | ].
    destruct Hcase as [H|[H|[H|[H|H]]]], Hcase' as [H'|[H'|[H'|[H'|H']]]];
      destruct H as [-> H], H' as [-> H']; try lia; exfalso; lra.
  - intros d' Hle.
    assert (Hd' : 0 < d') by lra.
    destruct (bp_category_cases s d' Hs Hd') as (c' & j & Hc' & Hj & Hcase').
    exists c', j. split; [exact Hc' | ]. split; [exact Hj | ].
    destruct Hcase as [H|[H|[H|[H|H]]]], Hcase' as [H'|[H'|[H'|[H'|H']]]];
      destruct H as [-> H], H' as [-> H']; try lia; exfalso; lra.
Qed.

Lemma blood_pressure_category_monotone_witness :
  exists c i,
    get_blood_pressure_category (PNum 125) (PNum 70) = Ok (Some c) /\
    In c bp_categories /\
    bp_severity c = Some i /\
    (forall s', 125 <= s' ->
       exists c' j,
         get_blood_pressure_category (PNum s') (PNum 70) = Ok (Some c') /\
         bp_severity c' = Some j /\ (i <= j)%nat) /\
    (forall d', 70 <= d' ->
       exists c' j,
         get_blood_pressure_category (PNum 125) (PNum d') = Ok (Some c') /\
         bp_severity c' = Some j /\ (i <= j)%nat).
Proof.
  apply (blood_pressure_category_monotone 125 70); reflexivity.
Defined.

(** ** Cardiovascular risk score *)

Lemma bind_ok {A B : Type} (m : result A) (f : A -> result B) (b : B) :
  bind m f = Ok b -> exists a, m = Ok a /\ f a = Ok b.
Proof. destruct m as [a|e]; simpl; [eauto | discriminate]. Qed.

Lemma bind_Ok {A B : Type} (a : A) (f : A -> result B) : bind (Ok a) f = f a.
Proof. reflexivity. Qed.

Ltac bind_inv H :=
  repeat match type of H with
    | bind _ _ = Ok _ =>
        let a := fresh "a" in
        let Ha := fresh "Ha" in
        apply bind_ok in H; destruct H as (a & Ha & H)
    end.


(** What each block can do to the two locals, on a field that is a number
    or missing. *)
Lemma age_risk_cases (visit_data : gmap string pyval) (st : risk_state) :
  is_number (dict_get_or visit_data "age" (PNum 0)) = true ->
  age_risk visit_data st = Ok st \/
  age_risk visit_data st = Ok (add_risk st 1 "Age ≥45").
Proof.
  unfold age_risk. destruct (dict_get_or _ _ _) as [|a|]; try discriminate.
  intros _. simpl. destruct (Qle_bool 45 a); auto.
Qed.

Lemma bmi_risk_cases (visit_data : gmap string pyval) (st : risk_state) :
  measurement (dict_get visit_data "bmi") = true ->
  bmi_risk visit_data st = Ok st \/
  bmi_risk visit_data st = Ok (add_risk st 2 "Obesity") \/
  bmi_risk visit_data st = Ok (add_risk st 1 "Overweight").
Proof.
  unfold bmi_risk, guard. destruct (dict_get _ _) as [|b|]; try discriminate.
  - auto.
  - intros _. simpl. destruct (Qeq_bool b 0); simpl; [auto | ].
    destruct (Qle_bool 30 b); simpl; [auto | ].
    destruct (Qle_bool 25 b); auto.
Qed.

Lemma blood_pressure_risk_cases (visit_data : gmap string pyval) (st : risk_state) :
  measurement (dict_get visit_data "blood_pressure_systolic") = true ->
  measurement (dict_get visit_data "blood_pressure_diastolic") = true ->
  blood_pressure_risk visit_data st = Ok st \/
  blood_pressure_risk visit_data st = Ok (add_risk st 2 "Hypertension") \/
  blood_pressure_risk visit_data st = Ok (add_risk st 1 "Elevated BP").
Proof.
  unfold blood_pressure_risk.
  destruct (dict_get _ "blood_pressure_systolic") as [|s|]; try discriminate;
    destruct (dict_get _ "blood_pressure_diastolic") as [|d|]; try discriminate;
    intros _ _; simpl; auto.
  - destruct (Qeq_bool s 0); auto.
  - destruct (Qeq_bool s 0), (Qeq_bool d 0); simpl; auto.
    destruct (Qle_bool 140 s); simpl; [auto | ].
    destruct (Qle_bool 90 d); simpl; [auto | ].
    destruct (Qle_bool 130 s); simpl; [auto | ].
    destruct (Qle_bool 80 d); auto.
Qed.

Lemma glucose_risk_cases (visit_data : gmap string pyval) (st : risk_state) :
  measurement (dict_get visit_data "blood_glucose") = true ->
  glucose_risk visit_data st = Ok st \/
  glucose_risk visit_data st = Ok (add_risk st 2 "Diabetes") \/
  glucose_risk visit_data st = Ok (add_risk st 1 "Prediabetes").
Proof.
  unfold glucose_risk. destruct (dict_get _ _) as [|g|]; try discriminate.
  - auto.
  - intros _. simpl. destruct (Qeq_bool g 0); simpl; [auto | ].
    destruct (Qle_bool 126 g); simpl; [auto | ].
    destruct (Qle_bool 100 g); auto.
Qed.

Lemma smoking_risk_cases (visit_data : gmap string pyval) (st : risk_state) :
  smoking_risk visit_data st = Ok st \/
  smoking_risk visit_data st = Ok (add_risk st 2 "Smoking").
Proof. unfold smoking_risk. destruct (py_in _ _); auto. Qed.

Lemma exercise_risk_cases (visit_data : gmap string pyval) (st : risk_state) :
  exercise_risk visit_data st = Ok st \/
  exercise_risk visit_data st = Ok (add_risk st 1 "Physical Inactivity").
Proof. unfold exercise_risk. destruct (py_in _ _); auto. Qed.

Ltac sublist_solve :=
  repeat first [apply sublist_nil | apply sublist_skip | apply sublist_cons].

(** On a record whose measurements are numbers or missing the function
    returns: a score between 0 and 10 and factors that respect the order of
    the blocks. *)
Lemma risk_score_returns (visit_data : gmap string pyval) :
  is_number (dict_get_or visit_data "age" (PNum 0)) = true ->
  measurement (dict_get visit_data "bmi") = true ->
  measurement (dict_get visit_data "blood_pressure_systolic") = true ->
  measurement (dict_get visit_data "blood_pressure_diastolic") = true ->
  measurement (dict_get visit_data "blood_glucose") = true ->
  exists r,
    calculate_cardiovascular_risk_score visit_data = Ok r /\
    (0 <= risk_score r <= 10)%Z /\
    sublist (risk_factors r) risk_factor_names.
Proof.
  intros Ha Hb Hs Hd Hg. unfold calculate_cardiovascular_risk_score.
  destruct (age_risk_cases visit_data (0%Z, []) Ha) as [E|E];
    rewrite E, bind_Ok; clear E;
  match goal with |- context [bmi_risk _ ?st] =>
    destruct (bmi_risk_cases visit_data st Hb) as [E|[E|E]] end;
    rewrite E, bind_Ok; clear E;
  match goal with |- context [blood_pressure_risk _ ?st] =>
    destruct (blood_pressure_risk_cases visit_data st Hs Hd) as [E|[E|E]] end;
    rewrite E, bind_Ok; clear E;
  match goal with |- context [glucose_risk _ ?st] =>
    destruct (glucose_risk_cases visit_data st Hg) as [E|[E|E]] end;
    rewrite E, bind_Ok; clear E;
  match goal with |- context [smoking_risk _ ?st] =>
    destruct (smoking_risk_cases visit_data st) as [E|E] end;
    rewrite E, bind_Ok; clear E;
  match goal with |- context [exercise_risk _ ?st] =>
    destruct (exercise_risk_cases visit_data st) as [E|E] end;
    rewrite E, bind_Ok; clear E;
  (eexists; split; [reflexivity | ]; split;
   [vm_compute; split; discriminate | unfold risk_factor_names; simpl; sublist_solve]).
Qed.


(** A record whose [age] is present but holds [None] is not a missing
    field for [.get('age', 0)]: the comparison raises. *)
Lemma age_none_raises (st : risk_state) :
  age_risk (dict_of [("age"%string, PNone)]) st = Raise TypeError.
Proof. reflexivity. Qed.

(** ** Metabolic syndrome criteria *)

Ltac crit_solve :=
  unfold waist_criterion, pressure_criterion, glucose_criterion;
  match goal with
  | |- ?b = true <-> _ => let b' := eval vm_compute in b in change b with b'
  end;
  match goal with
  | |- false = true <-> _ =>
      split; [discriminate | ];
      intros ((w' & Hw' & Hgen' & Hwt') & (s' & d' & Hs' & Hd' & Hsz' & Hdz' & Hsd') &
              (g' & Hg' & Hgt'));
      repeat match goal with
        | H1 : ?t = _, H2 : ?t = _ |- _ => rewrite H1 in H2
        end;
      try discriminate;
      repeat match goal with
        | H : PNum _ = PNum _ |- _ => injection H as <-
        end;
      repeat match goal with
        | H : py_eq_str ?a ?b = _, H' : context [py_eq_str ?a ?b] |- _ =>
            rewrite H in H'
        end;
      exfalso; lra
  | |- true = true <-> _ =>
      split; [intros _ | reflexivity];
      (split; [ | split]);
      repeat eexists; try eassumption;
      repeat match goal with
        | H : py_eq_str _ _ = _ |- _ => rewrite H
        end;
      first [assumption | lra]
  end.

(** C9.  [has_metabolic_syndrome] holds exactly when [criteria_met >= 3];
    [criteria_met] never exceeds 3, so the flag is set exactly when the
    waist, blood-pressure and glucose criteria are all met; a record with
    only [blood_glucose = 110] meets one criterion and is not flagged. *)
Theorem metabolic_syndrome_spec :
  calculate_metabolic_syndrome_criteria (dict_of [("blood_glucose"%string, PNum 110)]) =
    Ok {| criteria_met := 1; has_metabolic_syndrome := false;
          criteria_details := ["Elevated fasting glucose"%string] |} /\
  (forall visit_data,
     measurement (dict_get visit_data "waist_circumference") = true ->
     measurement (dict_get visit_data "blood_pressure_systolic") = true ->
     measurement (dict_get visit_data "blood_pressure_diastolic") = true ->
     measurement (dict_get visit_data "blood_glucose") = true ->
     exists r,
       calculate_metabolic_syndrome_criteria visit_data = Ok r /\
       (0 <= criteria_met r <= 3)%Z /\
       criteria_met r = Z.of_nat (length (criteria_details r)) /\
       (has_metabolic_syndrome r = true <-> (3 <= criteria_met r)%Z) /\
       (has_metabolic_syndrome r = true <->
          waist_criterion visit_data /\ pressure_criterion visit_data /\
          glucose_criterion visit_data)).
Proof.
  split; [vm_compute; reflexivity | ].
  intros visit_data Hw Hs Hd Hg.
  unfold calculate_metabolic_syndrome_criteria, waist_threshold.
  destruct (dict_get visit_data "waist_circumference") as [|w|?] eqn:Ew;
    [ | | discriminate Hw];
  destruct (dict_get visit_data "blood_pressure_systolic") as [|s|?] eqn:Es;
    [ | | discriminate Hs | | | discriminate Hs];
  destruct (dict_get visit_data "blood_pressure_diastolic") as [|d|?] eqn:Ed;
    try discriminate Hd;
  destruct (dict_get visit_data "blood_glucose") as [|g|?] eqn:Eg;
    try discriminate Hg;
  clear Hw Hs Hd Hg;
  destruct (truthy (dict_get visit_data "gender")) eqn:Egen;
  destruct (py_eq_str (dict_get visit_data "gender") "Male") eqn:Emale;
  unfold guard, add_risk; simpl; qcases;
  (eexists; split; [reflexivity | ]; simpl;
   split; [lia | ]; split; [reflexivity | ];
   split; [split; intros H; [first [discriminate H | lia] | first [reflexivity | exfalso; lia]] | ]);
  crit_solve.
Qed.

(** ** Rounding *)

Lemma round_half_even_comp (p q : Q) :
  p == q -> round_half_even p = round_half_even q.
Proof.
  intros H. unfold round_half_even.
  rewrite (Qfloor_comp _ _ H).
  assert (Hc : Qcompare (p - inject_Z (Qfloor q)) (1 # 2) =
               Qcompare (q - inject_Z (Qfloor q)) (1 # 2))
    by (apply Qcompare_comp; [rewrite H | ]; reflexivity).
  rewrite Hc. reflexivity.
Qed.

Lemma round_half_even_Z (n : Z) : round_half_even (inject_Z n) = n.
Proof.
  unfold round_half_even. rewrite Qfloor_Z.
  assert (Hc : Qcompare (inject_Z n - inject_Z n) (1 # 2) = Lt).
  { apply Qlt_alt.
    assert (Hz : inject_Z n - inject_Z n == 0) by ring.
    rewrite Hz. reflexivity. }
  rewrite Hc. reflexivity.
Qed.

(** A mean of five integers has one decimal: rounding it to one decimal
    changes nothing. *)
Lemma round1_fifth (q : Q) (t : Z) :
  q == inject_Z t / 5 -> round1 q = (2 * t)%Z # 10.
Proof.
  intros H. unfold round1. f_equal.
  rewrite <- (round_half_even_Z (2 * t)). apply round_half_even_comp.
  rewrite H, inject_Z_mult. field.
Qed.

(** ** Wellness wheel *)

Lemma exercise_score_range (v : pyval) :
  In (mapping_get exercise_mapping v 5) [1; 3; 5; 8; 10]%Z.
Proof.
  destruct v as [| |s]; simpl; [tauto | tauto | ].
  unfold exercise_mapping.
  repeat (rewrite lookup_insert; case_decide; [simpl; tauto | ]).
  rewrite lookup_empty. simpl. tauto.
Qed.

Lemma stress_score_range (v : pyval) :
  In (mapping_get stress_mapping v 5) [2; 5; 9]%Z.
Proof.
  destruct v as [| |s]; simpl; [tauto | tauto | ].
  unfold stress_mapping.
  repeat (rewrite lookup_insert; case_decide; [simpl; tauto | ]).
  rewrite lookup_empty. simpl. tauto.
Qed.

Lemma smoking_score_range (v : pyval) :
  In (mapping_get smoking_mapping v 10) [1; 3; 7; 10]%Z.
Proof.
  destruct v as [| |s]; simpl; [tauto | tauto | ].
  unfold smoking_mapping.
  repeat (rewrite lookup_insert; case_decide; [simpl; tauto | ]).
  rewrite lookup_empty. simpl. tauto.
Qed.

Lemma alcohol_score_range (v : pyval) :
  In (mapping_get alcohol_mapping v 7) [1; 3; 7; 8; 9]%Z.
Proof.
  destruct v as [| |s]; simpl; [tauto | tauto | ].
  unfold alcohol_mapping.
  repeat (rewrite lookup_insert; case_decide; [simpl; tauto | ]).
  rewrite lookup_empty. simpl. tauto.
Qed.

Lemma sleep_score_range (h : Q) :
  exists s, sleep_score (PNum h) = Ok s /\ In s [3; 6; 8]%Z.
Proof.
  unfold sleep_score. simpl. qcases; eexists; (split; [reflexivity | simpl; tauto]).
Qed.

(** The dict returned on a record whose [sleep_hours] is absent or a number:
    the five dimension scores in assignment order, then [overall]. *)
Lemma wellness_scores_shape (visit_data : gmap string pyval) (h : Q) :
  dict_get_or visit_data "sleep_hours" (PNum 7) = PNum h ->
  exists e sl st sm al : Z,
    calculate_wellness_wheel_scores visit_data =
      Ok [("exercise", inject_Z e); ("sleep", inject_Z sl);
          ("stress", inject_Z st); ("smoking", inject_Z sm);
          ("alcohol", inject_Z al);
          ("overall", (2 * (e + sl + st + sm + al))%Z # 10)]%string /\
    (2 * (e + sl + st + sm + al))%Z # 10 =
      round1 ((inject_Z e + inject_Z sl + inject_Z st + inject_Z sm + inject_Z al) / 5) /\
    In e [1; 3; 5; 8; 10]%Z /\ In sl [3; 6; 8]%Z /\ In st [2; 5; 9]%Z /\
    In sm [1; 3; 7; 10]%Z /\ In al [1; 3; 7; 8; 9]%Z.
Proof.
  intros Hh. unfold calculate_wellness_wheel_scores. rewrite Hh.
  destruct (sleep_score_range h) as (sl & Hsl & Hin). rewrite Hsl. simpl.
  set (e := mapping_get exercise_mapping _ 5).
  set (st := mapping_get stress_mapping _ 5).
  set (sm := mapping_get smoking_mapping _ 10).
  set (al := mapping_get alcohol_mapping _ 7).
  exists e, sl, st, sm, al.
  assert (Hmean : forall q : Q,
             q == inject_Z (e + sl + st + sm + al) / 5 ->
             round1 q = (2 * (e + sl + st + sm + al))%Z # 10)
    by (intros q Hq; by apply round1_fifth).
  split; [ | split].
  - unfold py_div, sumQ. simpl.
    rewrite (Hmean _); [reflexivity | ].
    rewrite !inject_Z_plus. field.
  - symmetry. apply Hmean. rewrite !inject_Z_plus. reflexivity.
  - repeat split; [apply exercise_score_range | exact Hin | apply stress_score_range
                  | apply smoking_score_range | apply alcohol_score_range].
Qed.

(** C8.  The worked record scores exercise 10, sleep 8, stress 9,
    smoking 10, alcohol 8 and overall round(45/5, 1) = 9.0; on every record
    that the function accepts, [overall] is the mean of the five dimension
    scores rounded to one decimal. *)
Theorem wellness_overall_is_rounded_mean :
  (calculate_wellness_wheel_scores wellness_example =
     Ok [("exercise", 10); ("sleep", 8); ("stress", 9); ("smoking", 10);
         ("alcohol", 8); ("overall", 90 # 10)]%string /\
   90 # 10 = round1 ((10 + 8 + 9 + 10 + 8) / 5) /\
   90 # 10 == 9) /\
  (forall visit_data h,
     dict_get_or visit_data "sleep_hours" (PNum 7) = PNum h ->
     exists e sl st sm al o : Q,
       calculate_wellness_wheel_scores visit_data =
         Ok [("exercise", e); ("sleep", sl); ("stress", st); ("smoking", sm);
             ("alcohol", al); ("overall", o)]%string /\
       o = round1 ((e + sl + st + sm + al) / 5)).
Proof.
  split.
  - split; [vm_compute; reflexivity | split; [vm_compute; reflexivity | reflexivity]].
  - intros visit_data h Hh.
    destruct (wellness_scores_shape visit_data h Hh)
      as (e & sl & st & sm & al & Hcalc & Hmean & _).
    exists (inject_Z e), (inject_Z sl), (inject_Z st), (inject_Z sm), (inject_Z al).
    eexists. split; [exact Hcalc | exact Hmean].
Qed.

Lemma wellness_overall_is_rounded_mean_witness :
  exists e sl st sm al o : Q,
    calculate_wellness_wheel_scores wellness_example =
      Ok [("exercise", e); ("sleep", sl); ("stress", st); ("smoking", sm);
          ("alcohol", al); ("overall", o)]%string /\
    o = round1 ((e + sl + st + sm + al) / 5).
Proof.
  exact (proj2 wellness_overall_is_rounded_mean wellness_example 8 eq_refl).
Defined.

(** C10.  Whatever the enum values of the record (missing and unrecognised
    ones included), each sub-score lies in its finite set, and the overall
    score lies in [1.6, 9.2]: it is never 10 and never 1.  Both ends are
    reached. *)
Theorem wellness_scores_bounded (visit_data : gmap string pyval) (h : Q) :
  dict_get_or visit_data "sleep_hours" (PNum 7) = PNum h ->
  (exists e sl st sm al : Z, exists o : Q,
     calculate_wellness_wheel_scores visit_data =
       Ok [("exercise", inject_Z e); ("sleep", inject_Z sl);
           ("stress", inject_Z st); ("smoking", inject_Z sm);
           ("alcohol", inject_Z al); ("overall", o)]%string /\
     In e [1; 3; 5; 8; 10]%Z /\ In sl [3; 6; 8]%Z /\ In st [2; 5; 9]%Z /\
     In sm [1; 3; 7; 10]%Z /\ In al [1; 3; 7; 8; 9]%Z /\
     16 # 10 <= o <= 92 # 10 /\ ~ o == 10 /\ ~ o == 1) /\
  calculate_wellness_wheel_scores wellness_best =
    Ok [("exercise", 10); ("sleep", 8); ("stress", 9); ("smoking", 10);
        ("alcohol", 9); ("overall", 92 # 10)]%string /\
  calculate_wellness_wheel_scores wellness_worst =
    Ok [("exercise", 1); ("sleep", 3); ("stress", 2); ("smoking", 1);
        ("alcohol", 1); ("overall", 16 # 10)]%string.
Proof.
  intros Hh. split; [ | split; vm_compute; reflexivity].
  destruct (wellness_scores_shape visit_data h Hh)
    as (e & sl & st & sm & al & Hcalc & _ & He & Hsl & Hst & Hsm & Hal).
  exists e, sl, st, sm, al. eexists. split; [exact Hcalc | ].
  repeat (split; [assumption | ]).
  assert (8 <= e + sl + st + sm + al <= 46)%Z by (simpl in *; lia).
  unfold Qle, Qeq; simpl. lia.
Qed.

Lemma wellness_scores_bounded_witness :
  exists e sl st sm al : Z, exists o : Q,
    calculate_wellness_wheel_scores (dict_of [("sleep_hours"%string, PNum 5)]) =
      Ok [("exercise", inject_Z e); ("sleep", inject_Z sl);
          ("stress", inject_Z st); ("smoking", inject_Z sm);
          ("alcohol", inject_Z al); ("overall", o)]%string /\
    In e [1; 3; 5; 8; 10]%Z /\ In sl [3; 6; 8]%Z /\ In st [2; 5; 9]%Z /\
    In sm [1; 3; 7; 10]%Z /\ In al [1; 3; 7; 8; 9]%Z /\
    16 # 10 <= o <= 92 # 10 /\ ~ o == 10 /\ ~ o == 1.
Proof.
  exact (proj1 (wellness_scores_bounded
                  (dict_of [("sleep_hours"%string, PNum 5)]) 5 eq_refl)).
Defined.

(** ** Cross-cohort weighted average *)

Import DashboardApi.

Lemma sum_participants_spec (screenings : list (gmap string pyval)) (acc : Q) :
  forallb screening_ok screenings = true ->
  sum_participants acc screenings =
    Ok (fold_left Qplus (map participants_of screenings) acc).
Proof.
  revert acc. induction screenings as [|s rest IH]; intros acc Hok; [reflexivity | ].
  simpl in Hok. apply andb_true_iff in Hok as [Hs Hrest].
  unfold screening_ok in Hs. rewrite !andb_true_iff in Hs.
  destruct Hs as [[Hp _] _].
  destruct (dict_get_or s "total_participants" (PNum 0)) as [|p|] eqn:E;
    try discriminate Hp.
  assert (Hps : participants_of s = p)
    by (unfold participants_of; rewrite E; reflexivity).
  simpl. rewrite E, Hps. by apply IH.
Qed.

Lemma company_names_ok (screenings : list (gmap string pyval)) :
  forallb screening_ok screenings = true ->
  exists names, company_names screenings = Ok names.
Proof.
  induction screenings as [|s rest IH]; intros Hok; [by eexists | ].
  simpl in Hok. apply andb_true_iff in Hok as [Hs Hrest].
  unfold screening_ok in Hs. rewrite !andb_true_iff in Hs.
  destruct Hs as [[_ Hc] _]. apply bool_decide_eq_true in Hc as [c Hc].
  destruct (IH Hrest) as (names & Hnames).
  exists (c :: names). simpl. unfold dict_item. rewrite Hc. simpl.
  rewrite Hnames. reflexivity.
Qed.

(** The loop adds exactly the counted sub-cohorts to each accumulator. *)
Lemma weighted_loop_spec (screenings : list (gmap string pyval)) (w : weights) :
  forallb screening_ok screenings = true ->
  weighted_loop w screenings =
    Ok {| total_weight :=
            fold_left Qplus (map participants_of (counted screenings)) (total_weight w);
          weighted_obesity :=
            fold_left Qplus
              (map (fun s => metric_of "obesity_prevalence" s * participants_of s)
                   (counted screenings)) (weighted_obesity w);
          weighted_hypertension :=
            fold_left Qplus
              (map (fun s => metric_of "hypertension_prevalence" s * participants_of s)
                   (counted screenings)) (weighted_hypertension w);
          weighted_diabetes :=
            fold_left Qplus
              (map (fun s => metric_of "diabetes_prevalence" s * participants_of s)
                   (counted screenings)) (weighted_diabetes w);
          weighted_smoking :=
            fold_left Qplus
              (map (fun s => metric_of "smoking_prevalence" s * participants_of s)
                   (counted screenings)) (weighted_smoking w) |}.
Proof.
  revert w. induction screenings as [|s rest IH]; intros w Hok.
  { destruct w; reflexivity. }
  simpl in Hok. apply andb_true_iff in Hok as [Hs Hrest].
  unfold screening_ok in Hs. rewrite !andb_true_iff in Hs.
  destruct Hs as [[Hp _] Hm].
  destruct (dict_get_or s "total_participants" (PNum 0)) as [|p|] eqn:E;
    try discriminate Hp.
  assert (Hps : participants_of s = p)
    by (unfold participants_of; rewrite E; reflexivity).
  simpl. unfold weighted_step, counted. rewrite E. simpl. rewrite Hps.
  destruct (Qle_bool p 0) eqn:Ep; simpl.
  - rewrite (IH w Hrest). reflexivity.
  - rewrite Hps, Ep in Hm. simpl in Hm.
    rewrite !andb_true_iff in Hm. destruct Hm as (Ho & Hh & Hd & Hsm & _).
    unfold add_weighted, metric_of.
    destruct (dict_get_or s "obesity_prevalence" (PNum 0)); try discriminate Ho.
    destruct (dict_get_or s "hypertension_prevalence" (PNum 0)); try discriminate Hh.
    destruct (dict_get_or s "diabetes_prevalence" (PNum 0)); try discriminate Hd.
    destruct (dict_get_or s "smoking_prevalence" (PNum 0)); try discriminate Hsm.
    simpl. rewrite Hps. rewrite (IH _ Hrest). reflexivity.
Qed.



(** Treating the empty sub-cohort as a zero-weight term would have read its
    prevalences: the product [None * 0] is a [TypeError]. *)
Lemma zero_weight_term_would_raise :
  add_weighted 0 cohort_empty "hypertension_prevalence" 0 = Raise TypeError.
Proof. vm_compute. reflexivity. Qed.

(** ** Cohort statistics *)

Import CorporateScreening.

(** What [calculate_health_prevalence] stores as hypertension prevalence:
    the denominator counts the records with a systolic reading, whatever
    their diastolic reading. *)
Lemma hypertension_prevalence_computed (visits : list (gmap string pyval))
    (self self' : CorporateScreening.t) :
  calculate_health_prevalence visits self = Ok self' ->
  let total_with_bp :=
    count_if (fun v => truthy (dict_get v "blood_pressure_systolic")) visits in
  if (0 <? total_with_bp)%Z then
    exists hypertensive_count p,
      count_where is_hypertensive visits = Ok hypertensive_count /\
      percentage hypertensive_count total_with_bp = Ok p /\
      hypertension_prevalence self' = Some p
  else hypertension_prevalence self' = hypertension_prevalence self.
Proof.
  unfold calculate_health_prevalence. intros H. cbv zeta.
  apply bind_ok in H as (s1 & H1 & H).
  apply bind_ok in H as (s2 & H2 & H).
  apply bind_ok in H as (s3 & H3 & H).
  apply bind_ok in H as (s4 & H4 & H).
  apply bind_ok in H as (n & Hn & H). injection H as <-.
  assert (E1 : hypertension_prevalence s1 = hypertension_prevalence self).
  { destruct (0 <? _)%Z in H1; [ | by injection H1 as <-].
    bind_inv H1. by injection H1 as <-. }
  assert (E3 : hypertension_prevalence s3 = hypertension_prevalence s2).
  { destruct (0 <? _)%Z in H3; [ | by injection H3 as <-].
    bind_inv H3. by injection H3 as <-. }
  assert (E4 : hypertension_prevalence s4 = hypertension_prevalence s3).
  { destruct (0 <? _)%Z in H4; [ | by injection H4 as <-].
    bind_inv H4. by injection H4 as <-. }
  simpl. rewrite E4, E3.
  destruct (0 <? _)%Z in H2 |- *.
  - apply bind_ok in H2 as (c & Hc & H2). apply bind_ok in H2 as (p & Hp & H2).
    injection H2 as <-. exists c, p. auto.
  - injection H2 as <-. exact E1.
Qed.

(** C2 (the code departs from the claim).  On a cohort of one visit with
    both readings (hypertensive) and one visit with a systolic reading only,
    the stored prevalence is 50.0: the visit without a diastolic reading is
    in the denominator.  With the denominator of the claim (both readings
    present) the rate is 100.0.  On the visit with a systolic reading only,
    the code stores 0.0 where the claim leaves the field absent. *)
Theorem hypertension_denominator_counts_systolic_only :
  hypertension_prevalence <$>
    returned (calculate_health_prevalence [visit_both; visit_systolic_only]
                (new_doc "Acme" None))
    = Some (Some (500 # 10)) /\
  stated_hypertension_prevalence [visit_both; visit_systolic_only]
    = Some (1000 # 10) /\
  hypertension_prevalence <$>
    returned (calculate_health_prevalence [visit_systolic_only] (new_doc "Acme" None))
    = Some (Some (0 # 10)) /\
  stated_hypertension_prevalence [visit_systolic_only] = None.
Proof. repeat split; vm_compute; reflexivity. Qed.

(** On an empty cohort [calculate_statistics] returns at once: it stores 0
    participants, touches no other field, and does not raise. *)
Lemma calculate_statistics_empty (self : CorporateScreening.t) :
  calculate_statistics [] self = Ok (set_total_participants (Some 0%Z) self).
Proof. reflexivity. Qed.

(** The document after the statistics of a one-participant screening were
    computed. *)
Lemma statistics_of_one_participant :
  exists d,
    calculate_statistics [visit_participant] (new_doc "Acme" None) = Ok d /\
    total_participants d = Some 1%Z /\
    male_participants d = Some 1%Z /\
    age_group_31_50 d = Some 1%Z /\
    obesity_prevalence d = Some (1000 # 10) /\
    smoking_prevalence d = Some (1000 # 10).
Proof. eexists. split; [vm_compute; reflexivity | repeat split]. Qed.

(** C3 (the code departs from the claim).  The empty cohort never raises and
    stores 0 participants, but it resets nothing else: on a document that
    holds the statistics of an earlier, non-empty cohort, the demographic
    counts and the prevalences of that cohort stay; on a new document the
    demographic counts hold no value rather than 0. *)
Theorem empty_cohort_keeps_stale_statistics :
  (forall self,
     exists d,
       calculate_statistics [] self = Ok d /\
       total_participants d = Some 0%Z /\
       male_participants d = male_participants self /\
       female_participants d = female_participants self /\
       age_group_18_30 d = age_group_18_30 self /\
       age_group_31_50 d = age_group_31_50 self /\
       age_group_51_plus d = age_group_51_plus self /\
       obesity_prevalence d = obesity_prevalence self /\
       hypertension_prevalence d = hypertension_prevalence self /\
       diabetes_prevalence d = diabetes_prevalence self /\
       smoking_prevalence d = smoking_prevalence self) /\
  (exists d1 d2,
     calculate_statistics [visit_participant] (new_doc "Acme" None) = Ok d1 /\
     calculate_statistics [] d1 = Ok d2 /\
     total_participants d2 = Some 0%Z /\
     male_participants d2 = Some 1%Z /\
     age_group_31_50 d2 = Some 1%Z /\
     obesity_prevalence d2 = Some (1000 # 10) /\
     smoking_prevalence d2 = Some (1000 # 10)) /\
  male_participants <$> returned (calculate_statistics [] (new_doc "Acme" None))
    = Some None.
Proof.
  split; [ | split].
  - intros self. eexists. split; [apply calculate_statistics_empty | ].
    repeat split.
  - destruct statistics_of_one_participant as (d1 & H1 & _ & Hm & Ha & Ho & Hs).
    exists d1. eexists. split; [exact H1 | ].
    split; [apply calculate_statistics_empty | ]. simpl. auto.
  - reflexivity.
Qed.

(** ** Executive summaries *)

(** A rate over a positive count is computed. *)
Lemma rate_ok (part total : Z) :
  (0 < total)%Z -> exists r, rate part total = Ok r.
Proof.
  intros Hpos. unfold rate, py_div.
  destruct (Qeq_bool_reflect (inject_Z total) 0) as [Hq|_].
  - unfold Qeq in Hq. simpl in Hq. lia.
  - eexists. reflexivity.
Qed.

(** C5 (the code departs from the claim).  The dashboard summary reads
    [obesity_rate] and [hypertension_rate] when it builds the
    recommendations; each is assigned only when its measured count is
    positive.  So a window without BMI records, or with BMI records and
    without blood-pressure records, ends in [UnboundLocalError]. *)
Theorem dashboard_summary_raises_without_measurements
    (dashboard : dashboard_data) (screenings : list (gmap string pyval))
    (wellness_data : wellness_summary) :
  get_corporate_wellness_summary screenings = Ok wellness_data ->
  ((sum_values (by_category (bmi_distribution dashboard)) <= 0)%Z ->
   DashboardApi.generate_executive_summary dashboard screenings
     = Raise UnboundLocalError) /\
  ((0 < sum_values (by_category (bmi_distribution dashboard)))%Z ->
   (sum_values (by_category (hypertension_data dashboard)) <= 0)%Z ->
   DashboardApi.generate_executive_summary dashboard screenings
     = Raise UnboundLocalError).
Proof.
  intros Hw. unfold DashboardApi.generate_executive_summary. rewrite Hw. simpl bind.
  split.
  - intros Hb.
    destruct (Z.ltb_spec 0 (sum_values (by_category (bmi_distribution dashboard))));
      [lia | ].
    simpl bind.
    destruct (Z.ltb_spec 0 (sum_values (by_category (hypertension_data dashboard))))
      as [Hpos|_]; [ | reflexivity].
    destruct (rate_ok (count_of (by_category (hypertension_data dashboard))
                         "Hypertensive") _ Hpos) as (r & Hr).
    rewrite Hr. reflexivity.
  - intros Hb Hp.
    destruct (Z.ltb_spec 0 (sum_values (by_category (bmi_distribution dashboard))));
      [ | lia].
    destruct (Z.ltb_spec 0 (sum_values (by_category (hypertension_data dashboard))));
      [lia | ].
    destruct (rate_ok (count_of (by_category (bmi_distribution dashboard)) "Obese")
                _ Hb) as (r1 & Hr1).
    destruct (rate_ok (count_of (by_category (bmi_distribution dashboard)) "Overweight")
                _ Hb) as (r2 & Hr2).
    rewrite Hr1. simpl bind. rewrite Hr2. reflexivity.
Qed.

Lemma dashboard_summary_raises_without_measurements_witness :
  DashboardApi.generate_executive_summary dashboard_without_bmi [cohort_a]
    = Raise UnboundLocalError /\
  DashboardApi.generate_executive_summary dashboard_without_bp [cohort_a]
    = Raise UnboundLocalError.
Proof.
  split.
  - eapply (proj1 (dashboard_summary_raises_without_measurements
                     dashboard_without_bmi [cohort_a] _ eq_refl)).
    vm_compute. discriminate.
  - eapply (proj2 (dashboard_summary_raises_without_measurements
                     dashboard_without_bp [cohort_a] _ eq_refl)).
    + vm_compute. reflexivity.
    + vm_compute. discriminate.
Defined.

(** The summary of the screening document, in contrast, is computed on every
    document whose statistics [calculate_statistics] has just stored: its
    divisions are by [total_participants], which is then the positive size
    of the cohort. *)
Lemma health_prevalence_keeps_total (visits : list (gmap string pyval))
    (self self' : CorporateScreening.t) :
  calculate_health_prevalence visits self = Ok self' ->
  total_participants self' = total_participants self.
Proof.
  unfold calculate_health_prevalence. intros H.
  apply bind_ok in H as (s1 & H1 & H).
  apply bind_ok in H as (s2 & H2 & H).
  apply bind_ok in H as (s3 & H3 & H).
  apply bind_ok in H as (s4 & H4 & H).
  apply bind_ok in H as (n & Hn & H). injection H as <-.
  assert (E1 : total_participants s1 = total_participants self).
  { destruct (0 <? _)%Z in H1; [ | by injection H1 as <-].
    bind_inv H1. by injection H1 as <-. }
  assert (E2 : total_participants s2 = total_participants s1).
  { destruct (0 <? _)%Z in H2; [ | by injection H2 as <-].
    bind_inv H2. by injection H2 as <-. }
  assert (E3 : total_participants s3 = total_participants s2).
  { destruct (0 <? _)%Z in H3; [ | by injection H3 as <-].
    bind_inv H3. by injection H3 as <-. }
  assert (E4 : total_participants s4 = total_participants s3).
  { destruct (0 <? _)%Z in H4; [ | by injection H4 as <-].
    bind_inv H4. by injection H4 as <-. }
  simpl. congruence.
Qed.

Lemma percentage_ok (count total : Z) :
  (0 < total)%Z -> exists p, percentage count total = Ok p.
Proof.
  intros Hpos. unfold percentage, py_div.
  destruct (Qeq_bool_reflect (inject_Z total) 0) as [Hq|_].
  - unfold Qeq in Hq. simpl in Hq. lia.
  - eexists. reflexivity.
Qed.

Lemma screening_summary_returns (visits : list (gmap string pyval))
    (self d : CorporateScreening.t) :
  calculate_statistics visits self = Ok d ->
  exists d', CorporateScreening.generate_executive_summary visits d = Ok d'.
Proof.
  destruct visits as [|v rest]; [intros _; eexists; reflexivity | ].
  intros H.
  assert (Htot : exists n, total_participants d = Some n /\ (0 < n)%Z).
  { unfold calculate_statistics in H.
    apply bind_ok in H as (g1 & _ & H). apply bind_ok in H as (g2 & _ & H).
    apply bind_ok in H as (g3 & _ & H). apply bind_ok in H as (s & Hs & H).
    apply health_prevalence_keeps_total in Hs. simpl in Hs.
    exists (Z.of_nat (length (v :: rest))). split; [ | simpl; lia].
    destruct (truthyQ _ && truthyZ _) in H.
    - destruct (cost_per_participant s), (total_participants s) eqn:E;
        injection H as <-; simpl; congruence.
    - injection H as <-. exact Hs. }
  destruct Htot as (n & Hn & Hpos).
  assert (Hshare : forall part, exists p, share_of_total part d = Ok p).
  { intros part. unfold share_of_total. rewrite Hn. by apply percentage_ok. }
  unfold CorporateScreening.generate_executive_summary.
  destruct (truthyZ (male_participants d) && truthyZ (female_participants d)).
  - destruct (Hshare (default 0%Z (male_participants d))) as (p1 & ->).
    destruct (Hshare (default 0%Z (female_participants d))) as (p2 & ->).
    rewrite !bind_Ok.
    destruct (truthyZ (high_risk_participants d)).
    + destruct (Hshare (default 0%Z (high_risk_participants d))) as (p3 & ->).
      rewrite !bind_Ok. eexists. reflexivity.
    + rewrite !bind_Ok. eexists. reflexivity.
  - rewrite !bind_Ok.
    destruct (truthyZ (high_risk_participants d)).
    + destruct (Hshare (default 0%Z (high_risk_participants d))) as (p3 & ->).
      rewrite !bind_Ok. eexists. reflexivity.
    + rewrite !bind_Ok. eexists. reflexivity.
Qed.

(** * Properties of the rest of the sources *)

(** ** Rounding, continued *)

Lemma round_half_even_mono (p q : Q) :
  p <= q -> (round_half_even p <= round_half_even q)%Z.
Proof.
  intros Hpq. unfold round_half_even.
  pose proof (Qfloor_resp_le _ _ Hpq) as Hf.
  destruct (Z.eq_dec (Qfloor p) (Qfloor q)) as [Heq|Hne].
  - rewrite Heq.
    destruct (Qcompare_spec (p - inject_Z (Qfloor q)) (1 # 2)) as [Hp|Hp|Hp];
      destruct (Qcompare_spec (q - inject_Z (Qfloor q)) (1 # 2)) as [Hq|Hq|Hq];
      destruct (Z.even (Qfloor q)); try lia;
      exfalso; set (x := inject_Z (Qfloor q)) in *; clearbody x; lra.
  - destruct (Qcompare (p - inject_Z (Qfloor p)) (1 # 2)),
      (Qcompare (q - inject_Z (Qfloor q)) (1 # 2));
      destruct (Z.even (Qfloor p)), (Z.even (Qfloor q)); lia.
Qed.

(** Rounding keeps a value between two integers between them. *)
Lemma round_half_even_between (a b : Z) (q : Q) :
  inject_Z a <= q <= inject_Z b ->
  (a <= round_half_even q <= b)%Z.
Proof.
  intros [Ha Hb]. split.
  - rewrite <- (round_half_even_Z a). by apply round_half_even_mono.
  - rewrite <- (round_half_even_Z b). by apply round_half_even_mono.
Qed.

Lemma round1_mono (p q : Q) : p <= q -> round1 p <= round1 q.
Proof.
  intros H. unfold round1, Qle. simpl.
  assert (Hm : (round_half_even (p * 10) <= round_half_even (q * 10))%Z)
    by (apply round_half_even_mono; lra).
  lia.
Qed.


(** A percentage stays a percentage when rounded to one decimal. *)
Lemma round1_percent (q : Q) : 0 <= q <= 100 -> 0 <= round1 q <= 100.
Proof.
  intros H.
  assert (Hb : (0 <= round_half_even (q * 10) <= 1000)%Z).
  { apply round_half_even_between.
    change (inject_Z 0) with 0. change (inject_Z 1000) with 1000. lra. }
  unfold round1, Qle. simpl. lia.
Qed.


(** ** calculate_bmi *)











(** X4.  The BMI and blood-pressure classifiers of the Visit document
    return, on every document, what the utilities return on its values. *)
Theorem visit_classifiers_agree_with_utilities (self : Visit.t) :
  VisitDoc.get_bmi_category self = get_bmi_category (Visit.bmi self) /\
  VisitDoc.get_blood_pressure_category self =
    get_blood_pressure_category (Visit.blood_pressure_systolic self)
                                (Visit.blood_pressure_diastolic self).
Proof.
  split; [reflexivity | ].
  unfold VisitDoc.get_blood_pressure_category, get_blood_pressure_category.
  destruct (truthy (Visit.blood_pressure_systolic self)),
    (truthy (Visit.blood_pressure_diastolic self)); reflexivity.
Qed.

(** ** BMI categories *)

Lemma bmi_category_cases (q : Q) :
  ~ q == 0 ->
  exists c i,
    get_bmi_category (PNum q) = Ok (Some c) /\
    bmi_severity c = Some i /\
    ((i = 0%nat /\ q < 18.5) \/
     (i = 1%nat /\ 18.5 <= q < 25) \/
     (i = 2%nat /\ 25 <= q < 30) \/
     (i = 3%nat /\ 30 <= q < 35) \/
     (i = 4%nat /\ 35 <= q < 40) \/
     (i = 5%nat /\ 40 <= q)).
Proof.
  intros Hq. unfold get_bmi_category. rewrite (truthy_num q Hq). simpl.
  destruct (Qle_bool_reflect 18.5 q), (Qle_bool_reflect 25 q),
    (Qle_bool_reflect 30 q), (Qle_bool_reflect 35 q), (Qle_bool_reflect 40 q);
    simpl; try (exfalso; lra);
    eexists; eexists; (split; [reflexivity | split; [reflexivity | ]]);
    first [ left; split; [reflexivity | lra]
          | right; left; split; [reflexivity | lra]
          | right; right; left; split; [reflexivity | lra]
          | right; right; right; left; split; [reflexivity | lra]
          | right; right; right; right; left; split; [reflexivity | lra]
          | right; right; right; right; right; split; [reflexivity | lra] ].
Qed.

(** X3.  On every non-zero BMI (a negative one included) [get_bmi_category]
    returns one of the six categories, and a larger BMI never gets a
    category of lower rank; a BMI of zero gets no category. *)
Theorem bmi_category_monotone (p q : Q) :
  ~ p == 0 -> ~ q == 0 -> p <= q ->
  exists c c' i j,
    get_bmi_category (PNum p) = Ok (Some c) /\
    get_bmi_category (PNum q) = Ok (Some c') /\
    bmi_severity c = Some i /\ bmi_severity c' = Some j /\ (i <= j)%nat /\
    (forall z, z == 0 -> get_bmi_category (PNum z) = Ok None).
Proof.
  intros Hp Hq Hle.
  destruct (bmi_category_cases p Hp) as (c & i & Hc & Hi & Hcase).
  destruct (bmi_category_cases q Hq) as (c' & j & Hc' & Hj & Hcase').
  exists c, c', i, j. repeat (split; [assumption | ]). split.
  - destruct Hcase as [H|[H|[H|[H|[H|H]]]]], Hcase' as [H'|[H'|[H'|[H'|[H'|H']]]]];
      destruct H as [-> H], H' as [-> H']; try lia; exfalso; lra.
  - intros z Hz. unfold get_bmi_category. simpl.
    destruct (Qeq_bool_reflect z 0) as [_|Hn]; [reflexivity | contradiction].
Qed.

Lemma bmi_category_monotone_witness :
  exists c c' i j,
    get_bmi_category (PNum 22) = Ok (Some c) /\
    get_bmi_category (PNum 31) = Ok (Some c') /\
    bmi_severity c = Some i /\ bmi_severity c' = Some j /\ (i <= j)%nat /\
    (forall z, z == 0 -> get_bmi_category (PNum z) = Ok None).
Proof.
  apply (bmi_category_monotone 22 31); intros H; discriminate H.
Defined.

(** X5.  The BMI category shown on the patient dashboard is the category of
    the utility with the three obesity classes merged into "Obese", on every
    value of the latest visit's BMI (numbers, [None], strings); without a
    visit there is no category. *)
Theorem dashboard_bmi_category_coarsens (row : gmap string pyval)
    (rest : list (gmap string pyval)) :
  Patient.dashboard_bmi_category (row :: rest) =
    result_map (fmap coarsen_bmi_category) (get_bmi_category (dict_get row "bmi")) /\
  Patient.dashboard_bmi_category [] = Ok None.
Proof.
  split; [ | reflexivity].
  unfold Patient.dashboard_bmi_category, get_bmi_category, dict_item, dict_get.
  destruct (row !! "bmi"%string) as [[|q|s]|]; simpl; try reflexivity.
  - destruct (Qeq_bool q 0); simpl; [reflexivity | ].
    destruct (Qle_bool 18.5 q); simpl; [ | reflexivity].
    destruct (Qle_bool 25 q); simpl; [ | reflexivity].
    destruct (Qle_bool 30 q); simpl; [ | reflexivity].
    destruct (Qle_bool 35 q); simpl; [ | reflexivity].
    destruct (Qle_bool 40 q); reflexivity.
  - destruct (String.eqb s ""); reflexivity.
Qed.

(** ** Recommendations *)

(** What the BMI blocks of the risk score and of the recommendations do
    together, on a BMI that is a number or missing. *)
Lemma bmi_blocks (visit_data : gmap string pyval) (st : risk_state)
    (recs : list recommendation) :
  measurement (dict_get visit_data "bmi") = true ->
  (bmi_risk visit_data st = Ok st /\
   bmi_recommendations visit_data recs = Ok recs) \/
  (bmi_risk visit_data st = Ok st /\
   bmi_recommendations visit_data recs = Ok (recs ++ [weight_gain])) \/
  (bmi_risk visit_data st = Ok (add_risk st 1 "Overweight") /\
   bmi_recommendations visit_data recs = Ok (recs ++ [weight_maintenance])) \/
  (bmi_risk visit_data st = Ok (add_risk st 2 "Obesity") /\
   bmi_recommendations visit_data recs = Ok (recs ++ [weight_loss_program])).
Proof.
  unfold bmi_risk, bmi_recommendations, guard.
  destruct (dict_get _ _) as [|b|]; try discriminate; intros _; simpl.
  - auto.
  - destruct (Qeq_bool b 0); simpl; [auto | ].
    destruct (Qle_bool_reflect 30 b); simpl; [auto 6 | ].
    destruct (Qle_bool_reflect 25 b); simpl; [auto 6 | ].
    destruct (Qle_bool_reflect 18.5 b); simpl; auto.
Qed.

Lemma blood_pressure_blocks (visit_data : gmap string pyval) (st : risk_state)
    (recs : list recommendation) :
  measurement (dict_get visit_data "blood_pressure_systolic") = true ->
  measurement (dict_get visit_data "blood_pressure_diastolic") = true ->
  (blood_pressure_risk visit_data st = Ok st /\
   blood_pressure_recommendations visit_data recs = Ok recs) \/
  (blood_pressure_risk visit_data st = Ok (add_risk st 1 "Elevated BP") /\
   blood_pressure_recommendations visit_data recs = Ok (recs ++ [pressure_monitoring])) \/
  (blood_pressure_risk visit_data st = Ok (add_risk st 2 "Hypertension") /\
   blood_pressure_recommendations visit_data recs = Ok (recs ++ [pressure_management])).
Proof.
  unfold blood_pressure_risk, blood_pressure_recommendations.
  destruct (dict_get _ "blood_pressure_systolic") as [|s|]; try discriminate;
    destruct (dict_get _ "blood_pressure_diastolic") as [|d|]; try discriminate;
    intros _ _; simpl; auto.
  - destruct (Qeq_bool s 0); auto.
  - destruct (Qeq_bool s 0), (Qeq_bool d 0); simpl; auto.
    destruct (Qle_bool 140 s); simpl; [auto | ].
    destruct (Qle_bool 90 d); simpl; [auto | ].
    destruct (Qle_bool 130 s); simpl; [auto | ].
    destruct (Qle_bool 80 d); auto.
Qed.

Lemma glucose_blocks (visit_data : gmap string pyval) (st : risk_state)
    (recs : list recommendation) :
  measurement (dict_get visit_data "blood_glucose") = true ->
  (glucose_risk visit_data st = Ok st /\
   glucose_recommendations visit_data recs = Ok recs) \/
  (glucose_risk visit_data st = Ok (add_risk st 1 "Prediabetes") /\
   glucose_recommendations visit_data recs = Ok (recs ++ [diabetes_prevention])) \/
  (glucose_risk visit_data st = Ok (add_risk st 2 "Diabetes") /\
   glucose_recommendations visit_data recs = Ok (recs ++ [diabetes_management])).
Proof.
  unfold glucose_risk, glucose_recommendations.
  destruct (dict_get _ _) as [|g|]; try discriminate; intros _; simpl.
  - auto.
  - destruct (Qeq_bool g 0); simpl; [auto | ].
    destruct (Qle_bool 126 g); simpl; [auto | ].
    destruct (Qle_bool 100 g); auto.
Qed.

(** The lifestyle block appends, in this order, what smoking, exercise,
    stress and sleep call for; the first two tests are those of the risk
    score. *)
Lemma lifestyle_blocks (visit_data : gmap string pyval)
    (recs : list recommendation) :
  measurement (dict_get visit_data "sleep_hours") = true ->
  exists stress sleep : bool,
    lifestyle_recommendations visit_data recs =
      Ok (recs ++
          (if py_in (dict_get visit_data "smoking_habits") ["Daily"; "Occasionally"]%string
           then [smoking_cessation] else []) ++
          (if py_in (dict_get visit_data "exercise_frequency") ["None"; "Rarely"]%string
           then [physical_activity] else []) ++
          (if stress then [stress_management] else []) ++
          (if sleep then [sleep_health] else [])).
Proof.
  intros Hs. unfold lifestyle_recommendations, guard.
  exists (py_eq_str (dict_get visit_data "stress_level") "High (7-10)").
  set (smoke := py_in (dict_get visit_data "smoking_habits") _).
  set (idle := py_in (dict_get visit_data "exercise_frequency") _).
  set (stress := py_eq_str (dict_get visit_data "stress_level") _).
  destruct (dict_get visit_data "sleep_hours") as [|h|]; try discriminate Hs;
    simpl truthy.
  - exists false. cbn [bind].
    destruct smoke, idle, stress;
      rewrite <- ?app_assoc; simpl; by rewrite ?app_nil_r.
  - exists (negb (Qeq_bool h 0) && negb (Qle_bool 7 h)).
    destruct (Qeq_bool h 0); simpl;
      destruct smoke, idle, stress, (Qle_bool 7 h);
      rewrite <- ?app_assoc; simpl; by rewrite ?app_nil_r.
Qed.

(** Each block appends a piece of at most one recommendation (four for the
    lifestyle block) of its own categories. *)
Lemma bmi_piece (visit_data : gmap string pyval) (recs : list recommendation) :
  measurement (dict_get visit_data "bmi") = true ->
  exists piece,
    bmi_recommendations visit_data recs = Ok (recs ++ piece) /\
    (length piece <= 1)%nat /\
    sublist (map category piece) ["Weight Management"%string].
Proof.
  intros Hb.
  destruct (bmi_blocks visit_data (0%Z, []) recs Hb)
    as [[_ E]|[[_ E]|[[_ E]|[_ E]]]]; rewrite E;
    [exists []; rewrite app_nil_r | eexists | eexists | eexists];
    (split; [reflexivity | split; [simpl; lia | simpl; sublist_solve]]).
Qed.

Lemma blood_pressure_piece (visit_data : gmap string pyval)
    (recs : list recommendation) :
  measurement (dict_get visit_data "blood_pressure_systolic") = true ->
  measurement (dict_get visit_data "blood_pressure_diastolic") = true ->
  exists piece,
    blood_pressure_recommendations visit_data recs = Ok (recs ++ piece) /\
    (length piece <= 1)%nat /\
    sublist (map category piece) ["Cardiovascular Health"%string].
Proof.
  intros Hs Hd.
  destruct (blood_pressure_blocks visit_data (0%Z, []) recs Hs Hd)
    as [[_ E]|[[_ E]|[_ E]]]; rewrite E;
    [exists []; rewrite app_nil_r | eexists | eexists];
    (split; [reflexivity | split; [simpl; lia | simpl; sublist_solve]]).
Qed.

Lemma glucose_piece (visit_data : gmap string pyval) (recs : list recommendation) :
  measurement (dict_get visit_data "blood_glucose") = true ->
  exists piece,
    glucose_recommendations visit_data recs = Ok (recs ++ piece) /\
    (length piece <= 1)%nat /\
    sublist (map category piece) ["Diabetes Management"; "Diabetes Prevention"]%string.
Proof.
  intros Hg.
  destruct (glucose_blocks visit_data (0%Z, []) recs Hg)
    as [[_ E]|[[_ E]|[_ E]]]; rewrite E;
    [exists []; rewrite app_nil_r | eexists | eexists];
    (split; [reflexivity | split; [simpl; lia | simpl; sublist_solve]]).
Qed.

Lemma lifestyle_piece (visit_data : gmap string pyval) (recs : list recommendation) :
  measurement (dict_get visit_data "sleep_hours") = true ->
  exists piece,
    lifestyle_recommendations visit_data recs = Ok (recs ++ piece) /\
    (length piece <= 4)%nat /\
    sublist (map category piece)
      ["Smoking Cessation"; "Physical Activity"; "Stress Management";
       "Sleep Health"]%string.
Proof.
  intros Hsl.
  destruct (lifestyle_blocks visit_data recs Hsl) as (stress & sleep & E).
  rewrite E. eexists. split; [reflexivity | ].
  destruct (py_in (dict_get visit_data "smoking_habits") _),
    (py_in (dict_get visit_data "exercise_frequency") _), stress, sleep;
    (split; [simpl; lia | simpl; sublist_solve]).
Qed.

Lemma recommendation_categories_NoDup : NoDup recommendation_categories.
Proof. apply (bool_decide_unpack _). vm_compute. reflexivity. Qed.

(** X6.  On a record whose measurements are numbers or missing,
    [generate_health_recommendations] returns at most seven
    recommendations, at most one per category, in the order weight,
    blood pressure, diabetes, smoking, activity, stress, sleep (not by
    priority); the empty record gets none. *)
Theorem recommendations_in_fixed_order (visit_data : gmap string pyval) :
  measurement (dict_get visit_data "bmi") = true ->
  measurement (dict_get visit_data "blood_pressure_systolic") = true ->
  measurement (dict_get visit_data "blood_pressure_diastolic") = true ->
  measurement (dict_get visit_data "blood_glucose") = true ->
  measurement (dict_get visit_data "sleep_hours") = true ->
  (exists recs,
     generate_health_recommendations visit_data = Ok recs /\
     (length recs <= 7)%nat /\
     sublist (map category recs) recommendation_categories /\
     NoDup (map category recs)) /\
  generate_health_recommendations ∅ = Ok [].
Proof.
  intros Hb Hs Hd Hg Hsl. split; [ | reflexivity].
  unfold generate_health_recommendations.
  destruct (bmi_piece visit_data [] Hb) as (p1 & E1 & L1 & S1).
  rewrite E1, bind_Ok.
  match goal with |- context [blood_pressure_recommendations visit_data ?r] =>
    destruct (blood_pressure_piece visit_data r Hs Hd) as (p2 & E2 & L2 & S2) end.
  rewrite E2, bind_Ok.
  match goal with |- context [glucose_recommendations visit_data ?r] =>
    destruct (glucose_piece visit_data r Hg) as (p3 & E3 & L3 & S3) end.
  rewrite E3, bind_Ok.
  match goal with |- context [lifestyle_recommendations visit_data ?r] =>
    destruct (lifestyle_piece visit_data r Hsl) as (p4 & E4 & L4 & S4) end.
  rewrite E4. eexists. split; [reflexivity | ].
  assert (Hsub : sublist (map category (((([] ++ p1) ++ p2) ++ p3) ++ p4))
                   recommendation_categories).
  { rewrite !map_app.
    change recommendation_categories with
      (((([] ++ ["Weight Management"%string]) ++ ["Cardiovascular Health"%string]) ++
        ["Diabetes Management"%string; "Diabetes Prevention"%string]) ++
       ["Smoking Cessation"%string; "Physical Activity"%string;
        "Stress Management"%string; "Sleep Health"%string]).
    repeat apply sublist_app; try assumption. constructor. }
  split; [rewrite !length_app; simpl; lia | ].
  split; [exact Hsub | exact (sublist_NoDup _ _ recommendation_categories_NoDup Hsub)].
Qed.

Lemma recommendations_in_fixed_order_witness :
  exists recs,
    generate_health_recommendations risk_example = Ok recs /\
    (length recs <= 7)%nat /\
    sublist (map category recs) recommendation_categories /\
    NoDup (map category recs).
Proof.
  exact (proj1 (recommendations_in_fixed_order risk_example
                  eq_refl eq_refl eq_refl eq_refl eq_refl)).
Defined.

Lemma points_of_app (l k : list string) :
  points_of (l ++ k) = (points_of l + points_of k)%Z.
Proof. induction l as [|a l IH]; simpl; [reflexivity | rewrite IH; lia]. Qed.

Lemma factor_recommendation_bijective (n n' : string) (x x' : recommendation) :
  In (n, x) factor_recommendation -> In (n', x') factor_recommendation ->
  (n' = n <-> x' = x).
Proof.
  unfold factor_recommendation. simpl. intros H H'.
  repeat destruct H as [H|H]; try contradiction;
    repeat destruct H' as [H'|H']; try contradiction;
    injection H as <- <-; injection H' as <- <-;
    split; intros E; first [reflexivity | discriminate E].
Qed.

Lemma linked_pair (st : risk_state) (recs : list recommendation)
    (p : Z) (n : string) (x : recommendation) :
  In (n, x) factor_recommendation -> factor_points n = p ->
  linked st recs -> linked (add_risk st p n) (recs ++ [x]).
Proof.
  intros Hin Hp [Hsum Hl]. split.
  - simpl. rewrite points_of_app, Hsum. simpl. lia.
  - intros n' x' Hin'. simpl. rewrite !in_app_iff. simpl.
    rewrite (Hl n' x' Hin').
    pose proof (factor_recommendation_bijective n n' x x' Hin Hin') as Hb.
    split; (intros [H|[H|[]]]; [left; exact H | right; left]);
      symmetry; apply Hb; symmetry; exact H.
Qed.

Lemma linked_factor (st : risk_state) (recs : list recommendation)
    (p : Z) (n : string) :
  (forall x, ~ In (n, x) factor_recommendation) -> factor_points n = p ->
  linked st recs -> linked (add_risk st p n) recs.
Proof.
  intros Hout Hp [Hsum Hl]. split.
  - simpl. rewrite points_of_app, Hsum. simpl. lia.
  - intros n' x' Hin'. simpl. rewrite in_app_iff. simpl.
    rewrite <- (Hl n' x' Hin'). split; [ | tauto].
    intros [H|[H|[]]]; [exact H | ]. subst n'. exfalso. exact (Hout x' Hin').
Qed.

Lemma linked_recommendation (st : risk_state) (recs : list recommendation)
    (x : recommendation) :
  (forall n, ~ In (n, x) factor_recommendation) ->
  linked st recs -> linked st (recs ++ [x]).
Proof.
  intros Hout [Hsum Hl]. split; [exact Hsum | ].
  intros n' x' Hin'. rewrite in_app_iff. simpl. rewrite (Hl n' x' Hin').
  split; [tauto | ].
  intros [H|[H|[]]]; [exact H | ]. subst x'. exfalso. exact (Hout n' Hin').
Qed.

Ltac not_listed :=
  unfold factor_recommendation; simpl; intros ? H;
  repeat destruct H as [H|H]; try contradiction; discriminate H.
Ltac listed := unfold factor_recommendation; simpl; tauto.

Lemma age_step (visit_data : gmap string pyval) (st : risk_state)
    (recs : list recommendation) :
  is_number (dict_get_or visit_data "age" (PNum 0)) = true ->
  linked st recs ->
  exists st', age_risk visit_data st = Ok st' /\ linked st' recs.
Proof.
  intros Ha Hl. destruct (age_risk_cases visit_data st Ha) as [E|E]; rewrite E;
    eexists; (split; [reflexivity | ]); [exact Hl | ].
  apply linked_factor; [not_listed | reflexivity | exact Hl].
Qed.

Lemma bmi_step (visit_data : gmap string pyval) (st : risk_state)
    (recs : list recommendation) :
  measurement (dict_get visit_data "bmi") = true ->
  linked st recs ->
  exists st' recs',
    bmi_risk visit_data st = Ok st' /\
    bmi_recommendations visit_data recs = Ok recs' /\ linked st' recs'.
Proof.
  intros Hb Hl.
  destruct (bmi_blocks visit_data st recs Hb)
    as [[E1 E2]|[[E1 E2]|[[E1 E2]|[E1 E2]]]]; rewrite E1, E2;
    eexists; eexists; (split; [reflexivity | split; [reflexivity | ]]).
  - exact Hl.
  - apply linked_recommendation; [not_listed | exact Hl].
  - apply linked_pair; [listed | reflexivity | exact Hl].
  - apply linked_pair; [listed | reflexivity | exact Hl].
Qed.

Lemma blood_pressure_step (visit_data : gmap string pyval) (st : risk_state)
    (recs : list recommendation) :
  measurement (dict_get visit_data "blood_pressure_systolic") = true ->
  measurement (dict_get visit_data "blood_pressure_diastolic") = true ->
  linked st recs ->
  exists st' recs',
    blood_pressure_risk visit_data st = Ok st' /\
    blood_pressure_recommendations visit_data recs = Ok recs' /\ linked st' recs'.
Proof.
  intros Hs Hd Hl.
  destruct (blood_pressure_blocks visit_data st recs Hs Hd)
    as [[E1 E2]|[[E1 E2]|[E1 E2]]]; rewrite E1, E2;
    eexists; eexists; (split; [reflexivity | split; [reflexivity | ]]).
  - exact Hl.
  - apply linked_pair; [listed | reflexivity | exact Hl].
  - apply linked_pair; [listed | reflexivity | exact Hl].
Qed.

Lemma glucose_step (visit_data : gmap string pyval) (st : risk_state)
    (recs : list recommendation) :
  measurement (dict_get visit_data "blood_glucose") = true ->
  linked st recs ->
  exists st' recs',
    glucose_risk visit_data st = Ok st' /\
    glucose_recommendations visit_data recs = Ok recs' /\ linked st' recs'.
Proof.
  intros Hg Hl.
  destruct (glucose_blocks visit_data st recs Hg)
    as [[E1 E2]|[[E1 E2]|[E1 E2]]]; rewrite E1, E2;
    eexists; eexists; (split; [reflexivity | split; [reflexivity | ]]).
  - exact Hl.
  - apply linked_pair; [listed | reflexivity | exact Hl].
  - apply linked_pair; [listed | reflexivity | exact Hl].
Qed.

Lemma lifestyle_step (visit_data : gmap string pyval) (st : risk_state)
    (recs : list recommendation) :
  measurement (dict_get visit_data "sleep_hours") = true ->
  linked st recs ->
  exists st1 st2 recs',
    smoking_risk visit_data st = Ok st1 /\
    exercise_risk visit_data st1 = Ok st2 /\
    lifestyle_recommendations visit_data recs = Ok recs' /\ linked st2 recs'.
Proof.
  intros Hsl Hl.
  destruct (lifestyle_blocks visit_data recs Hsl) as (stress & sleep & E).
  rewrite E. unfold smoking_risk, exercise_risk.
  do 3 eexists. split; [reflexivity | split; [reflexivity | split; [reflexivity | ]]].
  assert (H1 : linked
                 (if py_in (dict_get visit_data "smoking_habits")
                       ["Daily"; "Occasionally"]%string
                  then add_risk st 2 "Smoking" else st)
                 (recs ++ (if py_in (dict_get visit_data "smoking_habits")
                                ["Daily"; "Occasionally"]%string
                           then [smoking_cessation] else []))).
  { destruct (py_in _ _); [ | by rewrite app_nil_r].
    apply linked_pair; [listed | reflexivity | exact Hl]. }
  revert H1.
  generalize (if py_in (dict_get visit_data "smoking_habits")
                   ["Daily"; "Occasionally"]%string
              then add_risk st 2 "Smoking" else st).
  generalize (if py_in (dict_get visit_data "smoking_habits")
                   ["Daily"; "Occasionally"]%string
              then [smoking_cessation] else []).
  intros smoke st1 H1. rewrite !app_assoc.
  assert (H2 : linked
                 (if py_in (dict_get visit_data "exercise_frequency")
                       ["None"; "Rarely"]%string
                  then add_risk st1 1 "Physical Inactivity" else st1)
                 ((recs ++ smoke) ++
                  (if py_in (dict_get visit_data "exercise_frequency")
                        ["None"; "Rarely"]%string
                   then [physical_activity] else []))).
  { destruct (py_in (dict_get visit_data "exercise_frequency") _);
      [ | by rewrite app_nil_r].
    apply linked_pair; [listed | reflexivity | exact H1]. }
  revert H2.
  generalize (if py_in (dict_get visit_data "exercise_frequency")
                   ["None"; "Rarely"]%string
              then add_risk st1 1 "Physical Inactivity" else st1).
  generalize (if py_in (dict_get visit_data "exercise_frequency")
                   ["None"; "Rarely"]%string
              then [physical_activity] else []).
  intros idle st2 H2.
  assert (H3 : linked st2 (((recs ++ smoke) ++ idle) ++
                           (if stress then [stress_management] else []))).
  { destruct stress; [ | by rewrite app_nil_r].
    apply linked_recommendation; [not_listed | exact H2]. }
  destruct sleep; [ | by rewrite app_nil_r].
  apply linked_recommendation; [not_listed | exact H3].
Qed.

Lemma sublist_disjoint_nil (l k : list string) :
  sublist l k -> (forall x, In x k -> ~ In x l) -> l = [].
Proof.
  intros Hsub Hdis. destruct l as [|a l]; [reflexivity | exfalso].
  apply (Hdis a); [ | by left].
  apply list_elem_of_In. apply (sublist_subseteq _ _ Hsub). by left.
Qed.

(** X7.  On a record whose measurements are numbers or missing, the risk
    score and the recommendations go together: the score is the sum of the
    points of the recorded factors; each factor other than age is recorded
    exactly when its recommendation is made (obesity with the weight-loss
    programme, hypertension with blood-pressure management, and so on); and
    a record that gets no recommendation has a score of at most 1 and is
    "Low Risk". *)
Theorem risk_factors_match_recommendations (visit_data : gmap string pyval) :
  is_number (dict_get_or visit_data "age" (PNum 0)) = true ->
  measurement (dict_get visit_data "bmi") = true ->
  measurement (dict_get visit_data "blood_pressure_systolic") = true ->
  measurement (dict_get visit_data "blood_pressure_diastolic") = true ->
  measurement (dict_get visit_data "blood_glucose") = true ->
  measurement (dict_get visit_data "sleep_hours") = true ->
  exists r recs,
    calculate_cardiovascular_risk_score visit_data = Ok r /\
    generate_health_recommendations visit_data = Ok recs /\
    risk_score r = points_of (risk_factors r) /\
    (forall n x, In (n, x) factor_recommendation ->
                 (In n (risk_factors r) <-> In x recs)) /\
    (recs = [] -> (risk_score r <= 1)%Z /\ risk_level r = "Low Risk"%string).
Proof.
  intros Ha Hb Hs Hd Hg Hsl.
  assert (H0 : linked (0%Z, []) []) by (split; [reflexivity | simpl; tauto]).
  destruct (age_step visit_data _ _ Ha H0) as (st1 & E1 & H1).
  destruct (bmi_step visit_data _ _ Hb H1) as (st2 & r2 & E2 & F2 & H2).
  destruct (blood_pressure_step visit_data _ _ Hs Hd H2) as (st3 & r3 & E3 & F3 & H3).
  destruct (glucose_step visit_data _ _ Hg H3) as (st4 & r4 & E4 & F4 & H4).
  destruct (lifestyle_step visit_data _ _ Hsl H4) as (st5 & st6 & r5 & E5 & E6 & F5 & H5).
  assert (Hr : calculate_cardiovascular_risk_score visit_data =
               Ok {| risk_score := st6.1; risk_level := determine_risk_level st6.1;
                     risk_factors := st6.2 |}).
  { unfold calculate_cardiovascular_risk_score.
    rewrite E1, bind_Ok, E2, bind_Ok, E3, bind_Ok, E4, bind_Ok, E5, bind_Ok, E6.
    reflexivity. }
  assert (Hrec : generate_health_recommendations visit_data = Ok r5).
  { unfold generate_health_recommendations.
    rewrite F2, bind_Ok, F3, bind_Ok, F4, bind_Ok. exact F5. }
  eexists. exists r5. split; [exact Hr | ]. split; [exact Hrec | ].
  destruct H5 as [Hsum Hlink]. simpl.
  split; [exact Hsum | ]. split; [exact Hlink | ].
  intros ->.
  destruct (risk_score_returns visit_data Ha Hb Hs Hd Hg) as (r & Hr' & _ & Hsub).
  rewrite Hr in Hr'. injection Hr' as <-. simpl in Hsub.
  assert (Hage : sublist st6.2 ["Age ≥45"%string]).
  { unfold risk_factor_names in Hsub. apply sublist_cons_r in Hsub.
    assert (Hrest : forall l,
               sublist l ["Obesity"; "Overweight"; "Hypertension"; "Elevated BP";
                          "Diabetes"; "Prediabetes"; "Smoking";
                          "Physical Inactivity"]%string ->
               (forall n, In n l -> In n st6.2) -> l = []).
    { intros l Hl Hin. apply (sublist_disjoint_nil _ _ Hl).
      intros n Hn Hnl. apply Hin in Hnl.
      simpl in Hn.
      repeat destruct Hn as [Hn|Hn]; try contradiction; subst n;
        (eapply Hlink in Hnl; [exact Hnl | listed]). }
    destruct Hsub as [Hsub|(l' & El & Hsub)].
    - rewrite (Hrest _ Hsub (fun _ H => H)). apply sublist_nil_l.
    - rewrite El. rewrite (Hrest l' Hsub); [reflexivity | ].
      intros n Hn. rewrite El. by right. }
  assert (Hle : (st6.1 <= 1)%Z).
  { rewrite Hsum. apply sublist_cons_r in Hage.
    destruct Hage as [Hn|(l' & El & Hn)]; apply sublist_nil_r in Hn.
    - rewrite Hn. simpl. lia.
    - rewrite El, Hn. vm_compute. discriminate. }
  split; [exact Hle | ].
  unfold determine_risk_level. destruct (Z.leb_spec st6.1 2); [reflexivity | lia].
Qed.

Lemma risk_factors_match_recommendations_witness :
  exists r recs,
    calculate_cardiovascular_risk_score risk_example = Ok r /\
    generate_health_recommendations risk_example = Ok recs /\
    risk_score r = points_of (risk_factors r) /\
    (forall n x, In (n, x) factor_recommendation ->
                 (In n (risk_factors r) <-> In x recs)) /\
    (recs = [] -> (risk_score r <= 1)%Z /\ risk_level r = "Low Risk"%string).
Proof.
  exact (risk_factors_match_recommendations risk_example
           eq_refl eq_refl eq_refl eq_refl eq_refl eq_refl).
Defined.

(** ** Counting *)

Lemma count_if_bounds {A : Type} (c : A -> bool) (l : list A) :
  (0 <= count_if c l <= Z.of_nat (length l))%Z.
Proof.
  unfold count_if. pose proof (List.filter_length_le c l). lia.
Qed.

(** A comprehension whose condition implies the condition of another counts
    no more rows. *)
Lemma count_where_le {A : Type} (p : A -> result bool) (c : A -> bool)
    (l : list A) (n : Z) :
  (forall v, p v = Ok true -> c v = true) ->
  count_where p l = Ok n ->
  (0 <= n <= count_if c l)%Z.
Proof.
  intros Himp. revert n. induction l as [|v l IH]; intros n H.
  - injection H as <-. unfold count_if. simpl. lia.
  - simpl in H. apply bind_ok in H as (b & Hb & H).
    apply bind_ok in H as (m & Hm & H). injection H as <-.
    specialize (IH m Hm). unfold count_if in *. simpl.
    destruct b.
    + rewrite (Himp v Hb). simpl length. lia.
    + destruct (c v); simpl length; lia.
Qed.

Lemma percentage_bounds (count total : Z) :
  (0 <= count <= total)%Z -> (0 < total)%Z ->
  exists p, percentage count total = Ok p /\ 0 <= p <= 100.
Proof.
  intros Hc Ht. unfold percentage, py_div.
  destruct (Qeq_bool_reflect (inject_Z total) 0) as [Hq|_].
  { unfold Qeq in Hq. simpl in Hq. lia. }
  eexists. split; [reflexivity | ].
  apply round1_percent.
  assert (Hpos : 0 < inject_Z total) by (unfold Qlt; simpl; lia).
  assert (H0 : 0 <= inject_Z count / inject_Z total).
  { apply Qle_shift_div_l; [exact Hpos | ]. unfold Qle. simpl. lia. }
  assert (H1 : inject_Z count / inject_Z total <= 1).
  { apply Qle_shift_div_r; [exact Hpos | ]. unfold Qle. simpl. lia. }
  split; nra.
Qed.

(** ** Cohort statistics, continued *)

(** One prevalence block: it either raises, whatever the document, or
    stores a percentage between 0 and 100, or (no measured record) stores
    nothing. *)
Lemma prevalence_block (p : gmap string pyval -> result bool)
    (c : gmap string pyval -> bool)
    (set : option Q -> CorporateScreening.t -> CorporateScreening.t)
    (visits : list (gmap string pyval)) :
  (forall v, p v = Ok true -> c v = true) ->
  (exists e, forall self,
      (if (0 <? count_if c visits)%Z then
         let* n := count_where p visits in
         let* q := percentage n (count_if c visits) in
         Ok (set (Some q) self)
       else Ok self) = Raise e) \/
  (exists v, (forall q, v = Some q -> 0 <= q <= 100) /\
     forall self,
      (if (0 <? count_if c visits)%Z then
         let* n := count_where p visits in
         let* q := percentage n (count_if c visits) in
         Ok (set (Some q) self)
       else Ok self) = Ok (store set v self)).
Proof.
  intros Himp. destruct (Z.ltb_spec 0 (count_if c visits)) as [Hpos|Hz].
  - destruct (count_where p visits) as [n|e] eqn:En.
    + destruct (percentage_bounds n (count_if c visits)) as (q & Eq & Hq);
        [exact (count_where_le p c visits n Himp En) | exact Hpos | ].
      right. exists (Some q). split; [by intros ? [= <-] | ].
      intros self. simpl. rewrite Eq. reflexivity.
    + left. exists e. reflexivity.
  - right. exists None. split; [discriminate | reflexivity].
Qed.

Lemma is_obese_measured (v : gmap string pyval) :
  is_obese v = Ok true -> truthy (dict_get v "bmi") = true.
Proof. unfold is_obese, guard. destruct (truthy _); [reflexivity | discriminate]. Qed.
Lemma is_hypertensive_measured (v : gmap string pyval) :
  is_hypertensive v = Ok true -> truthy (dict_get v "blood_pressure_systolic") = true.
Proof. unfold is_hypertensive, guard. destruct (truthy _); [reflexivity | discriminate]. Qed.
Lemma is_diabetic_measured (v : gmap string pyval) :
  is_diabetic v = Ok true -> truthy (dict_get v "blood_glucose") = true.
Proof. unfold is_diabetic, guard. destruct (truthy _); [reflexivity | discriminate]. Qed.
Lemma is_smoker_measured (v : gmap string pyval) :
  is_smoker v = Ok true -> truthy (dict_get v "smoking_habits") = true.
Proof. unfold is_smoker, guard. destruct (truthy _); [reflexivity | discriminate]. Qed.

Lemma high_risk_loop_bounds (visits : list (gmap string pyval)) (acc n : Z) :
  high_risk_loop acc visits = Ok n ->
  (acc <= n <= acc + Z.of_nat (length visits))%Z.
Proof.
  revert acc. induction visits as [|v rest IH]; intros acc H.
  - injection H as <-. simpl. lia.
  - simpl in H. apply bind_ok in H as (acc' & Hstep & H).
    specialize (IH acc' H).
    assert (Hacc : (acc <= acc' <= acc + 1)%Z).
    { unfold high_risk_step in Hstep. bind_inv Hstep. injection Hstep as <-.
      destruct (2 <=? _)%Z; lia. }
    simpl length. lia.
Qed.

(** What [calculate_health_prevalence] does to a document depends on the
    visits alone: it raises, or it stores the same values in the same
    fields. *)
Lemma health_prevalence_shape (visits : list (gmap string pyval)) :
  (exists e, forall self, calculate_health_prevalence visits self = Raise e) \/
  (exists o h d s r,
     (forall q, o = Some q -> 0 <= q <= 100) /\
     (forall q, h = Some q -> 0 <= q <= 100) /\
     (forall q, d = Some q -> 0 <= q <= 100) /\
     (forall q, s = Some q -> 0 <= q <= 100) /\
     (0 <= r <= Z.of_nat (length visits))%Z /\
     forall self,
       calculate_health_prevalence visits self =
         Ok (set_high_risk_participants (Some r)
               (store set_smoking_prevalence s
                  (store set_diabetes_prevalence d
                     (store set_hypertension_prevalence h
                        (store set_obesity_prevalence o self)))))).
Proof.
  unfold calculate_health_prevalence.
  destruct (prevalence_block is_obese _ set_obesity_prevalence visits
              is_obese_measured) as [(e & E)|(o & Ho & E1)];
    [left; exists e; intros self; by rewrite E | ].
  destruct (prevalence_block is_hypertensive _ set_hypertension_prevalence visits
              is_hypertensive_measured) as [(e & E)|(h & Hh & E2)];
    [left; exists e; intros self; by rewrite E1, bind_Ok, E | ].
  destruct (prevalence_block is_diabetic _ set_diabetes_prevalence visits
              is_diabetic_measured) as [(e & E)|(d & Hd & E3)];
    [left; exists e; intros self; by rewrite E1, bind_Ok, E2, bind_Ok, E | ].
  destruct (prevalence_block is_smoker _ set_smoking_prevalence visits
              is_smoker_measured) as [(e & E)|(s & Hs & E4)];
    [left; exists e; intros self;
     by rewrite E1, bind_Ok, E2, bind_Ok, E3, bind_Ok, E | ].
  destruct (high_risk_loop 0%Z visits) as [r|e] eqn:Er.
  - right. exists o, h, d, s, r. repeat (split; [assumption | ]).
    split; [apply (high_risk_loop_bounds _ _ _ Er) | ].
    intros self. by rewrite E1, bind_Ok, E2, bind_Ok, E3, bind_Ok, E4, bind_Ok.
  - left. exists e. intros self.
    by rewrite E1, bind_Ok, E2, bind_Ok, E3, bind_Ok, E4, bind_Ok.
Qed.

(** X8.  Whatever [calculate_health_prevalence] stores is a percentage: each
    of the four prevalences is left as it was (no measured record) or set
    to a value between 0 and 100, and the number of high-risk participants
    is between 0 and the number of visits. *)
Theorem prevalences_are_percentages (visits : list (gmap string pyval))
    (self d : CorporateScreening.t) :
  calculate_health_prevalence visits self = Ok d ->
  (obesity_prevalence d = obesity_prevalence self \/
   exists q, obesity_prevalence d = Some q /\ 0 <= q <= 100) /\
  (hypertension_prevalence d = hypertension_prevalence self \/
   exists q, hypertension_prevalence d = Some q /\ 0 <= q <= 100) /\
  (diabetes_prevalence d = diabetes_prevalence self \/
   exists q, diabetes_prevalence d = Some q /\ 0 <= q <= 100) /\
  (smoking_prevalence d = smoking_prevalence self \/
   exists q, smoking_prevalence d = Some q /\ 0 <= q <= 100) /\
  (exists r, high_risk_participants d = Some r /\
             (0 <= r <= Z.of_nat (length visits))%Z).
Proof.
  intros H.
  destruct (health_prevalence_shape visits)
    as [(e & E)|(o & h & di & s & r & Ho & Hh & Hd & Hs & Hr & E)];
    rewrite E in H; [discriminate H | ].
  injection H as <-.
  repeat split.
  - destruct o as [q|]; [right; exists q | left];
      destruct h, di, s; simpl; auto.
  - destruct h as [q|]; [right; exists q | left];
      destruct o, di, s; simpl; auto.
  - destruct di as [q|]; [right; exists q | left];
      destruct o, h, s; simpl; auto.
  - destruct s as [q|]; [right; exists q | left];
      destruct o, h, di; simpl; auto.
  - exists r. destruct o, h, di, s; simpl; auto.
Qed.

Lemma prevalences_are_percentages_witness :
  (obesity_prevalence
     (set_high_risk_participants (Some 1%Z)
        (set_smoking_prevalence (Some (1000 # 10))
           (set_obesity_prevalence (Some (1000 # 10)) (new_doc "Acme" None)))) =
   obesity_prevalence (new_doc "Acme" None) \/
   exists q,
     obesity_prevalence
       (set_high_risk_participants (Some 1%Z)
          (set_smoking_prevalence (Some (1000 # 10))
             (set_obesity_prevalence (Some (1000 # 10)) (new_doc "Acme" None)))) =
     Some q /\ 0 <= q <= 100).
Proof.
  exact (proj1 (prevalences_are_percentages [visit_participant] (new_doc "Acme" None)
                  _ eq_refl)).
Defined.

Lemma count_if_disjoint {A : Type} (c1 c2 : A -> bool) (l : list A) :
  (forall v, c1 v = true -> c2 v = false) ->
  (count_if c1 l + count_if c2 l <= Z.of_nat (length l))%Z.
Proof.
  intros Hdis. unfold count_if. induction l as [|v l IH]; simpl; [lia | ].
  destruct (c1 v) eqn:E1.
  - rewrite (Hdis v E1). simpl length. lia.
  - destruct (c2 v); simpl length; lia.
Qed.

Lemma count_where_disjoint3 {A : Type} (p1 p2 p3 : A -> result bool)
    (l : list A) (n1 n2 n3 : Z) :
  (forall v, p1 v = Ok true -> p2 v <> Ok true /\ p3 v <> Ok true) ->
  (forall v, p2 v = Ok true -> p3 v <> Ok true) ->
  count_where p1 l = Ok n1 -> count_where p2 l = Ok n2 ->
  count_where p3 l = Ok n3 ->
  (0 <= n1 /\ 0 <= n2 /\ 0 <= n3 /\ n1 + n2 + n3 <= Z.of_nat (length l))%Z.
Proof.
  intros H12 H23. revert n1 n2 n3.
  induction l as [|v l IH]; intros n1 n2 n3 E1 E2 E3.
  - injection E1 as <-. injection E2 as <-. injection E3 as <-. simpl. lia.
  - simpl in E1, E2, E3.
    apply bind_ok in E1 as (b1 & B1 & E1). apply bind_ok in E1 as (m1 & M1 & E1).
    apply bind_ok in E2 as (b2 & B2 & E2). apply bind_ok in E2 as (m2 & M2 & E2).
    apply bind_ok in E3 as (b3 & B3 & E3). apply bind_ok in E3 as (m3 & M3 & E3).
    injection E1 as <-. injection E2 as <-. injection E3 as <-.
    specialize (IH m1 m2 m3 M1 M2 M3). simpl length.
    destruct b1, b2, b3; try lia; exfalso.
    all: first [ destruct (H12 v B1) as [C2 C3]; (by apply C2) || (by apply C3)
               | by apply (H23 v B2) ].
Qed.

Lemma age_between_true (lo hi : Q) (v : gmap string pyval) :
  age_between lo hi v = Ok true ->
  exists a, dict_get v "age" = PNum a /\ lo <= a <= hi.
Proof.
  unfold age_between, guard, dict_item, dict_get.
  destruct (v !! "age"%string) as [[|a|s]|]; simpl; try discriminate.
  - destruct (Qeq_bool a 0); simpl; [discriminate | ].
    destruct (Qle_bool_reflect lo a); simpl; [ | discriminate].
    destruct (Qle_bool_reflect a hi); [ | discriminate].
    intros _. exists a. auto.
  - destruct (String.eqb s ""); discriminate.
Qed.

Lemma age_from_true (lo : Q) (v : gmap string pyval) :
  age_from lo v = Ok true ->
  exists a, dict_get v "age" = PNum a /\ lo <= a.
Proof.
  unfold age_from, guard, dict_item, dict_get.
  destruct (v !! "age"%string) as [[|a|s]|]; simpl; try discriminate.
  - destruct (Qeq_bool a 0); simpl; [discriminate | ].
    destruct (Qle_bool_reflect lo a); [ | discriminate].
    intros _. exists a. auto.
  - destruct (String.eqb s ""); discriminate.
Qed.

(** What [calculate_statistics] does to a document, on a cohort that is not
    empty, depends on the visits alone. *)
Lemma statistics_shape (v : gmap string pyval) (rest : list (gmap string pyval)) :
  (exists e, forall self, calculate_statistics (v :: rest) self = Raise e) \/
  (exists g1 g2 g3 o h d s r,
     (0 <= g1 /\ 0 <= g2 /\ 0 <= g3 /\
      g1 + g2 + g3 <= Z.of_nat (length (v :: rest)))%Z /\
     (forall q, o = Some q -> 0 <= q <= 100) /\
     (forall q, h = Some q -> 0 <= q <= 100) /\
     (forall q, d = Some q -> 0 <= q <= 100) /\
     (forall q, s = Some q -> 0 <= q <= 100) /\
     (0 <= r <= Z.of_nat (length (v :: rest)))%Z /\
     forall self,
       calculate_statistics (v :: rest) self =
         Ok (store_total_cost
               (set_high_risk_participants (Some r)
                  (store set_smoking_prevalence s
                     (store set_diabetes_prevalence d
                        (store set_hypertension_prevalence h
                           (store set_obesity_prevalence o
                              (set_demographics
                                 (Some (count_if
                                    (fun v => py_eq_str (dict_get v "gender") "Male")
                                    (v :: rest)))
                                 (Some (count_if
                                    (fun v => py_eq_str (dict_get v "gender") "Female")
                                    (v :: rest)))
                                 (Some g1) (Some g2) (Some g3)
                                 (set_total_participants
                                    (Some (Z.of_nat (length (v :: rest))))
                                    self))))))))).
Proof.
  unfold calculate_statistics.
  destruct (count_where (age_between 18 30) (v :: rest)) as [g1|e] eqn:E1;
    [ | left; exists e; reflexivity].
  destruct (count_where (age_between 31 50) (v :: rest)) as [g2|e] eqn:E2;
    [ | left; exists e; reflexivity].
  destruct (count_where (age_from 51) (v :: rest)) as [g3|e] eqn:E3;
    [ | left; exists e; reflexivity].
  destruct (health_prevalence_shape (v :: rest))
    as [(e & E)|(o & h & d & s & r & Ho & Hh & Hd & Hs & Hr & E)].
  { left. exists e. intros self. rewrite !bind_Ok, E. reflexivity. }
  right. exists g1, g2, g3, o, h, d, s, r.
  split.
  { apply (count_where_disjoint3 (age_between 18 30) (age_between 31 50)
             (age_from 51) _ _ _ _); try assumption.
    - intros x Hx. apply age_between_true in Hx as (a & Ea & Ha).
      split; intros Hy;
        [apply age_between_true in Hy as (b & Eb & Hb)
        | apply age_from_true in Hy as (b & Eb & Hb)];
        rewrite Ea in Eb; injection Eb as <-; lra.
    - intros x Hx. apply age_between_true in Hx as (a & Ea & Ha).
      intros Hy. apply age_from_true in Hy as (b & Eb & Hb).
      rewrite Ea in Eb; injection Eb as <-; lra. }
  repeat (split; [assumption | ]).
  intros self. rewrite !bind_Ok, E, bind_Ok. unfold store_total_cost.
  match goal with
  | |- context [truthyQ (cost_per_participant ?x) && truthyZ (total_participants ?y)] =>
      destruct (truthyQ (cost_per_participant x) && truthyZ (total_participants y));
      [destruct (cost_per_participant x), (total_participants y) | ]; reflexivity
  end.
Qed.

(** The fields of the document that [calculate_statistics] returns on a
    cohort that is not empty. *)
Lemma statistics_fields (o h di s : option Q) (r m f g1 g2 g3 : option Z) (n : Z)
    (self : CorporateScreening.t) :
  let d := store_total_cost (set_high_risk_participants r
             (store set_smoking_prevalence s (store set_diabetes_prevalence di
             (store set_hypertension_prevalence h (store set_obesity_prevalence o
             (set_demographics m f g1 g2 g3
                (set_total_participants (Some n) self))))))) in
  total_participants d = Some n /\
  male_participants d = m /\ female_participants d = f /\
  age_group_18_30 d = g1 /\ age_group_31_50 d = g2 /\ age_group_51_plus d = g3 /\
  high_risk_participants d = r /\
  cost_per_participant d = cost_per_participant self /\
  company_name d = company_name self /\
  (forall c, cost_per_participant self = Some c -> ~ c == 0 -> n <> 0%Z ->
             total_cost d = Some (c * inject_Z n)).
Proof.
  destruct o, h, di, s; unfold store_total_cost, store; cbn;
    destruct (cost_per_participant self) as [c|] eqn:Ec; cbn;
    try (destruct (Qeq_bool_reflect c 0); cbn);
    try (destruct (Z.eqb_spec n 0); cbn);
    rewrite ?Ec;
    repeat split; try reflexivity; intros c' Hc' Hz Hn;
    try discriminate Hc'; injection Hc' as <-; try contradiction; reflexivity.
Qed.

(** X9.  On a cohort that is not empty, the counts stored by
    [calculate_statistics] are consistent: the participants are the
    visits; men and women together, the three age groups together, and
    the high-risk participants are each at most the participants; and the
    total cost is the cost per participant times the participants. *)
Theorem statistics_counts_consistent (visits : list (gmap string pyval))
    (self d : CorporateScreening.t) :
  visits <> [] ->
  calculate_statistics visits self = Ok d ->
  total_participants d = Some (Z.of_nat (length visits)) /\
  (exists m f g1 g2 g3 r,
     male_participants d = Some m /\ female_participants d = Some f /\
     age_group_18_30 d = Some g1 /\ age_group_31_50 d = Some g2 /\
     age_group_51_plus d = Some g3 /\ high_risk_participants d = Some r /\
     (0 <= m /\ 0 <= f /\ m + f <= Z.of_nat (length visits))%Z /\
     (0 <= g1 /\ 0 <= g2 /\ 0 <= g3 /\
      g1 + g2 + g3 <= Z.of_nat (length visits))%Z /\
     (0 <= r <= Z.of_nat (length visits))%Z) /\
  (forall c, cost_per_participant self = Some c -> ~ c == 0 ->
             total_cost d = Some (c * inject_Z (Z.of_nat (length visits)))).
Proof.
  intros Hne H. destruct visits as [|v rest]; [congruence | ]. clear Hne.
  destruct (statistics_shape v rest)
    as [(e & E)|(g1 & g2 & g3 & o & h & di & s & r & Hg & _ & _ & _ & _ & Hr & E)];
    rewrite E in H; [discriminate H | ].
  injection H as <-.
  pose proof (count_if_bounds (fun v => py_eq_str (dict_get v "gender") "Male")
                (v :: rest)) as Hm.
  pose proof (count_if_bounds (fun v => py_eq_str (dict_get v "gender") "Female")
                (v :: rest)) as Hf.
  assert (Hdis : (count_if (fun v => py_eq_str (dict_get v "gender") "Male") (v :: rest) +
                  count_if (fun v => py_eq_str (dict_get v "gender") "Female") (v :: rest)
                  <= Z.of_nat (length (v :: rest)))%Z).
  { apply count_if_disjoint. intros x Hx. unfold py_eq_str in *.
    destruct (dict_get x "gender") as [| |g]; try discriminate Hx.
    apply String.eqb_eq in Hx. subst g. reflexivity. }
  match goal with
  | |- context [store_total_cost (set_high_risk_participants ?r'
         (store _ ?s' (store _ ?di' (store _ ?h' (store _ ?o'
           (set_demographics ?m' ?f' ?a ?b ?c (set_total_participants (Some ?n) ?x)))))))] =>
      destruct (statistics_fields o' h' di' s' r' m' f' a b c n x)
        as (F1 & F2 & F3 & F4 & F5 & F6 & F7 & _ & _ & F9)
  end.
  split; [exact F1 | split].
  - eexists _, _, g1, g2, g3, r.
    repeat (split; [eassumption | ]).
    split; [lia | split; [exact Hg | exact Hr]].
  - intros c Hc Hcz. apply F9; [exact Hc | exact Hcz | ].
    change (length (v :: rest)) with (S (length rest)). lia.
Qed.

Lemma statistics_counts_consistent_witness :
  exists d,
    calculate_statistics [visit_participant] (new_doc "Acme" (Some 25)) = Ok d /\
    total_participants d = Some 1%Z /\
    total_cost d = Some (25 * inject_Z 1).
Proof.
  eexists. split; [reflexivity | ].
  assert (Hne : [visit_participant] <> []) by discriminate.
  destruct (statistics_counts_consistent [visit_participant]
              (new_doc "Acme" (Some 25)) _ Hne eq_refl) as (Ht & _ & Hc).
  split; [exact Ht | ].
  apply (Hc 25); [reflexivity | intros H; discriminate H].
Defined.

(** X10.  Computing the statistics again on the same visits changes
    nothing: [calculate_statistics] is idempotent. *)
Theorem calculate_statistics_idempotent (visits : list (gmap string pyval))
    (self d : CorporateScreening.t) :
  calculate_statistics visits self = Ok d ->
  calculate_statistics visits d = Ok d.
Proof.
  intros H. destruct visits as [|v rest].
  - injection H as <-. reflexivity.
  - destruct (statistics_shape v rest)
      as [(e & E)|(g1 & g2 & g3 & o & h & di & s & r & _ & _ & _ & _ & _ & _ & E)];
      rewrite E in H; [discriminate H | ].
    set (n := Z.of_nat (length (v :: rest))) in *. clearbody n.
    injection H as <-. rewrite E. f_equal.
    destruct (cost_per_participant self) as [c|] eqn:Ec;
      [destruct (Qeq_bool c 0) eqn:Eq; destruct (Z.eqb n 0) eqn:En | ];
      destruct o, h, di, s; unfold store_total_cost, store;
      repeat (cbn; rewrite ?Ec, ?Eq, ?En); reflexivity.
Qed.

Lemma calculate_statistics_idempotent_witness :
  exists d,
    calculate_statistics [visit_participant] (new_doc "Acme" (Some 25)) = Ok d /\
    calculate_statistics [visit_participant] d = Ok d.
Proof.
  eexists. split; [reflexivity | ].
  exact (calculate_statistics_idempotent [visit_participant]
           (new_doc "Acme" (Some 25)) _ eq_refl).
Defined.

(** ** The final statistics of a screening *)

Lemma opens_with_app (p : CorporateScreening.sentence)
    (l k : list CorporateScreening.sentence) :
  opens_with p l -> opens_with p (l ++ k).
Proof. intros (tail & ->). exists (tail ++ k). reflexivity. Qed.

Lemma opens_with_if (p : CorporateScreening.sentence) (c : bool)
    (l k : list CorporateScreening.sentence) :
  opens_with p l -> opens_with p (if c then l ++ k else l).
Proof. intros H. destruct c; [by apply opens_with_app | exact H]. Qed.

(** The summary of a cohort that is not empty opens with the participation
    sentence and changes no other field. *)
Lemma screening_summary_opens (v : gmap string pyval)
    (rest : list (gmap string pyval)) (d d' : CorporateScreening.t) :
  CorporateScreening.generate_executive_summary (v :: rest) d = Ok d' ->
  exists summary,
    d' = set_executive_summary (Some summary) d /\
    opens_with (Participation (total_participants d) (company_name d)) summary.
Proof.
  unfold CorporateScreening.generate_executive_summary. intros H.
  apply bind_ok in H as (sp1 & H1 & H).
  assert (O1 : opens_with (Participation (total_participants d) (company_name d)) sp1).
  { destruct (truthyZ (male_participants d) && truthyZ (female_participants d)).
    - apply bind_ok in H1 as (p1 & _ & H1). apply bind_ok in H1 as (p2 & _ & H1).
      injection H1 as <-. eexists. reflexivity.
    - injection H1 as <-. eexists. reflexivity. }
  apply bind_ok in H as (sp2 & H2 & H).
  assert (O2 : opens_with (Participation (total_participants d) (company_name d)) sp2).
  { destruct (truthyZ (high_risk_participants d)).
    - apply bind_ok in H2 as (p & _ & H2). injection H2 as <-.
      apply opens_with_app. by repeat apply opens_with_if.
    - injection H2 as <-. by repeat apply opens_with_if. }
  injection H as <-. eexists. split; [reflexivity | ].
  match goal with
  | |- opens_with _ (match ?r with [] => _ | _ :: _ => _ end) => destruct r
  end; [exact O2 | by apply opens_with_app].
Qed.

(** X11.  [calculate_final_statistics] completes whenever
    [calculate_statistics] does.  The summary it stores is the single
    sentence that there is no data when the cohort is empty, and otherwise
    opens with the participation sentence, which reports as many
    participants as there are visits; the statistics stay as computed. *)
Theorem final_statistics_summary (visits : list (gmap string pyval))
    (self d : CorporateScreening.t) :
  calculate_statistics visits self = Ok d ->
  exists d' summary,
    ScreeningLifecycle.calculate_final_statistics visits self = Ok d' /\
    d' = set_executive_summary (Some summary) d /\
    match visits with
    | [] => summary = [NoScreeningData]
    | _ :: _ =>
        opens_with (Participation (Some (Z.of_nat (length visits)))
                      (company_name self)) summary
    end.
Proof.
  intros H. unfold ScreeningLifecycle.calculate_final_statistics. rewrite H, bind_Ok.
  destruct (screening_summary_returns visits self d H) as (d' & Hd').
  destruct visits as [|v rest].
  - injection Hd' as <-. eexists _, _. repeat split.
  - destruct (screening_summary_opens v rest d d' Hd') as (summary & -> & Ho).
    exists (set_executive_summary (Some summary) d), summary.
    split; [exact Hd' | split; [reflexivity | ]].
    destruct (statistics_shape v rest)
      as [(e & E)|(g1 & g2 & g3 & o & h & di & s & r & _ & _ & _ & _ & _ & _ & E)];
      rewrite E in H; [discriminate H | ].
    injection H as <-.
    match type of Ho with
    | context [store_total_cost (set_high_risk_participants ?r'
         (store _ ?s' (store _ ?di' (store _ ?h' (store _ ?o'
           (set_demographics ?m' ?f' ?a ?b ?c (set_total_participants (Some ?n) ?x)))))))] =>
        destruct (statistics_fields o' h' di' s' r' m' f' a b c n x)
          as (F1 & _ & _ & _ & _ & _ & _ & _ & F8 & _)
    end.
    rewrite F1, F8 in Ho. exact Ho.
Qed.

Lemma final_statistics_summary_witness :
  exists d' summary,
    ScreeningLifecycle.calculate_final_statistics [visit_participant]
      (new_doc "Acme" None) = Ok d' /\
    executive_summary d' = Some summary /\
    opens_with (Participation (Some 1%Z) "Acme") summary.
Proof.
  destruct (final_statistics_summary [visit_participant] (new_doc "Acme" None) _ eq_refl)
    as (d' & summary & H & -> & Ho).
  exists (set_executive_summary (Some summary)
            match calculate_statistics [visit_participant] (new_doc "Acme" None) with
            | Ok d => d | Raise _ => new_doc "Acme" None end), summary.
  split; [exact H | split; [reflexivity | exact Ho]].
Defined.

(** ** Saving a visit *)

Lemma throw_if_passed {A : Type} (c : result bool) (msg : string) (rest : checked A)
    (a : A) :
  throw_if c msg rest = Passed a <-> c = Ok false /\ rest = Passed a.
Proof.
  unfold throw_if. destruct c as [[|]|e]; split; try discriminate; try tauto.
  - intros [H _]. discriminate H.
  - intros [H _]. discriminate H.
Qed.

















(** ** Clinics *)

Lemma round1_zero (q : Q) : q == 0 -> round1 q == 0.
Proof.
  intros H. unfold round1.
  rewrite (round_half_even_comp (q * 10) (inject_Z 0)).
  - rewrite round_half_even_Z. reflexivity.
  - rewrite H. reflexivity.
Qed.

Lemma round1_nonneg (q : Q) : 0 <= q -> 0 <= round1 q.
Proof.
  intros H. apply round1_mono in H.
  assert (E : round1 0 == 0) by (by apply round1_zero).
  rewrite E in H. exact H.
Qed.

Lemma utilization_value (n c : Q) :
  ~ c == 0 ->
  Clinic.utilization (PNum n) (PNum c) = Ok (round1 (n / 30 / c * 100)).
Proof.
  intros Hc. unfold Clinic.utilization, as_number, py_div. rewrite !bind_Ok.
  destruct (Qeq_bool_reflect c 0); [contradiction | reflexivity].
Qed.

(** X14.  The three places that compute a clinic's utilization rate
    ([get_clinic_statistics], [get_all_clinics_summary] and
    [get_clinic_performance_metrics]) return the same number for the same
    capacity and the same count of visits of the last 30 days, whenever the
    capacity is a number or empty. *)
Theorem utilization_rates_agree (self : Clinic.t)
    (clinic stats clinic_data : gmap string pyval) (n : Q) :
  measurement (Clinic.capacity self) = true ->
  dict_get clinic "capacity" = Clinic.capacity self ->
  stats !! "visits_last_30_days"%string = Some (PNum n) ->
  dict_get clinic_data "capacity" = Clinic.capacity self ->
  dict_get clinic_data "visits_last_30_days" = PNum n ->
  exists u1 u2 u3,
    Clinic.statistics_utilization_rate self [stats] = Ok u1 /\
    Clinic.summary_utilization_rate clinic [stats] = Ok u2 /\
    Clinic.performance_utilization_rate clinic_data = Ok u3 /\
    u1 == u2 /\ u2 == u3.
Proof.
  intros Hm Hc Hs Hpc Hpv.
  unfold Clinic.statistics_utilization_rate, Clinic.summary_utilization_rate,
    Clinic.performance_utilization_rate, dict_item, dict_get_or.
  rewrite Hc, Hpc, Hpv. unfold dict_get at 1. rewrite Hs. simpl default.
  destruct (Clinic.capacity self) as [|c|s]; [ | | discriminate Hm].
  - exists 0, 0, 0. by repeat split.
  - simpl truthy. destruct (Qeq_bool_reflect c 0) as [Hz|Hz]; cbn [negb andb].
    + exists 0, 0, 0. by repeat split.
    + rewrite (utilization_value n c Hz).
      destruct (Qeq_bool_reflect n 0) as [Hn|Hn]; cbn [negb].
      * eexists _, 0, 0. repeat split; try reflexivity.
        apply round1_zero. rewrite Hn. field. exact Hz.
      * rewrite bind_Ok, (utilization_value n c Hz).
        eexists _, _, _. repeat split; reflexivity.
Qed.

Lemma utilization_rates_agree_witness :
  exists u1 u2 u3,
    Clinic.statistics_utilization_rate
      {| Clinic.name := "C1"; Clinic.clinic_code := "C1"; Clinic.email := "";
         Clinic.capacity := PNum 20; Clinic.total_staff := PNone;
         Clinic.practitioners_count := PNone;
         Clinic.administrative_staff_count := PNone |}
      [{["visits_last_30_days"%string := PNum 300]}] = Ok u1 /\
    Clinic.summary_utilization_rate {["capacity"%string := PNum 20]}
      [{["visits_last_30_days"%string := PNum 300]}] = Ok u2 /\
    Clinic.performance_utilization_rate
      (<["capacity"%string := PNum 20]> {["visits_last_30_days"%string := PNum 300]})
      = Ok u3 /\
    u1 == u2 /\ u2 == u3.
Proof.
  apply (utilization_rates_agree _ _ _ _ 300); reflexivity.
Defined.

Lemma lower_check (v : pyval) :
  guard v (py_lt v 0) = Ok false ->
  (forall q, v = PNum q -> 0 <= q) /\ (forall s, v = PStr s -> s = ""%string).
Proof.
  intros H. split.
  - intros q ->. unfold guard, py_lt, truthy in H.
    destruct (Qeq_bool_reflect q 0) as [Hz|Hz]; [rewrite Hz; apply Qle_refl | ].
    simpl in H. destruct (Qle_bool_reflect 0 q); [assumption | discriminate H].
  - intros s ->. unfold guard, py_lt, truthy in H.
    destruct (String.eqb_spec s ""); [assumption | discriminate H].
Qed.

(** X15.  A clinic that [validate_clinic_data] lets through has a
    capacity and a total staff that are not negative, a code that no other
    clinic uses, an e-mail address that matches the pattern, and, when
    the three staff counts are all entered (not zero), practitioners plus
    administrative staff at most the total staff. *)
Theorem clinic_validation_sound (existing : option string) (email_matches : bool)
    (self : Clinic.t) :
  Clinic.validate_clinic_data existing email_matches self = Passed tt ->
  (forall c, Clinic.capacity self = PNum c -> 0 <= c) /\
  (forall t, Clinic.total_staff self = PNum t -> 0 <= t) /\
  (forall p a t, Clinic.practitioners_count self = PNum p ->
     Clinic.administrative_staff_count self = PNum a ->
     Clinic.total_staff self = PNum t ->
     ~ p == 0 -> ~ a == 0 -> ~ t == 0 -> p + a <= t) /\
  (Clinic.email self <> ""%string -> email_matches = true) /\
  (Clinic.clinic_code self <> ""%string ->
   forall e, existing = Some e -> e = ""%string \/ e = Clinic.name self).
Proof.
  unfold Clinic.validate_clinic_data. intros H.
  apply throw_if_passed in H as [H1 H]. apply throw_if_passed in H as [H2 H].
  apply throw_if_passed in H as [H3 H]. apply throw_if_passed in H as [H4 H].
  apply throw_if_passed in H as [H5 _].
  split; [by apply lower_check | split; [by apply lower_check | ]].
  split; [ | split].
  - intros p a t Hp Ha Ht Hpz Haz Htz. rewrite Hp, Ha, Ht in H5.
    unfold guard in H5.
    rewrite (truthy_num p Hpz), (truthy_num a Haz), (truthy_num t Htz) in H5.
    simpl in H5. destruct (Qle_bool_reflect (p + a) t); [assumption | discriminate H5].
  - intros He. injection H2 as H2.
    destruct (String.eqb_spec (Clinic.email self) ""); [contradiction | ].
    by destruct email_matches.
  - intros Hc e ->. injection H1 as H1.
    destruct (String.eqb_spec (Clinic.clinic_code self) ""); [contradiction | ].
    destruct (String.eqb_spec e ""); [by left | ].
    destruct (String.eqb_spec e (Clinic.name self)); [by right | discriminate H1].
Qed.

Lemma clinic_validation_sound_witness :
  Clinic.validate_clinic_data (Some "CL-001"%string) true clinic_example = Passed tt /\
  3 + 2 <= 6.
Proof.
  split; [reflexivity | ].
  apply (proj1 (proj2 (proj2
    (clinic_validation_sound (Some "CL-001"%string) true clinic_example eq_refl)))
    3 2 6); try reflexivity; intros H; discriminate H.
Defined.

(** X16.  The utilization rate of a clinic that passed validation is
    always computed, and it is not negative, for any count of visits that
    is not negative. *)
Theorem validated_clinic_utilization (existing : option string)
    (email_matches : bool) (self : Clinic.t) (stats : gmap string pyval) (n : Q) :
  Clinic.validate_clinic_data existing email_matches self = Passed tt ->
  stats !! "visits_last_30_days"%string = Some (PNum n) ->
  0 <= n ->
  exists u, Clinic.statistics_utilization_rate self [stats] = Ok u /\ 0 <= u.
Proof.
  unfold Clinic.validate_clinic_data. intros H Hs Hn.
  apply throw_if_passed in H as [_ H]. apply throw_if_passed in H as [_ H].
  apply throw_if_passed in H as [H _]. apply lower_check in H as [Hq Hstr].
  unfold Clinic.statistics_utilization_rate, dict_get_or. rewrite Hs. simpl default.
  destruct (Clinic.capacity self) as [|c|s].
  - exists 0. split; [reflexivity | apply Qle_refl].
  - simpl truthy. destruct (Qeq_bool_reflect c 0) as [Hz|Hz]; cbn [negb].
    + exists 0. split; [reflexivity | apply Qle_refl].
    + rewrite (utilization_value n c Hz). eexists. split; [reflexivity | ].
      apply round1_nonneg. specialize (Hq c eq_refl).
      assert (Hc : 0 < c) by (destruct (Qlt_le_dec 0 c) as [|Hle]; [assumption | ];
                                exfalso; apply Hz; by apply Qle_antisym).
      apply Qmult_le_0_compat; [ | discriminate].
      apply Qle_shift_div_l; [exact Hc | ].
      apply Qle_shift_div_l; [reflexivity | ].
      assert (E : 0 * c * 30 == 0) by ring. rewrite E. exact Hn.
  - rewrite (Hstr s eq_refl). exists 0. split; [reflexivity | apply Qle_refl].
Qed.

Lemma validated_clinic_utilization_witness :
  exists u,
    Clinic.statistics_utilization_rate clinic_example
      [{["visits_last_30_days"%string := PNum 300]}] = Ok u /\ 0 <= u.
Proof.
  apply (validated_clinic_utilization (Some "CL-001"%string) true clinic_example _ 300);
    [reflexivity | reflexivity | discriminate].
Defined.

(** X17.  Room for a visit is never lost by having fewer bookings: when
    [validate_clinic_capacity] reports a place with some number of
    bookings, it reports one with any smaller number. *)
Theorem clinic_capacity_antitone (clinic_doc : Clinic.t) (n m : Z)
    (a : Clinic.availability) :
  (n <= m)%Z ->
  Clinic.validate_clinic_capacity m clinic_doc = Ok a ->
  Clinic.available a = true ->
  exists a', Clinic.validate_clinic_capacity n clinic_doc = Ok a' /\
             Clinic.available a' = true.
Proof.
  intros Hnm. unfold Clinic.validate_clinic_capacity.
  destruct (truthy (Clinic.capacity clinic_doc)); cbn [negb];
    [ | intros _ _; by eexists].
  destruct (Clinic.capacity clinic_doc) as [|c|s]; simpl; try discriminate.
  destruct (Qle_bool_reflect c (inject_Z m)) as [Hm|Hm].
  - intros H. injection H as <-. discriminate.
  - intros _ _. destruct (Qle_bool_reflect c (inject_Z n)) as [Hn|Hn].
    + exfalso. apply Hm. apply Qle_trans with (inject_Z n); [exact Hn | ].
      rewrite <- Zle_Qle. exact Hnm.
    + by eexists.
Qed.

Lemma clinic_capacity_antitone_witness :
  exists a', Clinic.validate_clinic_capacity 3 clinic_example = Ok a' /\
             Clinic.available a' = true.
Proof.
  apply (clinic_capacity_antitone clinic_example 3 19
           (Clinic.CapacityAvailable 19 (PNum 20))); [lia | reflexivity | reflexivity].
Defined.

(** ** Patients *)

Lemma patient_age_stored (today : Z) (self : Patient.t) (b : Z) :
  Patient.date_of_birth self = Some b ->
  Patient.date_of_birth (Patient.calculate_age today (Patient.set_full_name self)) = Some b /\
  Patient.age (Patient.calculate_age today (Patient.set_full_name self)) =
    Some ((today - b) / 365)%Z.
Proof.
  intros Hb. unfold Patient.calculate_age, Patient.set_full_name.
  destruct (negb (String.eqb (Patient.first_name self) "") &&
            negb (String.eqb (Patient.last_name self) "")); simpl; rewrite Hb; by split.
Qed.

(** X18.  A new patient that [before_save] lets through was not born after
    today, and the age stored is the number of whole periods of 365 days
    since the date of birth: it is not negative, and a patient is one year
    older every 365 days, leap years not counted. *)
Theorem new_patient_age (existing : option string) (email_matches : bool)
    (today : Z) (self d : Patient.t) (b : Z) :
  Patient.before_save true existing email_matches today self = Passed d ->
  Patient.date_of_birth self = Some b ->
  (b <= today)%Z /\
  exists a, Patient.age d = Some a /\
            (0 <= a)%Z /\ (365 * a <= today - b < 365 * (a + 1))%Z.
Proof.
  unfold Patient.before_save. intros H Hb.
  destruct (patient_age_stored today self b Hb) as [Hd Ha].
  destruct (Patient.validate_patient_data true existing email_matches today _)
    as [[]|msg|e] eqn:Ev; try discriminate H.
  injection H as <-.
  unfold Patient.validate_patient_data in Ev. cbn [negb] in Ev.
  apply throw_if_passed in Ev as [_ Ev]. apply throw_if_passed in Ev as [_ Ev].
  apply throw_if_passed in Ev as [Ev _]. rewrite Hd in Ev. injection Ev as Ev.
  apply Z.ltb_ge in Ev. split; [exact Ev | ].
  exists ((today - b) / 365)%Z. split; [exact Ha | ].
  pose proof (Z.div_mod (today - b) 365 ltac:(lia)) as Hdm.
  pose proof (Z.mod_pos_bound (today - b) 365 ltac:(lia)) as Hm.
  split; [apply Z.div_pos; lia | lia].
Qed.

Lemma new_patient_age_witness :
  exists a, Patient.age (Patient.calculate_age 14600 (Patient.set_full_name patient_example))
              = Some a /\
            (0 <= a)%Z /\ (365 * a <= 14600 - 0 < 365 * (a + 1))%Z.
Proof.
  exact (proj2 (new_patient_age None true 14600 patient_example _ 0 eq_refl eq_refl)).
Defined.

(** X19.  A patient that is not new is never validated: [before_save]
    lets it through whatever the e-mail address and the date of birth,
    and a date of birth after today is stored with a negative age. *)
Theorem existing_patient_not_validated (existing : option string)
    (email_matches : bool) (today : Z) (self : Patient.t) :
  Patient.before_save false existing email_matches today self =
    Passed (Patient.calculate_age today (Patient.set_full_name self)) /\
  forall b, Patient.date_of_birth self = Some b -> (today < b)%Z ->
    exists a, Patient.age (Patient.calculate_age today (Patient.set_full_name self))
                = Some a /\ (a < 0)%Z.
Proof.
  split; [reflexivity | ].
  intros b Hb Hlt. destruct (patient_age_stored today self b Hb) as [_ Ha].
  eexists. split; [exact Ha | ].
  apply Z.div_lt_upper_bound; lia.
Qed.

(** ** The risk score beside the other assessments *)

Lemma grows_refl (names : list string) (st : risk_state) : grows names st st.
Proof.
  split; [lia | ]. exists []. split; [by rewrite app_nil_r | intros n []].
Qed.

Lemma grows_add (names : list string) (st : risk_state) (pts : Z) (name : string) :
  (0 <= pts)%Z -> In name names -> grows names st (add_risk st pts name).
Proof.
  intros Hp Hn. split; [simpl; lia | ].
  exists [name]. split; [reflexivity | ]. intros n [<-|[]]. exact Hn.
Qed.

Lemma grows_keeps (names : list string) (st st' : risk_state) (n : string) :
  grows names st st' -> In n st.2 -> In n st'.2.
Proof. intros (_ & added & -> & _) H. apply in_or_app. by left. Qed.

Lemma grows_from (names : list string) (st st' : risk_state) (n : string) :
  grows names st st' -> In n st'.2 -> In n st.2 \/ In n names.
Proof.
  intros (_ & added & -> & Ha) H. apply in_app_or in H as [H|H]; [by left | ].
  right. by apply Ha.
Qed.

Ltac grows_solve :=
  first [ apply grows_refl
        | apply grows_add; [lia | simpl; tauto] ].

Lemma age_grows (visit_data : gmap string pyval) (st st' : risk_state) :
  age_risk visit_data st = Ok st' -> grows ["Age ≥45"%string] st st'.
Proof.
  unfold age_risk. intros H. apply bind_ok in H as ([|] & _ & H);
    injection H as <-; grows_solve.
Qed.

Lemma bmi_grows (visit_data : gmap string pyval) (st st' : risk_state) :
  bmi_risk visit_data st = Ok st' ->
  grows ["Obesity"; "Overweight"]%string st st'.
Proof.
  unfold bmi_risk. intros H. apply bind_ok in H as ([|] & _ & H);
    [injection H as <-; grows_solve | ].
  apply bind_ok in H as ([|] & _ & H); injection H as <-; grows_solve.
Qed.

Lemma blood_pressure_grows (visit_data : gmap string pyval) (st st' : risk_state) :
  blood_pressure_risk visit_data st = Ok st' ->
  grows ["Hypertension"; "Elevated BP"]%string st st'.
Proof.
  unfold blood_pressure_risk. intros H.
  destruct (truthy _ && truthy _); [ | injection H as <-; grows_solve].
  apply bind_ok in H as ([|] & _ & H); [injection H as <-; grows_solve | ].
  apply bind_ok in H as ([|] & _ & H); injection H as <-; grows_solve.
Qed.

Lemma glucose_grows (visit_data : gmap string pyval) (st st' : risk_state) :
  glucose_risk visit_data st = Ok st' ->
  grows ["Diabetes"; "Prediabetes"]%string st st'.
Proof.
  unfold glucose_risk. intros H.
  destruct (truthy _); [ | injection H as <-; grows_solve].
  apply bind_ok in H as ([|] & _ & H); [injection H as <-; grows_solve | ].
  apply bind_ok in H as ([|] & _ & H); injection H as <-; grows_solve.
Qed.

Lemma smoking_grows (visit_data : gmap string pyval) (st st' : risk_state) :
  smoking_risk visit_data st = Ok st' -> grows ["Smoking"%string] st st'.
Proof.
  unfold smoking_risk. intros H. injection H as <-.
  match goal with |- context [if ?c then _ else _] => destruct c end; grows_solve.
Qed.

Lemma exercise_grows (visit_data : gmap string pyval) (st st' : risk_state) :
  exercise_risk visit_data st = Ok st' ->
  grows ["Physical Inactivity"%string] st st'.
Proof.
  unfold exercise_risk. intros H. injection H as <-.
  match goal with |- context [if ?c then _ else _] => destruct c end; grows_solve.
Qed.

(** The six blocks behind a result. *)
Lemma risk_score_blocks (visit_data : gmap string pyval) (r : risk_assessment) :
  calculate_cardiovascular_risk_score visit_data = Ok r ->
  exists st1 st2 st3 st4 st5 st6,
    age_risk visit_data (0%Z, []) = Ok st1 /\
    bmi_risk visit_data st1 = Ok st2 /\
    blood_pressure_risk visit_data st2 = Ok st3 /\
    glucose_risk visit_data st3 = Ok st4 /\
    smoking_risk visit_data st4 = Ok st5 /\
    exercise_risk visit_data st5 = Ok st6 /\
    risk_score r = st6.1 /\ risk_factors r = st6.2.
Proof.
  unfold calculate_cardiovascular_risk_score. intros H.
  apply bind_ok in H as (st1 & H1 & H). apply bind_ok in H as (st2 & H2 & H).
  apply bind_ok in H as (st3 & H3 & H). apply bind_ok in H as (st4 & H4 & H).
  apply bind_ok in H as (st5 & H5 & H). apply bind_ok in H as (st6 & H6 & H).
  injection H as <-. by exists st1, st2, st3, st4, st5, st6.
Qed.

(** The blood-pressure block on a record that meets the blood-pressure
    criterion of the metabolic syndrome, and the glucose block on one that
    meets its glucose criterion. *)
Lemma pressure_criterion_scores (visit_data : gmap string pyval) (st st' : risk_state) :
  guard (dict_get visit_data "blood_pressure_systolic")
    (guard (dict_get visit_data "blood_pressure_diastolic")
       (or_else (py_ge (dict_get visit_data "blood_pressure_systolic") 130)
                (py_ge (dict_get visit_data "blood_pressure_diastolic") 85))) = Ok true ->
  blood_pressure_risk visit_data st = Ok st' ->
  st' = add_risk st 2 "Hypertension" \/ st' = add_risk st 1 "Elevated BP".
Proof.
  unfold blood_pressure_risk, guard.
  destruct (truthy (dict_get visit_data "blood_pressure_systolic")); [ | discriminate].
  destruct (truthy (dict_get visit_data "blood_pressure_diastolic")); [ | discriminate].
  cbn [andb]. intros Hc H.
  apply bind_ok in H as ([|] & _ & H); [injection H as <-; by left | ].
  apply bind_ok in H as (c & Hc2 & H).
  assert (c = true) as ->; [ | injection H as <-; by right].
  unfold or_else, py_ge in Hc, Hc2.
  destruct (dict_get visit_data "blood_pressure_systolic") as [|s|]; try discriminate.
  rewrite bind_Ok in Hc, Hc2.
  destruct (Qle_bool_reflect 130 s); [by injection Hc2 as <- | ].
  destruct (dict_get visit_data "blood_pressure_diastolic") as [|d|]; try discriminate.
  injection Hc as Hc. injection Hc2 as <-.
  destruct (Qle_bool_reflect 85 d); [ | discriminate].
  destruct (Qle_bool_reflect 80 d); [reflexivity | exfalso; lra].
Qed.

Lemma glucose_criterion_scores (visit_data : gmap string pyval) (st st' : risk_state) :
  guard (dict_get visit_data "blood_glucose")
    (py_ge (dict_get visit_data "blood_glucose") 100) = Ok true ->
  glucose_risk visit_data st = Ok st' ->
  st' = add_risk st 2 "Diabetes" \/ st' = add_risk st 1 "Prediabetes".
Proof.
  unfold glucose_risk, guard.
  destruct (truthy (dict_get visit_data "blood_glucose")); [ | discriminate].
  intros Hc H.
  apply bind_ok in H as ([|] & _ & H); [injection H as <-; by left | ].
  apply bind_ok in H as (c & Hc2 & H). rewrite Hc in Hc2. injection Hc2 as <-.
  injection H as <-. by right.
Qed.

(** A record flagged for the metabolic syndrome met the blood-pressure and
    the glucose criterion. *)
Lemma metabolic_syndrome_criteria_met (visit_data : gmap string pyval)
    (m : metabolic_result) :
  calculate_metabolic_syndrome_criteria visit_data = Ok m ->
  has_metabolic_syndrome m = true ->
  guard (dict_get visit_data "blood_pressure_systolic")
    (guard (dict_get visit_data "blood_pressure_diastolic")
       (or_else (py_ge (dict_get visit_data "blood_pressure_systolic") 130)
                (py_ge (dict_get visit_data "blood_pressure_diastolic") 85))) = Ok true /\
  guard (dict_get visit_data "blood_glucose")
    (py_ge (dict_get visit_data "blood_glucose") 100) = Ok true.
Proof.
  unfold calculate_metabolic_syndrome_criteria. intros H Hflag.
  apply bind_ok in H as (st & Hst & H).
  assert (Hw : (st.1 <= 1)%Z).
  { destruct (truthy _ && truthy _); [ | injection Hst as <-; simpl; lia].
    apply bind_ok in Hst as ([|] & _ & Hst); injection Hst as <-; simpl; lia. }
  apply bind_ok in H as (c1 & H1 & H). apply bind_ok in H as (c2 & H2 & H).
  injection H as <-. simpl in Hflag. apply Z.leb_le in Hflag.
  destruct c1, c2; simpl in Hflag; try lia. by split.
Qed.

(** X20.  A record that [calculate_metabolic_syndrome_criteria] flags
    never has a low cardiovascular score: its blood pressure and its
    glucose are both counted by [calculate_cardiovascular_risk_score], so
    the score is at least 2. *)
Theorem metabolic_syndrome_raises_risk (visit_data : gmap string pyval)
    (m : metabolic_result) (r : risk_assessment) :
  calculate_metabolic_syndrome_criteria visit_data = Ok m ->
  has_metabolic_syndrome m = true ->
  calculate_cardiovascular_risk_score visit_data = Ok r ->
  (2 <= risk_score r)%Z /\
  (In "Hypertension"%string (risk_factors r) \/
   In "Elevated BP"%string (risk_factors r)) /\
  (In "Diabetes"%string (risk_factors r) \/
   In "Prediabetes"%string (risk_factors r)).
Proof.
  intros Hm Hflag Hr.
  destruct (metabolic_syndrome_criteria_met visit_data m Hm Hflag) as [Hbp Hg].
  destruct (risk_score_blocks visit_data r Hr)
    as (st1 & st2 & st3 & st4 & st5 & st6 & H1 & H2 & H3 & H4 & H5 & H6 & -> & ->).
  pose proof (age_grows _ _ _ H1) as G1. pose proof (bmi_grows _ _ _ H2) as G2.
  pose proof (smoking_grows _ _ _ H5) as G5.
  pose proof (exercise_grows _ _ _ H6) as G6.
  pose proof (glucose_grows _ _ _ H4) as G4.
  pose proof (pressure_criterion_scores _ _ _ Hbp H3) as P3.
  pose proof (glucose_criterion_scores _ _ _ Hg H4) as P4.
  assert (S3 : (st2.1 + 1 <= st3.1)%Z) by (destruct P3 as [-> | ->]; simpl; lia).
  assert (S4 : (st3.1 + 1 <= st4.1)%Z) by (destruct P4 as [-> | ->]; simpl; lia).
  destruct G1 as [L1 _], G2 as [L2 _]. simpl in L1.
  split; [destruct G5 as [L5 _], G6 as [L6 _]; lia | split].
  - assert (In "Hypertension"%string st3.2 \/ In "Elevated BP"%string st3.2) as [F|F]
      by (destruct P3 as [-> | ->]; [left | right]; apply in_or_app; right; by left).
    + left. apply (grows_keeps _ _ _ _ G6), (grows_keeps _ _ _ _ G5),
        (grows_keeps _ _ _ _ G4). exact F.
    + right. apply (grows_keeps _ _ _ _ G6), (grows_keeps _ _ _ _ G5),
        (grows_keeps _ _ _ _ G4). exact F.
  - assert (In "Diabetes"%string st4.2 \/ In "Prediabetes"%string st4.2) as [F|F]
      by (destruct P4 as [-> | ->]; [left | right]; apply in_or_app; right; by left).
    + left. apply (grows_keeps _ _ _ _ G6), (grows_keeps _ _ _ _ G5). exact F.
    + right. apply (grows_keeps _ _ _ _ G6), (grows_keeps _ _ _ _ G5). exact F.
Qed.

Lemma metabolic_syndrome_raises_risk_witness :
  exists r, calculate_cardiovascular_risk_score metabolic_example = Ok r /\
            (2 <= risk_score r)%Z.
Proof.
  eexists. split; [reflexivity | ].
  exact (proj1 (metabolic_syndrome_raises_risk metabolic_example _ _
                  eq_refl eq_refl eq_refl)).
Defined.

(** The blood-pressure block on two readings that were entered. *)
Lemma pressure_block_value (visit_data : gmap string pyval) (st : risk_state) (s d : Q) :
  dict_get visit_data "blood_pressure_systolic" = PNum s ->
  dict_get visit_data "blood_pressure_diastolic" = PNum d ->
  ~ s == 0 -> ~ d == 0 ->
  blood_pressure_risk visit_data st =
    Ok (if Qle_bool 140 s || Qle_bool 90 d then add_risk st 2 "Hypertension"
        else if Qle_bool 130 s || Qle_bool 80 d then add_risk st 1 "Elevated BP"
        else st).
Proof.
  intros Hs Hd Hsz Hdz. unfold blood_pressure_risk, or_else, py_ge.
  rewrite Hs, Hd, (truthy_num s Hsz), (truthy_num d Hdz). cbn [andb].
  rewrite !bind_Ok.
  destruct (Qle_bool 140 s), (Qle_bool 90 d); rewrite ?bind_Ok; try reflexivity;
    destruct (Qle_bool 130 s), (Qle_bool 80 d); rewrite ?bind_Ok; reflexivity.
Qed.

Ltac other_block H G :=
  apply (grows_from _ _ _ _ G) in H as [H|H];
  [ | simpl in *; intuition (subst; discriminate) ].

(** Which of the two blood-pressure factors a result records. *)
Lemma pressure_factors_recorded (visit_data : gmap string pyval) (r : risk_assessment)
    (s d : Q) :
  dict_get visit_data "blood_pressure_systolic" = PNum s ->
  dict_get visit_data "blood_pressure_diastolic" = PNum d ->
  ~ s == 0 -> ~ d == 0 ->
  calculate_cardiovascular_risk_score visit_data = Ok r ->
  (In "Hypertension"%string (risk_factors r) <-> 140 <= s \/ 90 <= d) /\
  (In "Elevated BP"%string (risk_factors r) <->
     ~ (140 <= s \/ 90 <= d) /\ (130 <= s \/ 80 <= d)).
Proof.
  intros Hs Hd Hsz Hdz Hr.
  destruct (risk_score_blocks visit_data r Hr)
    as (st1 & st2 & st3 & st4 & st5 & st6 & H1 & H2 & H3 & H4 & H5 & H6 & _ & ->).
  pose proof (age_grows _ _ _ H1) as G1. pose proof (bmi_grows _ _ _ H2) as G2.
  pose proof (glucose_grows _ _ _ H4) as G4.
  pose proof (smoking_grows _ _ _ H5) as G5.
  pose proof (exercise_grows _ _ _ H6) as G6.
  rewrite (pressure_block_value visit_data st2 s d Hs Hd Hsz Hdz) in H3.
  assert (N2 : forall n, In n ["Hypertension"; "Elevated BP"]%string -> ~ In n st2.2).
  { intros n Hn Hin. other_block Hin G2. other_block Hin G1. exact Hin. }
  assert (K : forall n, In n ["Hypertension"; "Elevated BP"]%string ->
                        (In n st6.2 <-> In n st3.2)).
  { intros n Hn. split.
    - intros Hin. other_block Hin G6. other_block Hin G5. other_block Hin G4.
      exact Hin.
    - intros Hin. apply (grows_keeps _ _ _ _ G6), (grows_keeps _ _ _ _ G5),
        (grows_keeps _ _ _ _ G4). exact Hin. }
  rewrite (K "Hypertension"%string), (K "Elevated BP"%string)
    by (simpl; tauto).
  pose proof (N2 "Hypertension"%string ltac:(simpl; tauto)) as NH.
  pose proof (N2 "Elevated BP"%string ltac:(simpl; tauto)) as NE.
  injection H3 as <-.
  destruct (Qle_bool_reflect 140 s), (Qle_bool_reflect 90 d),
    (Qle_bool_reflect 130 s), (Qle_bool_reflect 80 d); cbn [orb];
    try (exfalso; lra);
    unfold add_risk; cbn [fst snd]; rewrite ?in_app_iff; simpl;
    (split; split;
     [ intros ? | intros ? | intros ? | intros ? ];
     try tauto;
     try (intuition (first [discriminate | lra]))).
Qed.

(** X21.  On two positive readings the blood-pressure category and the
    risk score agree on who is affected: the score counts no
    blood-pressure factor exactly when the category is "Normal" or
    "Elevated" (rank 0 or 1), and it counts "Hypertension" whenever the
    category is "High Blood Pressure Stage 2" or "Hypertensive Crisis"
    (rank 3 or 4).  The factor "Elevated BP" therefore never goes with the
    category "Elevated". *)
Theorem pressure_factor_matches_category (visit_data : gmap string pyval)
    (r : risk_assessment) (s d : Q) :
  dict_get visit_data "blood_pressure_systolic" = PNum s ->
  dict_get visit_data "blood_pressure_diastolic" = PNum d ->
  0 < s -> 0 < d ->
  calculate_cardiovascular_risk_score visit_data = Ok r ->
  exists c i,
    get_blood_pressure_category (PNum s) (PNum d) = Ok (Some c) /\
    bp_severity c = Some i /\
    ((i <= 1)%nat <->
       ~ In "Hypertension"%string (risk_factors r) /\
       ~ In "Elevated BP"%string (risk_factors r)) /\
    ((3 <= i)%nat -> In "Hypertension"%string (risk_factors r)) /\
    (In "Elevated BP"%string (risk_factors r) -> i = 2%nat).
Proof.
  intros Hs Hd Hsp Hdp Hr.
  assert (Hsz : ~ s == 0) by lra. assert (Hdz : ~ d == 0) by lra.
  destruct (pressure_factors_recorded visit_data r s d Hs Hd Hsz Hdz Hr) as [FH FE].
  destruct (bp_category_cases s d Hsp Hdp) as (c & i & Hc & Hi & Hcase).
  exists c, i. split; [exact Hc | split; [exact Hi | ]].
  rewrite FH, FE.
  destruct Hcase as [(-> & R)|[(-> & R)|[(-> & R)|[(-> & R)|(-> & R)]]]].
  - assert (HA : ~ (140 <= s \/ 90 <= d)) by (intros [X|X]; lra).
    assert (HB : ~ (130 <= s \/ 80 <= d)) by (intros [X|X]; lra).
    split; [split; [tauto | lia] | split; [lia | tauto]].
  - assert (HA : ~ (140 <= s \/ 90 <= d)) by (intros [X|X]; lra).
    assert (HB : ~ (130 <= s \/ 80 <= d)) by (intros [X|X]; lra).
    split; [split; [tauto | lia] | split; [lia | tauto]].
  - assert (HB : 130 <= s \/ 80 <= d) by tauto.
    split; [split; [lia | tauto] | split; [lia | reflexivity]].
  - assert (HA : 140 <= s \/ 90 <= d) by (left; lra).
    split; [split; [lia | tauto] | split; [tauto | tauto]].
  - assert (HA : 140 <= s \/ 90 <= d) by (left; lra).
    split; [split; [lia | tauto] | split; [tauto | tauto]].
Qed.

Lemma pressure_factor_matches_category_witness :
  exists c i,
    get_blood_pressure_category (PNum 135) (PNum 88) = Ok (Some c) /\
    bp_severity c = Some i /\
    ((i <= 1)%nat <->
       ~ In "Hypertension"%string ["Elevated BP"; "Prediabetes"]%string /\
       ~ In "Elevated BP"%string ["Elevated BP"; "Prediabetes"]%string) /\
    ((3 <= i)%nat -> In "Hypertension"%string ["Elevated BP"; "Prediabetes"]%string) /\
    (In "Elevated BP"%string ["Elevated BP"; "Prediabetes"]%string -> i = 2%nat).
Proof.
  apply (pressure_factor_matches_category metabolic_example
           {| risk_score := 2; risk_level := "Low Risk";
              risk_factors := ["Elevated BP"; "Prediabetes"]%string |} 135 88);
    [reflexivity | reflexivity | reflexivity | reflexivity | reflexivity].
Defined.

(** ** The corporate wellness summary, continued *)

Lemma count_distinct_bounds (l : list pyval) :
  (0 <= count_distinct l <= Z.of_nat (length l))%Z /\
  (l <> [] -> 1 <= count_distinct l)%Z.
Proof.
  induction l as [|x rest [IH1 IH2]]; [split; [simpl; lia | congruence] | ].
  change (count_distinct (x :: rest))
    with (if existsb (py_eqb x) rest then count_distinct rest
          else (1 + count_distinct rest)%Z).
  change (length (x :: rest)) with (S (length rest)).
  destruct (existsb (py_eqb x) rest) eqn:E.
  - split; [lia | ]. intros _. apply IH2. intros ->. discriminate E.
  - split; lia.
Qed.

Lemma company_names_length (screenings : list (gmap string pyval)) (names : list pyval) :
  company_names screenings = Ok names -> length names = length screenings.
Proof.
  revert names. induction screenings as [|s rest IH]; intros names H.
  - injection H as <-. reflexivity.
  - simpl in H. apply bind_ok in H as (c & _ & H).
    apply bind_ok in H as (cs & Hcs & H). injection H as <-.
    simpl. f_equal. by apply IH.
Qed.

(** X22.  In the corporate wellness summary the number of screenings is
    the number of rows, the number of companies served is at least one and
    at most the number of screenings, and the recent screenings are the
    first five rows at most. *)
Theorem wellness_summary_counts (screenings : list (gmap string pyval))
    (stats : summary_stats) (health_metrics : option avg_metrics)
    (recent : list (gmap string pyval)) :
  get_corporate_wellness_summary screenings =
    Ok (WellnessSummary stats health_metrics recent) ->
  total_screenings stats = Z.of_nat (length screenings) /\
  (1 <= companies_served stats <= total_screenings stats)%Z /\
  recent = take 5 screenings /\ (length recent <= 5)%nat.
Proof.
  unfold get_corporate_wellness_summary. intros H.
  destruct screenings as [|s rest]; [discriminate H | ].
  apply bind_ok in H as (total & _ & H). apply bind_ok in H as (w & _ & H).
  apply bind_ok in H as (names & Hn & H). injection H as <- <- <-.
  pose proof (company_names_length _ _ Hn) as Hlen.
  destruct (count_distinct_bounds names) as [Hb Hpos].
  rewrite Hlen in Hb. cbn [total_screenings companies_served].
  split; [reflexivity | split; [split; [ | exact (proj2 Hb)] | split; [reflexivity | ]]].
  - apply Hpos. intros ->. discriminate Hlen.
  - change (length (take 5 (s :: rest)) <= 5)%nat. rewrite length_take. lia.
Qed.

Lemma wellness_summary_counts_witness :
  exists stats health_metrics recent,
    get_corporate_wellness_summary [cohort_a; cohort_empty; cohort_b] =
      Ok (WellnessSummary stats health_metrics recent) /\
    (1 <= companies_served stats <= total_screenings stats)%Z.
Proof.
  eexists _, _, _. split; [reflexivity | ].
  exact (proj1 (proj2 (wellness_summary_counts [cohort_a; cohort_empty; cohort_b]
                         _ _ _ eq_refl))).
Defined.

(** A sum of terms between 0 and 100 times their weights stays between 0
    and 100 times the sum of the weights. *)
Lemma weighted_fold_bounds (m : gmap string pyval -> Q) (l : list (gmap string pyval))
    (a b : Q) :
  (forall s, In s l -> 0 <= participants_of s /\ 0 <= m s <= 100) ->
  0 <= a <= 100 * b ->
  0 <= fold_left Qplus (map (fun s => m s * participants_of s) l) a
    <= 100 * fold_left Qplus (map participants_of l) b.
Proof.
  revert a b. induction l as [|s rest IH]; intros a b Hl Hab; [exact Hab | ].
  simpl. apply IH.
  - intros s' Hs'. apply Hl. by right.
  - destruct (Hl s (or_introl eq_refl)) as [Hp Hm].
    set (p := participants_of s) in *. set (x := m s) in *. clearbody p x.
    split; nra.
Qed.

Lemma weighted_mean_percent (m : gmap string pyval -> Q)
    (l : list (gmap string pyval)) :
  (forall s, In s l -> 0 <= participants_of s /\ 0 <= m s <= 100) ->
  0 < fold_left Qplus (map participants_of l) 0 ->
  0 <= round1 (fold_left Qplus (map (fun s => m s * participants_of s) l) 0 /
               fold_left Qplus (map participants_of l) 0) <= 100.
Proof.
  intros Hl Hpos. apply round1_percent.
  destruct (weighted_fold_bounds m l 0 0 Hl) as [H0 H1]; [lra | ].
  split.
  - apply Qle_shift_div_l; [exact Hpos | ]. by rewrite Qmult_0_l.
  - apply Qle_shift_div_r; [exact Hpos | exact H1].
Qed.

(** X23.  The averaged prevalences of the corporate wellness summary are
    percentages: when every screening with participants reports
    prevalences between 0 and 100, each of the four averages is between 0
    and 100. *)
Theorem average_prevalences_are_percentages (screenings : list (gmap string pyval))
    (stats : summary_stats) (hm : avg_metrics) (recent : list (gmap string pyval)) :
  forallb screening_ok screenings = true ->
  (forall s key, In s screenings -> In key metric_keys ->
                 0 <= metric_of key s <= 100) ->
  get_corporate_wellness_summary screenings =
    Ok (WellnessSummary stats (Some hm) recent) ->
  0 <= avg_obesity_prevalence hm <= 100 /\
  0 <= avg_hypertension_prevalence hm <= 100 /\
  0 <= avg_diabetes_prevalence hm <= 100 /\
  0 <= avg_smoking_prevalence hm <= 100.
Proof.
  intros Hok Hm H. unfold get_corporate_wellness_summary in H.
  destruct screenings as [|s rest]; [discriminate H | ].
  rewrite (sum_participants_spec _ _ Hok), (weighted_loop_spec _ _ Hok) in H.
  destruct (company_names_ok _ Hok) as (names & Hnames). rewrite Hnames in H.
  rewrite !bind_Ok in H. cbn [total_weight weighted_obesity weighted_hypertension
    weighted_diabetes weighted_smoking] in H.
  destruct (Qle_bool_reflect
              (fold_left Qplus (map participants_of (counted (s :: rest))) 0) 0)
    as [|Hpos]; [discriminate H | ].
  apply Qnot_le_lt in Hpos. cbn [negb] in H. injection H as _ <- _.
  assert (Hc : forall key, In key metric_keys ->
            forall x, In x (counted (s :: rest)) ->
                      0 <= participants_of x /\ 0 <= metric_of key x <= 100).
  { intros key Hkey x Hx. unfold counted in Hx. apply filter_In in Hx as [Hin Hp].
    destruct (Qle_bool_reflect (participants_of x) 0) as [|Hp']; [discriminate Hp | ].
    apply Qnot_le_lt in Hp'. split; [by apply Qlt_le_weak | by apply Hm]. }
  cbn [avg_obesity_prevalence avg_hypertension_prevalence avg_diabetes_prevalence
       avg_smoking_prevalence].
  split; [ | split; [ | split]].
  - exact (weighted_mean_percent (metric_of "obesity_prevalence") (counted (s :: rest))
             (Hc "obesity_prevalence"%string ltac:(simpl; tauto)) Hpos).
  - exact (weighted_mean_percent (metric_of "hypertension_prevalence")
             (counted (s :: rest))
             (Hc "hypertension_prevalence"%string ltac:(simpl; tauto)) Hpos).
  - exact (weighted_mean_percent (metric_of "diabetes_prevalence") (counted (s :: rest))
             (Hc "diabetes_prevalence"%string ltac:(simpl; tauto)) Hpos).
  - exact (weighted_mean_percent (metric_of "smoking_prevalence") (counted (s :: rest))
             (Hc "smoking_prevalence"%string ltac:(simpl; tauto)) Hpos).
Qed.

Lemma average_prevalences_are_percentages_witness :
  exists stats hm recent,
    get_corporate_wellness_summary [cohort_a; cohort_empty; cohort_b] =
      Ok (WellnessSummary stats (Some hm) recent) /\
    0 <= avg_obesity_prevalence hm <= 100.
Proof.
  eexists _, _, _. split; [reflexivity | ].
  refine (proj1 (average_prevalences_are_percentages
                   [cohort_a; cohort_empty; cohort_b] _ _ _ eq_refl _ eq_refl)).
  intros s key Hs Hk. simpl in Hs, Hk.
  destruct Hs as [<-|[<-|[<-|[]]]]; destruct Hk as [<-|[<-|[<-|[<-|[]]]]];
    vm_compute; split; discriminate.
Defined.

(** ** The dashboard summary, continued *)







(** ** Saving a screening *)

(** X25.  A screening that [before_save] lets through has a company name,
    a start date that is not after its end date, and as many participants
    as there are visits in its period (zero when there is none). *)
Theorem screening_before_save_sound (screening_date_from screening_date_to : option Z)
    (visits : list (gmap string pyval)) (self d : CorporateScreening.t) :
  ScreeningLifecycle.before_save screening_date_from screening_date_to visits self
    = Passed d ->
  calculate_statistics visits self = Ok d /\
  company_name d <> ""%string /\
  (forall f t, screening_date_from = Some f -> screening_date_to = Some t ->
               (f <= t)%Z) /\
  total_participants d = Some (Z.of_nat (length visits)).
Proof.
  unfold ScreeningLifecycle.before_save, lift. intros H.
  destruct (ScreeningLifecycle.validate_screening_data _ _ self) as [[]|msg|e] eqn:Ev;
    try discriminate H.
  destruct (calculate_statistics visits self) as [d'|e] eqn:Es; [ | discriminate H].
  injection H as <-.
  unfold ScreeningLifecycle.validate_screening_data in Ev.
  apply throw_if_passed in Ev as [Hd Ev]. apply throw_if_passed in Ev as [Hc _].
  injection Hd as Hd. injection Hc as Hc.
  assert (Hfields : company_name d' = company_name self /\
                    total_participants d' = Some (Z.of_nat (length visits))).
  { destruct visits as [|v rest].
    - injection Es as <-. by split.
    - destruct (statistics_shape v rest)
        as [(e & E)|(g1 & g2 & g3 & o & h & di & s & r & _ & _ & _ & _ & _ & _ & E)];
        rewrite E in Es; [discriminate Es | ].
      injection Es as <-.
      match goal with
      | |- context [store_total_cost (set_high_risk_participants ?r'
           (store _ ?s' (store _ ?di' (store _ ?h' (store _ ?o'
             (set_demographics ?m' ?f' ?a ?b ?c (set_total_participants (Some ?n) ?x)))))))] =>
          destruct (statistics_fields o' h' di' s' r' m' f' a b c n x)
            as (F1 & _ & _ & _ & _ & _ & _ & _ & F8 & _)
      end.
      by split. }
  destruct Hfields as [Hname Htotal].
  split; [reflexivity | split; [ | split; [ | exact Htotal]]].
  - rewrite Hname. intros E. rewrite E in Hc. discriminate Hc.
  - intros f t -> ->. apply Z.ltb_ge in Hd. exact Hd.
Qed.

Lemma screening_before_save_sound_witness :
  exists d,
    ScreeningLifecycle.before_save (Some 10%Z) (Some 12%Z) [visit_participant]
      (new_doc "Acme" None) = Passed d /\
    total_participants d = Some 1%Z.
Proof.
  eexists. split; [reflexivity | ].
  exact (proj2 (proj2 (proj2
    (screening_before_save_sound (Some 10%Z) (Some 12%Z) [visit_participant]
       (new_doc "Acme" None) _ eq_refl)))).
Defined.
